(** * Verification of the market-dashboard core

    A shallow embedding of the reconnecting streaming client
    ([BinanceWebSocket]), the freshness cache ([getCachedData]), the data
    orchestrator hook ([useMarketData]) and the AI provider factory
    ([AIProviderFactory]), with the properties the specification states
    about them; then of the routes that report on the providers and serve
    the cached market data, and of the symbol search, with further
    properties of all of these.

    Conventions.
    - [Date.now()] is an integer number of milliseconds: [Z].
    - [Math.random()] is a rational in the unit interval: [Q].
    - Prices are IEEE doubles: [float] (so that [NaN] and signed zero behave
      as in the source's [!== 0] tests).
    - Counters that start at zero and are only incremented or reset: [nat].
    - A JavaScript [Map] or [process.env] is a [gmap].
    - An async function is split at its [await]s: the part before the first
      [await], and the continuation resumed with the settled promise.
    - A handler that runs to completion reads the clock once: the
      [Date.now()] calls of one synchronous run return the same value.
    - Listeners are outputs: invoking one appends a notice to a trace.
    - A number that [parseInt] returned is an integer or [NaN]:
      [option Z]. *)

From Stdlib Require Import ZArith QArith Floats Ascii String Sorted Lia Lqa.
From stdpp Require Import base option list gmap strings.
From coqutil Require Import Datatypes.RecordSetters.
Import TriangleBracketNotations.

Local Open Scope string_scope.
Local Open Scope list_scope.
Local Open Scope Z_scope.

Set Warnings "-register-all,-inexact-float".

(** ** Promises *)

(** How a promise settles: fulfilled with a value or rejected with the
    thrown error. *)
Inductive Settled (T E : Type) : Type :=
| Fulfilled (v : T)
| Rejected (e : E).
Arguments Fulfilled {T E} v.
Arguments Rejected {T E} e.

(** Evaluate [e]; go on with its value, or stop with what it threw. *)
Notation "'try!' x := e ; k" :=
  (match e with Fulfilled x => k | Rejected err => Rejected err end)
  (at level 10, x name, e at level 100, k at level 200,
   format "'[v' 'try!'  x  :=  e ; '/' k ']'").

(** ** The freshness cache ([getCachedData], app/api/ai/analyze/route.ts) *)

Module Cache.

Section Cache.
Context {T E : Type}.

(** [interface CacheEntry { data; timestamp; ttl }] *)
Record CacheEntry : Type := { data : T; timestamp : Z; ttl : Z }.

(** [cleanupCache]: delete every entry with [now - timestamp > ttl]. *)
Definition cleanupCache (now : Z) (cache : gmap string CacheEntry)
  : gmap string CacheEntry :=
  filter (λ kv, ¬ (now - timestamp kv.2 > ttl kv.2)) cache.

(** What the synchronous part of one call reads from its environment:
    [Math.random()] and [Date.now()]. *)
Record Readings : Type := { random : Q; now : Z }.

(** [if (Math.random() < 0.1) cleanupCache()] *)
Definition maybeCleanup (rd : Readings) (cache : gmap string CacheEntry)
  : gmap string CacheEntry :=
  if Qlt_le_dec (random rd) (1 # 10) then cleanupCache (now rd) cache
  else cache.

(** [cached && Date.now() - cached.timestamp < cached.ttl] *)
Definition isFresh (now0 : Z) (cached : option CacheEntry) : bool :=
  match cached with
  | Some c => bool_decide (now0 - timestamp c < ttl c)
  | None => false
  end.

(** The synchronous part of [getCachedData], up to [await fetchFn()]:
    either the cached value is returned, or [fetchFn] is called and the
    function suspends holding [cached]. *)
Inductive Begun : Type :=
| Hit (v : T)
| CallFetch (cached : option CacheEntry).

Definition getCachedData_begin (rd : Readings) (key : string)
    (cache : gmap string CacheEntry) : gmap string CacheEntry * Begun :=
  let cache := maybeCleanup rd cache in
  let cached := cache !! key in
  match cached with
  | Some c => if isFresh (now rd) cached then (cache, Hit (data c))
              else (cache, CallFetch cached)
  | None => (cache, CallFetch cached)
  end.

(** The continuation after [await fetchFn()]; [nowStore] is [Date.now()]
    when the fetched value is stored. *)
Definition getCachedData_resume (nowStore : Z) (key : string) (ttl0 : Z)
    (cached : option CacheEntry) (fetched : Settled T E)
    (cache : gmap string CacheEntry) : gmap string CacheEntry * Settled T E :=
  match fetched with
  | Fulfilled d =>
      (<[key := {| data := d; timestamp := nowStore; ttl := ttl0 |}]> cache,
       Fulfilled d)
  | Rejected err =>
      match cached with
      | Some c => (cache, Fulfilled (data c))
      | None => (cache, Rejected err)
      end
  end.

(** One whole call with nothing interleaved at the [await].  [fetchCalls]
    counts the invocations of [fetchFn]. *)
Record Run : Type :=
  { cacheAfter : gmap string CacheEntry;
    returned : Settled T E;
    fetchCalls : nat }.

Definition getCachedData (rd : Readings) (nowStore : Z) (key : string)
    (fetchFn : unit -> Settled T E) (ttl0 : Z)
    (cache : gmap string CacheEntry) : Run :=
  match getCachedData_begin rd key cache with
  | (cache1, Hit v) =>
      {| cacheAfter := cache1; returned := Fulfilled v; fetchCalls := 0 |}
  | (cache1, CallFetch cached) =>
      let '(cache2, r) :=
        getCachedData_resume nowStore key ttl0 cached (fetchFn tt) cache1 in
      {| cacheAfter := cache2; returned := r; fetchCalls := 1 |}
  end.

End Cache.

Arguments CacheEntry : clear implicits.
Arguments Run : clear implicits.

(** The cache of the scenario: one entry, stored at time 0 with a TTL of
    five minutes. *)
Definition staleCache : gmap string (CacheEntry Z) :=
  {[ "market-sentiment" := {| data := 42; timestamp := 0; ttl := 300000 |} ]}.

(** A fetch function that fails. *)
Definition failingFetch (_ : unit) : Settled Z string := Rejected "upstream unavailable".

End Cache.

(** ** The AI provider factory (lib/ai-providers) *)

Module Providers.

(** [type AIProviderType = 'claude' | 'openai' | 'groq' | 'huggingface' | 'ollama'] *)
Inductive AIProviderType : Type := claude | openai | groq | huggingface | ollama.

#[export] Instance AIProviderType_eq_dec : EqDecision AIProviderType.
Proof. solve_decision. Defined.

(** The string a provider type is at run time. *)
Definition typeName (t : AIProviderType) : string :=
  match t with
  | claude => "claude"
  | openai => "openai"
  | groq => "groq"
  | huggingface => "huggingface"
  | ollama => "ollama"
  end.

(** [interface AIProviderConfig] (the fields availability depends on). *)
Record AIProviderConfig : Type :=
  { apiKey : string; model : option string; baseUrl : option string }.

(** A provider object: its class, the [config] it was constructed with and,
    for the two SDK-backed classes, whether the constructor built a
    [client]. *)
Record AIProvider : Type :=
  { kind : AIProviderType; config : AIProviderConfig; client : bool }.

(** Truthiness of a string: [!!s]. *)
Definition truthy (s : string) : bool := negb (String.eqb s "").

(** [a || b] for [a : string | undefined]. *)
Definition orElse (a : option string) (b : string) : string :=
  match a with
  | Some s => if truthy s then s else b
  | None => b
  end.

Definition getName (p : AIProvider) : string := typeName (kind p).

(** [isAvailable()] of each class: Groq and HuggingFace test the API key,
    Claude and OpenAI the client and the key, Ollama is always available. *)
Definition isAvailable (p : AIProvider) : bool :=
  match kind p with
  | groq | huggingface => truthy (apiKey (config p))
  | claude | openai => client p && truthy (apiKey (config p))
  | ollama => true
  end.

(** [isFree()] of each class. *)
Definition isFree (p : AIProvider) : bool :=
  match kind p with
  | claude | openai => false
  | groq | huggingface | ollama => true
  end.

Section Factory.
(** [process.env] *)
Variable env : gmap string string.

Definition getEnvValue (key : string) : option string := env !! key.

(** [createProvider(type)] with no [customConfig]; the SDK-backed
    constructors build their client [if (config.apiKey)]. *)
Definition createProvider (type : AIProviderType) : AIProvider :=
  match type with
  | claude =>
      let k := orElse (getEnvValue "ANTHROPIC_API_KEY") "" in
      {| kind := claude;
         config := {| apiKey := k;
                      model := Some (orElse (getEnvValue "CLAUDE_MODEL") "claude-3-haiku-20240307");
                      baseUrl := None |};
         client := truthy k |}
  | openai =>
      let k := orElse (getEnvValue "OPENAI_API_KEY") "" in
      {| kind := openai;
         config := {| apiKey := k;
                      model := Some (orElse (getEnvValue "OPENAI_MODEL") "gpt-3.5-turbo");
                      baseUrl := None |};
         client := truthy k |}
  | groq =>
      {| kind := groq;
         config := {| apiKey := orElse (getEnvValue "GROQ_API_KEY") "";
                      model := Some (orElse (getEnvValue "GROQ_MODEL") "llama3-8b-8192");
                      baseUrl := None |};
         client := false |}
  | huggingface =>
      {| kind := huggingface;
         config := {| apiKey := orElse (getEnvValue "HUGGINGFACE_API_KEY") "";
                      model := Some (orElse (getEnvValue "HUGGINGFACE_MODEL") "microsoft/DialoGPT-medium");
                      baseUrl := None |};
         client := false |}
  | ollama =>
      {| kind := ollama;
         config := {| apiKey := "";
                      model := Some (orElse (getEnvValue "OLLAMA_MODEL") "llama3.2");
                      baseUrl := Some (orElse (getEnvValue "OLLAMA_BASE_URL") "http://localhost:11434") |};
         client := false |}
  end.

(** Which providers the environment makes available. *)
Definition availableIn (type : AIProviderType) : bool :=
  isAvailable (createProvider type).

(** [getAllProviders()] *)
Definition getAllProviders : list AIProvider :=
  map createProvider [claude; openai; groq; huggingface; ollama].

(** [priorityOrder] of [getDefaultProvider]. *)
Definition priorityOrder : list AIProviderType :=
  [groq; ollama; huggingface; claude; openai].

(** [providers.find(p => p.getName() === type)] *)
Definition findByName (providers : list AIProvider) (type : AIProviderType)
  : option AIProvider :=
  find (λ p, String.eqb (getName p) (typeName type)) providers.

(** The [for (const type of priorityOrder)] loop: the first type whose
    provider [?.isAvailable()]. *)
Fixpoint firstInPriority (providers : list AIProvider)
    (order : list AIProviderType) : option AIProviderType :=
  match order with
  | [] => None
  | type :: rest =>
      match findByName providers type with
      | Some p => if isAvailable p then Some type
                  else firstInPriority providers rest
      | None => firstInPriority providers rest
      end
  end.

(** The body of [getDefaultProvider] after [const providers = ...]. *)
Definition getDefaultProviderFrom (providers : list AIProvider)
  : AIProviderType :=
  match firstInPriority providers priorityOrder with
  | Some type => type
  | None =>
      match find isAvailable providers with
      | Some p => kind p
      | None => groq
      end
  end.

Definition getDefaultProvider : AIProviderType :=
  getDefaultProviderFrom getAllProviders.

(** [['claude', 'openai', 'groq', 'huggingface', 'ollama'].includes(preferred)],
    with the cast to [AIProviderType] it justifies. *)
Definition includes (preferred : string) : option AIProviderType :=
  find (λ t, String.eqb (typeName t) preferred)
       [claude; openai; groq; huggingface; ollama].

(** [getPreferredProvider()] *)
Definition getPreferredProvider : AIProviderType :=
  match getEnvValue "AI_PROVIDER" with
  | Some preferred =>
      if truthy preferred then
        match includes preferred with
        | Some type =>
            if isAvailable (createProvider type) then type
            else getDefaultProvider
        | None => getDefaultProvider
        end
      else getDefaultProvider
  | None => getDefaultProvider
  end.

End Factory.

(** The selection as the specification words it: a function of the
    preference and of which providers are available. *)
Definition firstAvailable (available : AIProviderType -> bool) : AIProviderType :=
  default groq (find available [groq; ollama; huggingface; claude; openai]).

Definition namesValidProvider (preferred : option string) : option AIProviderType :=
  match preferred with
  | Some s =>
      if String.eqb s "claude" then Some claude
      else if String.eqb s "openai" then Some openai
      else if String.eqb s "groq" then Some groq
      else if String.eqb s "huggingface" then Some huggingface
      else if String.eqb s "ollama" then Some ollama
      else None
  | None => None
  end.

Definition selectProvider (preferred : option string)
    (available : AIProviderType -> bool) : AIProviderType :=
  match namesValidProvider preferred with
  | Some t => if available t then t else firstAvailable available
  | None => firstAvailable available
  end.

End Providers.

(** ** The dedup/sort stage *)

Module Dedup.

(** [Observation]: one timestamped price/volume sample. *)
Record Observation : Type :=
  { time : Z; open : float; high : float; low : float; close : float;
    volume : float }.

(** Modelled from the spec: the dedup/sort stage lives in the chart
    component (components/TradingChart.tsx), which is not among the
    sources.  Following the specification, observations are taken in the
    order received and kept in ascending [time]; one that arrives with a
    [time] already present replaces the entry held for that [time]. *)
Fixpoint insertObservation (o : Observation) (l : list Observation)
  : list Observation :=
  match l with
  | [] => [o]
  | x :: rest =>
      if time o <? time x then o :: x :: rest
      else if time o =? time x then o :: rest
      else x :: insertObservation o rest
  end.

Definition dedupSort (received : list Observation) : list Observation :=
  fold_left (λ acc o, insertObservation o acc) received [].

(** The observation received last among those with time [t]. *)
Definition lastReceived (t : Z) (received : list Observation)
  : option Observation :=
  fold_left (λ held o, if time o =? t then Some o else held) received None.

(** Strictly earlier. *)
Definition before (a b : Observation) : Prop := time a < time b.

(** The entry a sequence holds for time [t]. *)
Definition entryAt (t : Z) (l : list Observation) : option Observation :=
  find (λ o, time o =? t) l.

End Dedup.

(** ** JavaScript values *)

Module Js.

(** What [JSON.parse] returns, and [undefined]. *)
Inductive value : Type :=
| undefined
| null
| boolean (b : bool)
| number (x : float)
| str (s : string)
| array (items : list value)
| object (fields : list (string * value)).

(** [!!v] *)
Definition truthy (v : value) : bool :=
  match v with
  | undefined | null => false
  | boolean b => b
  | number x => negb (PrimFloat.eqb x 0 || PrimFloat.is_nan x)
  | str s => negb (String.eqb s "")
  | array _ | object _ => true
  end.

Fixpoint lookupField (k : string) (fields : list (string * value)) : value :=
  match fields with
  | [] => undefined
  | (k', v) :: rest => if String.eqb k' k then v else lookupField k rest
  end.

(** [v.k] for a key [k] that is no built-in property: a [TypeError] on
    [undefined] and [null], the field of an object, [undefined] on the
    other values. *)
Definition getProp (v : value) (k : string) : Settled value string :=
  match v with
  | undefined => Rejected ("TypeError: Cannot read properties of undefined (reading '" ++ k ++ "')")%string
  | null => Rejected ("TypeError: Cannot read properties of null (reading '" ++ k ++ "')")%string
  | object fields => Fulfilled (lookupField k fields)
  | _ => Fulfilled undefined
  end.

(** [v === s] for a string literal [s]. *)
Definition isString (v : value) (s : string) : bool :=
  match v with
  | str s' => String.eqb s' s
  | _ => false
  end.

(** [x !== 0] on numbers: false on both zeros, true on [NaN]. *)
Definition nonzero (x : float) : bool := negb (PrimFloat.eqb x 0).

(** [s.toLowerCase()] on ASCII. *)
Definition lowerAscii (c : ascii) : ascii :=
  let n := nat_of_ascii c in
  if ((65 <=? n)%nat && (n <=? 90)%nat)%bool then ascii_of_nat (n + 32) else c.

Fixpoint toLowerCase (s : string) : string :=
  match s with
  | EmptyString => EmptyString
  | String c rest => String (lowerAscii c) (toLowerCase rest)
  end.

End Js.

(** [interface WebSocketTickerData]: the object handed to the ticker
    listener.  Types are erased at run time, so each field holds whatever
    value the client put there. *)
Module Ticker.
Record WebSocketTickerData : Type :=
  { e : Js.value; E : Js.value; s : Js.value; c : Js.value; o : Js.value;
    h : Js.value; l : Js.value; P : Js.value; p : Js.value }.
End Ticker.

(** ** The streaming client ([class BinanceWebSocket], circuit-breaker
    revision) *)

Module WS.

(** [WebSocket.readyState] *)
Inductive ReadyState : Type := CONNECTING | OPEN | CLOSING | CLOSED.

#[export] Instance ReadyState_eq_dec : EqDecision ReadyState.
Proof. solve_decision. Defined.

(** The callbacks the client hands to [setTimeout] and [setInterval]. *)
Inductive TimerKind : Type :=
| ConnectionTimeout   (* connect: 10 s handshake timeout *)
| ExtendedBackoff     (* connect: retry after too many attempts *)
| ErrorRetry          (* onerror: reconnect evaluation after 5 s *)
| Reconnect           (* handleReconnect: the backoff delay *)
| Heartbeat           (* startHeartbeat: 60 s interval *)
| DataTimeoutCheck    (* startDataTimeoutCheck: 30 s interval *)
| ChangeStream.       (* changeStream: connect after 500 ms *)

(** A pending timer of the host's timer queue. *)
Record Timer : Type :=
  { handle : nat; callback : TimerKind; delay : Q; repeats : bool }.

(** [getErrorMessage]'s argument. *)
Inductive ErrorEv : Type :=
| ErrorEvent (message : string)
| PlainEvent (type : string).

(** What the client does to the outside: listener invocations, sockets
    created and closed, and the circuit-breaker console line. *)
Inductive Notice : Type :=
| KlineUpdate (data : Js.value)
| TickerUpdate (t : Ticker.WebSocketTickerData)
| ConnectionChange (connected : bool)
| ErrorCallback (error : string)
| NewWebSocket (id : nat) (url : string)
| Close (id : nat) (code : option Z)
| ConsoleBreakerActiveFor (breakerDelay : Z).

(** The instance's fields, followed by the part of the host it acts on:
    the sockets it created (a socket's id is its index), the timer queue
    and the notices so far (oldest first).  A listener field tells whether
    a listener is registered; a registered listener is assumed to return
    normally. *)
Record State : Type :=
  { ws : option nat;
    symbol : string;
    interval : string;
    onKlineUpdate : bool;
    onTickerUpdate : bool;
    onConnectionChange : bool;
    onErrorCallback : bool;
    reconnectAttempts : nat;
    maxReconnectAttempts : nat;
    connectionTimeout : option nat;
    isConnecting : bool;
    lastConnectionTime : Z;
    pingInterval : option nat;
    lastDataReceived : Z;
    dataTimeoutCheck : option nat;
    errorCount : nat;
    lastErrorTime : Z;
    circuitBreakerDelay : Z;
    isCircuitBreakerActive : bool;
    connectionAttempts : nat;
    lastSuccessfulConnection : Z;
    currentUrlIndex : nat;
    sockets : list ReadyState;
    timers : list Timer;
    nextHandle : nat;
    out : list Notice }.

Definition wsUrls : list string :=
  ["wss://stream.binance.com:9443";
   "wss://stream.binance.com:443";
   "wss://data-stream.binance.vision"].

(** [new BinanceWebSocket(symbol, interval)] *)
Definition create (symbol0 interval0 : string) : State :=
  {| ws := None;
     symbol := Js.toLowerCase symbol0;
     interval := interval0;
     onKlineUpdate := false;
     onTickerUpdate := false;
     onConnectionChange := false;
     onErrorCallback := false;
     reconnectAttempts := 0;
     maxReconnectAttempts := 3;
     connectionTimeout := None;
     isConnecting := false;
     lastConnectionTime := 0;
     pingInterval := None;
     lastDataReceived := 0;
     dataTimeoutCheck := None;
     errorCount := 0;
     lastErrorTime := 0;
     circuitBreakerDelay := 15000;
     isCircuitBreakerActive := false;
     connectionAttempts := 0;
     lastSuccessfulConnection := 0;
     currentUrlIndex := 0;
     sockets := [];
     timers := [];
     nextHandle := 1;
     out := [] |}.

(** What a handler run reads from its environment: [Date.now()],
    [Math.random()], and whether [new WebSocket(url)] throws. *)
Record Readings : Type :=
  { now : Z; random : Q; ctorThrows : option string }.

Definition emit (n : Notice) (st : State) : State :=
  st <| out := out st ++ [n] |>.

(** [setTimeout(cb, delay)] / [setInterval(cb, delay)]: the new handle and
    the state with the timer queued. *)
Definition setTimer (cb : TimerKind) (d : Q) (rep : bool) (st : State)
  : nat * State :=
  let h := nextHandle st in
  (h, st <| timers := timers st ++
                      [{| handle := h; callback := cb; delay := d; repeats := rep |}] |>
         <| nextHandle := S h |>).

(** [clearTimeout(h)] / [clearInterval(h)] *)
Definition clearTimer (h : nat) (st : State) : State :=
  st <| timers := filter (λ t, handle t ≠ h) (timers st) |>.

(** [this.onErrorCallback?.(error)] *)
Definition handleConnectionError (error : string) (st : State) : State :=
  if onErrorCallback st then emit (ErrorCallback error) st else st.

(** [this.onConnectionChange?.(connected)] *)
Definition notifyConnection (connected : bool) (st : State) : State :=
  if onConnectionChange st then emit (ConnectionChange connected) st else st.

Definition readyState (st : State) (id : nat) : option ReadyState :=
  sockets st !! id.

(** [this.ws?.readyState === WebSocket.OPEN] *)
Definition isConnected (st : State) : bool :=
  match ws st with
  | Some id => bool_decide (readyState st id = Some OPEN)
  | None => false
  end.

(** [socket.close(code)]: a connecting or open socket starts closing. *)
Definition closeSocket (id : nat) (code : option Z) (st : State) : State :=
  let st := emit (Close id code) st in
  match readyState st id with
  | Some CONNECTING | Some OPEN => st <| sockets := <[id := CLOSING]> (sockets st) |>
  | _ => st
  end.

Definition getErrorMessage (error : ErrorEv) : string :=
  match error with
  | ErrorEvent message =>
      if Js.truthy (Js.str message) then message else "Unknown WebSocket error"
  | PlainEvent type =>
      ("Connection error: " ++ (if Js.truthy (Js.str type) then type else "error"))%string
  end.

Definition stopHeartbeat (st : State) : State :=
  match pingInterval st with
  | Some h => (clearTimer h st) <| pingInterval := None |>
  | None => st
  end.

Definition startHeartbeat (st : State) : State :=
  let st := stopHeartbeat st in
  let '(h, st) := setTimer Heartbeat 60000 true st in
  st <| pingInterval := Some h |>.

Definition stopDataTimeoutCheck (st : State) : State :=
  match dataTimeoutCheck st with
  | Some h => (clearTimer h st) <| dataTimeoutCheck := None |>
  | None => st
  end.

Definition startDataTimeoutCheck (st : State) : State :=
  let st := stopDataTimeoutCheck st in
  let '(h, st) := setTimer DataTimeoutCheck 30000 true st in
  st <| dataTimeoutCheck := Some h |>.

(** [handleReconnect()] *)
Definition handleReconnect (rd : Readings) (st : State) : State :=
  if isCircuitBreakerActive st then st
  else if (reconnectAttempts st <? maxReconnectAttempts st)%nat then
    let st := st <| reconnectAttempts := S (reconnectAttempts st) |> in
    let st :=
      if (1 <? reconnectAttempts st)%nat
      then st <| currentUrlIndex := ((currentUrlIndex st + 1) mod length wsUrls)%nat |>
      else st in
    let baseDelay :=
      Z.min (3000 * 2 ^ (Z.of_nat (reconnectAttempts st) - 1)) 60000 in
    let jitter := (random rd * 2000)%Q in
    snd (setTimer Reconnect (inject_Z baseDelay + jitter)%Q false st)
  else
    let st := st <| isCircuitBreakerActive := true |>
                 <| lastErrorTime := now rd |> in
    handleConnectionError "Max reconnection attempts reached" st.

(** [connect()] *)
Definition connect (rd : Readings) (st : State) : State :=
  if bool_decide (now rd - lastConnectionTime st < 3000) then st
  else if isConnecting st then st
  else if isCircuitBreakerActive st
          && bool_decide (now rd - lastErrorTime st < circuitBreakerDelay st)
  then st
  else
    let st :=
      if isCircuitBreakerActive st
      then st <| isCircuitBreakerActive := false |> <| errorCount := 0%nat |>
      else st in
    let st := st <| connectionAttempts := S (connectionAttempts st) |> in
    if (5 <? connectionAttempts st)%nat
       && bool_decide (now rd - lastSuccessfulConnection st > 60000)
    then
      let extendedDelay := Z.min (Z.of_nat (connectionAttempts st) * 5000) 60000 in
      snd (setTimer ExtendedBackoff (inject_Z extendedDelay) false st)
    else
      let st := st <| isConnecting := true |> <| lastConnectionTime := now rd |> in
      let st :=
        match connectionTimeout st with
        | Some h => clearTimer h st
        | None => st
        end in
      match ctorThrows rd with
      | None =>
          let id := length (sockets st) in
          let wsUrl :=
            (nth (currentUrlIndex st) wsUrls "undefined" ++ "/ws/"
             ++ symbol st ++ "@kline_" ++ interval st)%string in
          let st := emit (NewWebSocket id wsUrl) st in
          let st := st <| sockets := sockets st ++ [CONNECTING] |>
                       <| ws := Some id |> in
          let '(h, st) := setTimer ConnectionTimeout 10000 false st in
          st <| connectionTimeout := Some h |>
      | Some error =>
          let st := st <| isConnecting := false |> in
          let st := handleConnectionError ("Failed to create WebSocket: " ++ error)%string st in
          let st := st <| errorCount := S (errorCount st) |> in
          if (3 <=? errorCount st)%nat
          then st <| isCircuitBreakerActive := true |> <| lastErrorTime := now rd |>
          else st
      end.

(** [ws.onopen] *)
Definition onopen (rd : Readings) (st : State) : State :=
  let st := st <| isConnecting := false |>
               <| reconnectAttempts := 0%nat |>
               <| errorCount := 0%nat |>
               <| connectionAttempts := 0%nat |>
               <| lastSuccessfulConnection := now rd |>
               <| currentUrlIndex := 0%nat |>
               <| isCircuitBreakerActive := false |> in
  let st :=
    match connectionTimeout st with
    | Some h => (clearTimer h st) <| connectionTimeout := None |>
    | None => st
    end in
  let st := startHeartbeat st in
  let st := startDataTimeoutCheck st in
  let st := st <| lastDataReceived := now rd |> in
  notifyConnection true st.

(** The [try] block of [ws.onmessage] after [JSON.parse] returned [data];
    [Rejected] when a property access throws. *)
Definition dispatch (data : Js.value) (st : State) : Settled State string :=
  try! ev := Js.getProp data "e";
  if Js.isString ev "kline" then
    let st := if onKlineUpdate st then emit (KlineUpdate data) st else st in
    try! k := Js.getProp data "k";
    if Js.truthy k then
      try! kc := Js.getProp k "c";
      if Js.truthy kc then
        try! dE := Js.getProp data "E";
        try! ds := Js.getProp data "s";
        try! ko := Js.getProp k "o";
        try! kh := Js.getProp k "h";
        try! kl := Js.getProp k "l";
        let tickerData :=
          {| Ticker.e := Js.str "24hrTicker";
             Ticker.E := dE;
             Ticker.s := ds;
             Ticker.c := kc;
             Ticker.o := ko;
             Ticker.h := kh;
             Ticker.l := kl;
             Ticker.P := Js.str "0.00";
             Ticker.p := Js.str "0.00" |} in
        Fulfilled (if onTickerUpdate st
                   then emit (TickerUpdate tickerData) st else st)
      else Fulfilled st
    else Fulfilled st
  else Fulfilled st.

(** [ws.onmessage]; [parsed] is how [JSON.parse(event.data)] ends. *)
Definition onmessage (rd : Readings) (parsed : Settled Js.value string)
    (st : State) : State :=
  let st := st <| lastDataReceived := now rd |> in
  let st := if isConnected st then notifyConnection true st else st in
  let st' :=
    match parsed with
    | Fulfilled data => dispatch data st
    | Rejected err => Rejected err
    end in
  match st' with
  | Fulfilled st => st
  | Rejected error =>
      handleConnectionError ("Message parsing error: " ++ error)%string st
  end.

(** [ws.onclose] *)
Definition onclose (rd : Readings) (code : Z) (st : State) : State :=
  let st := st <| isConnecting := false |> in
  let st :=
    match connectionTimeout st with
    | Some h => (clearTimer h st) <| connectionTimeout := None |>
    | None => st
    end in
  let st := stopHeartbeat st in
  let st := stopDataTimeoutCheck st in
  let st := notifyConnection false st in
  if bool_decide (code ≠ 1000) && negb (isCircuitBreakerActive st)
  then handleReconnect rd st
  else st.

(** [ws.onerror] *)
Definition onerror (rd : Readings) (error : ErrorEv) (st : State) : State :=
  let st := st <| isConnecting := false |> in
  let errorMsg := getErrorMessage error in
  let st := st <| errorCount := S (errorCount st) |>
               <| lastErrorTime := now rd |> in
  let st := handleConnectionError errorMsg st in
  let st := notifyConnection false st in
  if (3 <=? errorCount st)%nat then
    let st := st <| isCircuitBreakerActive := true |> in
    let breakerDelay :=
      Z.min (circuitBreakerDelay st * Z.of_nat (errorCount st)) 120000 in
    emit (ConsoleBreakerActiveFor breakerDelay) st
  else
    snd (setTimer ErrorRetry 5000 false st).

(** [disconnect()] *)
Definition disconnect (st : State) : State :=
  let st :=
    match connectionTimeout st with
    | Some h => (clearTimer h st) <| connectionTimeout := None |>
    | None => st
    end in
  let st := stopHeartbeat st in
  let st := stopDataTimeoutCheck st in
  let st := st <| isConnecting := false |>
               <| reconnectAttempts := 0%nat |>
               <| errorCount := 0%nat |>
               <| isCircuitBreakerActive := false |>
               <| connectionAttempts := 0%nat |> in
  match ws st with
  | Some id => (closeSocket id (Some 1000) st) <| ws := None |>
  | None => st
  end.

(** [changeStream(symbol, interval)] *)
Definition changeStream (symbol0 interval0 : string) (st : State) : State :=
  let st := st <| symbol := Js.toLowerCase symbol0 |>
               <| interval := interval0 |>
               <| currentUrlIndex := 0%nat |>
               <| reconnectAttempts := 0%nat |>
               <| errorCount := 0%nat |>
               <| isCircuitBreakerActive := false |>
               <| connectionAttempts := 0%nat |> in
  let st := notifyConnection false st in
  let st := disconnect st in
  snd (setTimer ChangeStream 500 false st).

(** The body of each timer callback. *)
Definition runTimer (cb : TimerKind) (rd : Readings) (st : State) : State :=
  match cb with
  | ConnectionTimeout =>
      match ws st with
      | Some id =>
          if bool_decide (readyState st id = Some CONNECTING) then
            let st := handleConnectionError "Connection timeout" st in
            closeSocket id None st
          else st
      | None => st
      end
  | ExtendedBackoff =>
      if negb (isConnected st) then connect rd st else st
  | ErrorRetry =>
      if negb (isConnected st)
         && (reconnectAttempts st <? maxReconnectAttempts st)%nat
         && negb (isCircuitBreakerActive st)
      then handleReconnect rd st else st
  | Reconnect =>
      if negb (isConnected st) && negb (isCircuitBreakerActive st)
      then connect rd st else st
  | Heartbeat => st
  | DataTimeoutCheck =>
      match ws st with
      | Some id =>
          if bool_decide (readyState st id = Some OPEN) then
            if bool_decide (now rd - lastDataReceived st > 60000) then
              let st :=
                handleConnectionError "Data timeout - no price updates received" st in
              closeSocket id (Some 1000) st
            else st
          else st
      | None => st
      end
  | ChangeStream => connect rd st
  end.

(** What can happen to an instance: a call of its public interface, an
    event of one of its sockets, or a pending timer coming due. *)
Inductive Event : Type :=
| CallConnect
| CallDisconnect
| CallChangeStream (symbol0 interval0 : string)
| CallOnKline | CallOnTicker | CallOnConnection | CallOnError
| SocketOpen (id : nat)
| SocketMessage (id : nat) (parsed : Settled Js.value string)
| SocketClose (id : nat) (code : Z)
| SocketError (id : nat) (error : ErrorEv)
| TimerDue (h : nat).

Definition setReadyState (id : nat) (r : ReadyState) (st : State) : State :=
  st <| sockets := <[id := r]> (sockets st) |>.

(** A timer that is due runs its callback; a one-shot timer leaves the
    queue first.  A handle that is not pending does nothing. *)
Definition timerDue (h : nat) (rd : Readings) (st : State) : State :=
  match find (λ t, bool_decide (handle t = h)) (timers st) with
  | Some t =>
      let st := if repeats t then st else clearTimer h st in
      runTimer (callback t) rd st
  | None => st
  end.

(** One step of the instance in its host.  The host sets a socket's
    [readyState] before it dispatches the socket's event; events of an id
    that names no socket are ignored. *)
Definition step (rd : Readings) (ev : Event) (st : State) : State :=
  match ev with
  | CallConnect => connect rd st
  | CallDisconnect => disconnect st
  | CallChangeStream symbol0 interval0 => changeStream symbol0 interval0 st
  | CallOnKline => st <| onKlineUpdate := true |>
  | CallOnTicker => st <| onTickerUpdate := true |>
  | CallOnConnection => st <| onConnectionChange := true |>
  | CallOnError => st <| onErrorCallback := true |>
  | SocketOpen id =>
      if bool_decide (readyState st id = Some CONNECTING)
      then onopen rd (setReadyState id OPEN st) else st
  | SocketMessage id parsed =>
      if bool_decide (readyState st id = Some OPEN)
      then onmessage rd parsed st else st
  | SocketClose id code =>
      match readyState st id with
      | Some CLOSED | None => st
      | Some _ => onclose rd code (setReadyState id CLOSED st)
      end
  | SocketError id error =>
      match readyState st id with
      | Some CLOSED | None => st
      | Some _ => onerror rd error st
      end
  | TimerDue h => timerDue h rd st
  end.

(** A run: each event with the readings its handler makes. *)
Definition run (evs : list (Readings * Event)) (st : State) : State :=
  fold_left (λ st re, step re.1 re.2 st) evs st.

(** The invocations of the ticker listener among some notices. *)
Definition tickerUpdates (notices : list Notice)
  : list Ticker.WebSocketTickerData :=
  omap (λ n, match n with TickerUpdate t => Some t | _ => None end) notices.

(** The sockets created among some notices. *)
Definition socketsCreated (notices : list Notice) : list nat :=
  omap (λ n, match n with NewWebSocket id _ => Some id | _ => None end) notices.

(** The cooldowns announced on the console when the breaker trips. *)
Definition breakerAnnouncements (notices : list Notice) : list Z :=
  omap (λ n, match n with ConsoleBreakerActiveFor d => Some d | _ => None end)
       notices.

(** [handleReconnect] queues a [Reconnect] timer. *)
Definition schedulesReconnect (rd : Readings) (st : State) : Prop :=
  ∃ t, timers (handleReconnect rd st) = timers st ++ [t]
       ∧ callback t = Reconnect.

End WS.

(** ** The data orchestrator ([useMarketData]) *)

Module Hook.

(** [ProcessedCandle] *)
Record ProcessedCandle : Type :=
  { time : float; open : float; high : float; low : float; close : float;
    volume : float }.

(** The 24h ticker of the REST endpoint ([TickerData]): the fields read. *)
Module Rest.
Record TickerData : Type :=
  { lastPrice : string; priceChange : string; priceChangePercent : string }.
End Rest.

(** What the hook calls and this development leaves open: the host's
    [parseFloat], and the analysis library. *)
Class Collaborators : Type :=
  { MarketAnalysis : Type;
    IndicatorArrays : Type;
    parseFloat : Js.value -> float;
    analyzeMarket : list ProcessedCandle -> MarketAnalysis;
    calculateIndicatorArrays : list ProcessedCandle -> IndicatorArrays;
    generateMockData : unit -> list ProcessedCandle }.

Section Hook.
Context `{Collaborators}.

(** The [useState] cells and the [useRef] cells of one hook instance. *)
Record State : Type :=
  { candleData : list ProcessedCandle;
    analysis : option MarketAnalysis;
    indicatorArrays : option IndicatorArrays;
    isLoading : bool;
    error : option string;
    lastUpdate : option Z;
    currentTimeframe : string;
    currentSymbol : string;
    isConnected : bool;
    currentPrice : option float;
    priceChange : float;
    priceChangePercent : float;
    tickerData : option Rest.TickerData;
    connectionState : string;
    lastPriceUpdateTime : Z;
    lastFetchTimeRef : Z;
    lastPriceFetchRef : Z;
    isRefreshingRef : bool;
    isChangingTimeframeRef : bool;
    isChangingSymbolRef : bool;
    lastSyncRef : Z }.

(** The state at the first render, at time [now]. *)
Definition initial (now : Z) : State :=
  {| candleData := [];
     analysis := None;
     indicatorArrays := None;
     isLoading := true;
     error := None;
     lastUpdate := None;
     currentTimeframe := "1d";
     currentSymbol := "BTCUSDT";
     isConnected := false;
     currentPrice := None;
     priceChange := 0;
     priceChangePercent := 0;
     tickerData := None;
     connectionState := "Not initialized";
     lastPriceUpdateTime := now;
     lastFetchTimeRef := 0;
     lastPriceFetchRef := 0;
     isRefreshingRef := false;
     isChangingTimeframeRef := false;
     isChangingSymbolRef := false;
     lastSyncRef := 0 |}.

(** The state a callback closes over: the values of the render that
    created it.  A call made by a consumer uses the callbacks of the latest
    render, so it captures the state at the time of the call. *)
Record Closure : Type :=
  { cSymbol : string; cTimeframe : string; cPrice : option float;
    cCandles : list ProcessedCandle }.

Definition capture (st : State) : Closure :=
  {| cSymbol := currentSymbol st; cTimeframe := currentTimeframe st;
     cPrice := currentPrice st; cCandles := candleData st |}.

(** Truthiness of [currentPrice : number | null]. *)
Definition truthyPrice (price : option float) : bool :=
  match price with
  | Some x => Js.truthy (Js.number x)
  | None => false
  end.

(** [stableHandleTickerUpdate].  The callback has no dependencies, so the
    [isConnected] it tests is the one of the first render, [false];
    [wsConnected] is [wsRef.current?.isConnected()]. *)
Definition stableHandleTickerUpdate (now : Z) (wsConnected : bool)
    (data : Ticker.WebSocketTickerData) (st : State) : State :=
  let price := parseFloat (Ticker.c data) in
  let st :=
    if bool_decide (now - lastSyncRef st > 5000) then
      let st := st <| lastSyncRef := now |> in
      if wsConnected && negb false
      then st <| isConnected := true |> <| connectionState := "Connected" |>
      else st
    else st in
  let st := st <| currentPrice := Some price |>
               <| lastUpdate := Some now |>
               <| lastPriceUpdateTime := now |> in
  if Js.nonzero (parseFloat (Ticker.p data))
     || Js.nonzero (parseFloat (Ticker.P data))
  then
    let change := parseFloat (Ticker.p data) in
    let changePercent := parseFloat (Ticker.P data) in
    st <| priceChange := change |> <| priceChangePercent := changePercent |>
  else st.

(** [stableHandleKlineUpdate].  The candle it builds is only read for its
    close; when [data.k] is [undefined] or [null] the handler throws at
    [data.k.t], after the state sync and before any price update. *)
Definition stableHandleKlineUpdate (now : Z) (wsConnected : bool)
    (data : Js.value) (st : State) : State :=
  let st :=
    if bool_decide (now - lastSyncRef st > 5000) then
      let st := st <| lastSyncRef := now |> in
      if wsConnected && negb false
      then st <| isConnected := true |> <| connectionState := "Connected" |>
      else st
    else st in
  match Js.getProp data "k" with
  | Fulfilled k =>
      match Js.getProp k "c" with
      | Fulfilled kc =>
          st <| currentPrice := Some (parseFloat kc) |>
             <| lastUpdate := Some now |>
             <| lastPriceUpdateTime := now |>
      | Rejected _ => st
      end
  | Rejected _ => st
  end.

(** [stableHandleConnectionChange] *)
Definition stableHandleConnectionChange (connected : bool) (st : State) : State :=
  let st := st <| isConnected := connected |> in
  if negb connected then st <| connectionState := "Disconnected" |>
  else st <| connectionState := "Connected" |>.

(** [fetchPriceData] after [await binanceFetcher.fetch24hrTicker(...)];
    [t0] is the [now] read when the call began. *)
Definition fetchPriceData_settled (t0 : Z)
    (r : Settled Rest.TickerData string) (st : State) : State :=
  match r with
  | Fulfilled ticker =>
      st <| tickerData := Some ticker |>
         <| currentPrice := Some (parseFloat (Js.str (Rest.lastPrice ticker))) |>
         <| priceChange := parseFloat (Js.str (Rest.priceChange ticker)) |>
         <| priceChangePercent := parseFloat (Js.str (Rest.priceChangePercent ticker)) |>
         <| lastPriceFetchRef := t0 |>
  | Rejected _ =>
      st <| currentPrice := Some 95000%float |>
         <| priceChange := 0%float |>
         <| priceChangePercent := 0%float |>
  end.

(** [Math.max] and [Math.min] on two numbers. *)
Definition mathMax (x y : float) : float :=
  if PrimFloat.is_nan x || PrimFloat.is_nan y then nan
  else if PrimFloat.ltb x y then y
  else if PrimFloat.ltb y x then x
  else if PrimFloat.get_sign x then y else x.

Definition mathMin (x y : float) : float :=
  if PrimFloat.is_nan x || PrimFloat.is_nan y then nan
  else if PrimFloat.ltb x y then x
  else if PrimFloat.ltb y x then y
  else if PrimFloat.get_sign x then x else y.

(** The update of the latest candle with the live price, in [fetchData]. *)
Definition withLivePrice (price : option float) (candles : list ProcessedCandle)
  : list ProcessedCandle :=
  match price, last candles with
  | Some currentPrice0, Some latestCandle =>
      if truthyPrice price
         && PrimFloat.ltb
              (PrimFloat.abs (currentPrice0 - close latestCandle) / close latestCandle)
              0.05
      then
        <[ (length candles - 1)%nat :=
             latestCandle <| close := currentPrice0 |>
                          <| high := mathMax (high latestCandle) currentPrice0 |>
                          <| low := mathMin (low latestCandle) currentPrice0 |> ]>
          candles
      else candles
  | _, _ => candles
  end.

(** [fetchData] from the start of its [try] to the [await]:
    [setError(null)]. *)
Definition fetchData_begin (st : State) : State := st <| error := None |>.

(** [fetchData] after [await binanceFetcher.fetchKlines(...)], with its
    [catch] and [finally]; [cl] is the state the callback closed over,
    [t0] the [now] read when the call began, [now] the time of resumption.
    A rejection carries the message of the [Error] thrown. *)
Definition fetchData_settled (cl : Closure) (t0 now : Z)
    (r : Settled (list ProcessedCandle) string) (st : State) : State :=
  let st :=
    match r with
    | Fulfilled candles0 =>
        let candles := withLivePrice (cPrice cl) candles0 in
        let st := st <| candleData := candles |> in
        let st :=
          match last candles with
          | Some latestCandle =>
              if negb (truthyPrice (cPrice cl))
              then st <| currentPrice := Some (close latestCandle) |>
              else st
          | None => st
          end in
        let st :=
          if (0 <? length candles)%nat
          then st <| analysis := Some (analyzeMarket candles) |>
                  <| indicatorArrays := Some (calculateIndicatorArrays candles) |>
          else st in
        st <| lastFetchTimeRef := t0 |> <| lastUpdate := Some now |>
    | Rejected message =>
        let st := st <| error := Some message |> in
        let mockCandles := generateMockData tt in
        let st := st <| candleData := mockCandles |> in
        let st :=
          if (0 <? length mockCandles)%nat
          then st <| analysis := Some (analyzeMarket mockCandles) |>
                  <| indicatorArrays := Some (calculateIndicatorArrays mockCandles) |>
          else st in
        st <| lastUpdate := Some now |>
    end in
  st <| isLoading := false |>.

(** [timeframe || currentTimeframe] *)
Definition intervalToUse (timeframe : option string) (cl : Closure) : string :=
  Providers.orElse timeframe (cTimeframe cl).

(** A call of the fetch layer, or a timer promise. *)
Inductive Request : Type :=
| Fetch24hrTicker (symbol : string)
| FetchKlines (symbol interval : string) (limit : Z)
| Sleep (ms : Z).

(** An invocation of an async callback, suspended at an [await]. *)
Inductive Task : Type :=
| RefreshTicker (cl : Closure) (t0 : Z)
    (* refreshData, in fetchPriceData(true) *)
| RefreshKlines (cl : Closure) (t0 : Z)
    (* refreshData, in fetchData(undefined, true) *)
| SymbolDelay (cl : Closure) (newSymbol : string)
    (* changeSymbol, at the 500 ms promise *)
| SymbolTicker (cl : Closure) (newSymbol : string) (t0 : Z)
    (* changeSymbol, in fetchPriceData(true) *)
| SymbolKlines (cl : Closure) (newSymbol : string) (t0 : Z)
    (* changeSymbol, in fetchData(currentTimeframe, true) *)
| TimeframeKlines (cl : Closure) (newTimeframe : string) (t0 : Z)
    (* changeTimeframe, in fetchData(newTimeframe, true) *)
| InitTicker (cl : Closure) (t0 : Z)
    (* initializeData, in fetchPriceData(true) *)
| InitKlines (cl : Closure) (t0 : Z)
    (* the fetchData(undefined, true) initializeData starts and does not await *)
| MonitorTicker (cl : Closure) (t0 : Z).
    (* the monitoring interval, in fetchPriceData(true) *)

(** The hook in its host: its state, the suspended invocations, and every
    request issued so far (oldest first). *)
Record Machine : Type :=
  { st : State; tasks : list Task; requests : list Request }.

Definition suspend (t : Task) (rq : Request) (s : State) (m : Machine) : Machine :=
  {| st := s; tasks := tasks m ++ [t]; requests := requests m ++ [rq] |}.

(** What the callbacks of the first render close over. *)
Definition firstRender : Closure :=
  {| cSymbol := "BTCUSDT"; cTimeframe := "1d"; cPrice := None; cCandles := [] |}.

(** [initializeData()], run by the mount effect, up to its first [await]. *)
Definition initializeData (now : Z) (m : Machine) : Machine :=
  suspend (InitTicker firstRender now) (Fetch24hrTicker (cSymbol firstRender))
          (st m) m.

(** The callback of the two-minute monitoring interval. *)
Definition monitor (now : Z) (m : Machine) : Machine :=
  if bool_decide (now - lastPriceUpdateTime (st m) > 120000)
     && isConnected (st m)
  then
    let cl := capture (st m) in
    suspend (MonitorTicker cl now) (Fetch24hrTicker (cSymbol cl)) (st m) m
  else m.

(** [refreshData()] up to its first [await]. *)
Definition refreshData (now : Z) (m : Machine) : Machine :=
  if isRefreshingRef (st m) then m
  else
    let cl := capture (st m) in
    let s := (st m) <| isRefreshingRef := true |>
                  <| isLoading := true |>
                  <| error := None |> in
    suspend (RefreshTicker cl now) (Fetch24hrTicker (cSymbol cl)) s m.

(** [changeSymbol(newSymbol)] up to its first [await]. *)
Definition changeSymbol (newSymbol : string) (m : Machine) : Machine :=
  if String.eqb newSymbol (currentSymbol (st m)) then m
  else if isChangingSymbolRef (st m) then m
  else
    let cl := capture (st m) in
    let s := (st m) <| isChangingSymbolRef := true |>
                  <| currentSymbol := newSymbol |>
                  <| isLoading := true |>
                  <| error := None |>
                  <| isConnected := false |>
                  <| connectionState := "Connecting" |>
                  <| candleData := [] |>
                  <| analysis := None |>
                  <| indicatorArrays := None |>
                  <| currentPrice := None |>
                  <| priceChange := 0%float |>
                  <| priceChangePercent := 0%float |>
                  <| tickerData := None |> in
    suspend (SymbolDelay cl newSymbol) (Sleep 500) s m.

(** [changeTimeframe(newTimeframe)] up to its first [await]. *)
Definition changeTimeframe (now : Z) (newTimeframe : string) (m : Machine)
  : Machine :=
  if String.eqb newTimeframe (currentTimeframe (st m)) then m
  else if isChangingTimeframeRef (st m) then m
  else
    let cl := capture (st m) in
    let s := (st m) <| isChangingTimeframeRef := true |>
                  <| currentTimeframe := newTimeframe |>
                  <| isLoading := true |>
                  <| error := None |> in
    let s := fetchData_begin s in
    suspend (TimeframeKlines cl newTimeframe now)
            (FetchKlines (cSymbol cl) (intervalToUse (Some newTimeframe) cl) 100)
            s m.

(** How an awaited promise settles. *)
Inductive Reply : Type :=
| TickerReply (r : Settled Rest.TickerData string)
| KlinesReply (r : Settled (list ProcessedCandle) string)
| Elapsed.

(** The continuation of a suspended invocation: the new state, the task it
    suspends as next (with the request it issues), if any.  A reply of
    the wrong kind is no continuation. *)
Definition resume (now : Z) (t : Task) (rp : Reply) (s : State)
  : option (State * option (Task * Request)) :=
  match t, rp with
  | RefreshTicker cl t0, TickerReply r =>
      let s := fetchPriceData_settled t0 r s in
      let s := fetchData_begin s in
      Some (s, Some (RefreshKlines cl now,
                     FetchKlines (cSymbol cl) (intervalToUse None cl) 100))
  | RefreshKlines cl t0, KlinesReply r =>
      let s := fetchData_settled cl t0 now r s in
      let s :=
        if (0 <? length (cCandles cl))%nat
        then s <| analysis := Some (analyzeMarket (cCandles cl)) |>
               <| indicatorArrays := Some (calculateIndicatorArrays (cCandles cl)) |>
        else s in
      Some (s <| isRefreshingRef := false |> <| isLoading := false |>, None)
  | SymbolDelay cl newSymbol, Elapsed =>
      Some (s, Some (SymbolTicker cl newSymbol now, Fetch24hrTicker (cSymbol cl)))
  | SymbolTicker cl newSymbol t0, TickerReply r =>
      let s := fetchPriceData_settled t0 r s in
      let s := fetchData_begin s in
      Some (s, Some (SymbolKlines cl newSymbol now,
                     FetchKlines (cSymbol cl)
                                 (intervalToUse (Some (cTimeframe cl)) cl) 100))
  | SymbolKlines cl newSymbol t0, KlinesReply r =>
      let s := fetchData_settled cl t0 now r s in
      Some (s <| isChangingSymbolRef := false |> <| isLoading := false |>, None)
  | TimeframeKlines cl newTimeframe t0, KlinesReply r =>
      let s := fetchData_settled cl t0 now r s in
      Some (s <| isChangingTimeframeRef := false |> <| isLoading := false |>, None)
  | InitTicker cl t0, TickerReply r =>
      let s := fetchPriceData_settled t0 r s in
      let s := fetchData_begin s in
      Some (s, Some (InitKlines cl now,
                     FetchKlines (cSymbol cl) (intervalToUse None cl) 100))
  | InitKlines cl t0, KlinesReply r =>
      Some (fetchData_settled cl t0 now r s, None)
  | MonitorTicker cl t0, TickerReply r =>
      Some (fetchPriceData_settled t0 r s, None)
  | _, _ => None
  end.

(** The promise awaited by the [i]-th suspended invocation settles. *)
Definition settle (now : Z) (i : nat) (rp : Reply) (m : Machine) : Machine :=
  match tasks m !! i with
  | Some t =>
      match resume now t rp (st m) with
      | Some (s, Some (t', rq)) =>
          {| st := s; tasks := <[i := t']> (tasks m);
             requests := requests m ++ [rq] |}
      | Some (s, None) =>
          {| st := s; tasks := delete i (tasks m); requests := requests m |}
      | None => m
      end
  | None => m
  end.

(** What can happen to a mounted hook.  The effects that rebuild the
    streaming client when the subscription changes and that re-run the
    analysis when [candleData] changes are not part of the machine. *)
Inductive Event : Type :=
| CallRefreshData
| CallChangeSymbol (newSymbol : string)
| CallChangeTimeframe (newTimeframe : string)
| Settles (i : nat) (rp : Reply)
| RunInitializeData
| MonitorTick
| WsKline (wsConnected : bool) (data : Js.value)
| WsTicker (wsConnected : bool) (data : Ticker.WebSocketTickerData)
| WsConnection (connected : bool).

Definition step (now : Z) (ev : Event) (m : Machine) : Machine :=
  match ev with
  | CallRefreshData => refreshData now m
  | CallChangeSymbol newSymbol => changeSymbol newSymbol m
  | CallChangeTimeframe newTimeframe => changeTimeframe now newTimeframe m
  | Settles i rp => settle now i rp m
  | RunInitializeData => initializeData now m
  | MonitorTick => monitor now m
  | WsKline wsConnected data =>
      {| st := stableHandleKlineUpdate now wsConnected data (st m);
         tasks := tasks m; requests := requests m |}
  | WsTicker wsConnected data =>
      {| st := stableHandleTickerUpdate now wsConnected data (st m);
         tasks := tasks m; requests := requests m |}
  | WsConnection connected =>
      {| st := stableHandleConnectionChange connected (st m);
         tasks := tasks m; requests := requests m |}
  end.

Definition run (evs : list (Z * Event)) (m : Machine) : Machine :=
  fold_left (λ m te, step te.1 te.2 m) evs m.

(** A freshly mounted hook, before any call. *)
Definition mounted (now : Z) : Machine :=
  {| st := initial now; tasks := []; requests := [] |}.

(** The states a mounted hook can be in. *)
Definition reachable (m : Machine) : Prop :=
  ∃ t0 evs, m = run evs (mounted t0).

(** Is the task an invocation of [refreshData]? *)
Definition isRefresh (t : Task) : bool :=
  match t with
  | RefreshTicker _ _ | RefreshKlines _ _ => true
  | _ => false
  end.

(** Is the task an invocation of [changeSymbol]? *)
Definition isSymbolChange (t : Task) : bool :=
  match t with
  | SymbolDelay _ _ | SymbolTicker _ _ _ | SymbolKlines _ _ _ => true
  | _ => false
  end.

(** Is the task an invocation of [changeTimeframe]? *)
Definition isTimeframeChange (t : Task) : bool :=
  match t with
  | TimeframeKlines _ _ _ => true
  | _ => false
  end.

(** The number of suspended invocations of one callback. *)
Definition inFlight (which : Task -> bool) (m : Machine) : nat :=
  length (List.filter which (tasks m)).

(** The three in-flight flags. *)
Definition flags (s : State) : bool * bool * bool :=
  (isRefreshingRef s, isChangingSymbolRef s, isChangingTimeframeRef s).

(** Each flag is set exactly while an invocation of its callback is
    suspended, and then there is one such invocation. *)
Definition flagsMatch (m : Machine) : Prop :=
  inFlight isRefresh m = (if isRefreshingRef (st m) then 1 else 0)%nat
  ∧ inFlight isSymbolChange m = (if isChangingSymbolRef (st m) then 1 else 0)%nat
  ∧ inFlight isTimeframeChange m
    = (if isChangingTimeframeRef (st m) then 1 else 0)%nat.

(** What [useEffect(..., [currentSymbol, currentTimeframe])] depends on:
    the streaming client is torn down and rebuilt when this pair changes. *)
Definition subscription (s : State) : string * string :=
  (currentSymbol s, currentTimeframe s).

End Hook.
End Hook.

(** ** A sample host

    Concrete collaborators on which the scenarios below are run:
    [parseFloat] on plain decimal literals ([-]digits[.digits]; the quotient
    of two exactly represented integers is the correctly rounded value),
    and an analysis library that only counts candles. *)

Module Sample.

Definition digitValue (c : ascii) : option Z :=
  let n := Z.of_nat (nat_of_ascii c) in
  if (48 <=? n) && (n <=? 57) then Some (n - 48) else None.

(** Read digits: the number read so far, how many digits, and the rest. *)
Fixpoint readDigits (s : string) (acc : Z) (count : Z) : Z * Z * string :=
  match s with
  | String c rest =>
      match digitValue c with
      | Some d => readDigits rest (10 * acc + d) (count + 1)
      | None => (acc, count, s)
      end
  | EmptyString => (acc, count, s)
  end.

Definition floatOfZ (z : Z) : float := PrimFloat.of_uint63 (Uint63.of_Z z).

Definition parseUnsigned (s : string) : float :=
  let '(int, n, rest) := readDigits s 0 0 in
  match rest with
  | String "."%char frac =>
      let '(mantissa, k, _) := readDigits frac int 0 in
      if (n + k =? 0) then nan
      else (floatOfZ mantissa / floatOfZ (10 ^ k))%float
  | _ => if n =? 0 then nan else floatOfZ int
  end.

Definition parseDecimal (v : Js.value) : float :=
  match v with
  | Js.str (String "-"%char rest) => (- parseUnsigned rest)%float
  | Js.str s => parseUnsigned s
  | Js.number x => x
  | _ => nan
  end.

#[export] Instance host : Hook.Collaborators :=
  {| Hook.MarketAnalysis := nat;
     Hook.IndicatorArrays := nat;
     Hook.parseFloat := parseDecimal;
     Hook.analyzeMarket := λ candles, length candles;
     Hook.calculateIndicatorArrays := λ candles, length candles;
     Hook.generateMockData := λ _, [] |}.

(** The ticker of the REST endpoint, a candle, and the ticker the
    streaming client synthesizes from a kline message. *)
Definition restTicker : Hook.Rest.TickerData :=
  {| Hook.Rest.lastPrice := "43250.50";
     Hook.Rest.priceChange := "150.25";
     Hook.Rest.priceChangePercent := "1.42" |}.

Definition candle0 : Hook.ProcessedCandle :=
  {| Hook.time := 1700000000; Hook.open := 43100; Hook.high := 43300;
     Hook.low := 43000; Hook.close := 43250.5; Hook.volume := 12 |}.

Definition sentinelTicker : Ticker.WebSocketTickerData :=
  {| Ticker.e := Js.str "24hrTicker"; Ticker.E := Js.number 1700000000000;
     Ticker.s := Js.str "BTCUSDT"; Ticker.c := Js.str "43260.00";
     Ticker.o := Js.str "43100.00"; Ticker.h := Js.str "43300.00";
     Ticker.l := Js.str "43000.00"; Ticker.P := Js.str "0.00";
     Ticker.p := Js.str "0.00" |}.

(** A hook with a refresh in flight, and one whose initial fetches have
    completed. *)
Definition refreshing : Hook.Machine :=
  Hook.run [(1000, Hook.CallRefreshData)] (Hook.mounted 0).

Definition loaded : Hook.Machine :=
  Hook.run
    [(10, Hook.RunInitializeData);
     (600, Hook.Settles 0 (Hook.TickerReply (Fulfilled restTicker)));
     (1500, Hook.Settles 0 (Hook.KlinesReply (Fulfilled [candle0])))]
    (Hook.mounted 0).

End Sample.

(** ** The streaming client, earlier revision (lib/websocket.ts)

    The revision without circuit breaker and rate limiting.  Its
    reconnection policy and its message handler are embedded; timers,
    notices and readings are those of [WS]. *)

Module Legacy.

Record State : Type :=
  { ws : option nat;
    symbol : string;
    interval : string;
    onKlineUpdate : bool;
    onTickerUpdate : bool;
    onConnectionChange : bool;
    onErrorCallback : bool;
    reconnectAttempts : nat;
    maxReconnectAttempts : nat;
    connectionTimeout : option nat;
    isConnecting : bool;
    lastConnectionTime : Z;
    pingInterval : option nat;
    lastDataReceived : Z;
    dataTimeoutCheck : option nat;
    currentUrlIndex : nat;
    sockets : list WS.ReadyState;
    timers : list WS.Timer;
    nextHandle : nat;
    out : list WS.Notice }.

Definition wsUrls : list string :=
  ["wss://stream.binance.com:9443";
   "wss://stream.binance.com:443";
   "wss://data-stream.binance.vision";
   "wss://stream.binance.us:9443"].

(** [new BinanceWebSocket(symbol, interval)] *)
Definition create (symbol0 interval0 : string) : State :=
  {| ws := None;
     symbol := Js.toLowerCase symbol0;
     interval := interval0;
     onKlineUpdate := false;
     onTickerUpdate := false;
     onConnectionChange := false;
     onErrorCallback := false;
     reconnectAttempts := 0;
     maxReconnectAttempts := 5;
     connectionTimeout := None;
     isConnecting := false;
     lastConnectionTime := 0;
     pingInterval := None;
     lastDataReceived := 0;
     dataTimeoutCheck := None;
     currentUrlIndex := 0;
     sockets := [];
     timers := [];
     nextHandle := 1;
     out := [] |}.

Definition emit (n : WS.Notice) (st : State) : State :=
  st <| out := out st ++ [n] |>.

Definition setTimer (cb : WS.TimerKind) (d : Q) (rep : bool) (st : State)
  : nat * State :=
  let h := nextHandle st in
  (h, st <| timers := timers st ++
                      [{| WS.handle := h; WS.callback := cb; WS.delay := d;
                          WS.repeats := rep |}] |>
         <| nextHandle := S h |>).

(** [this.onErrorCallback?.(error)] *)
Definition handleConnectionError (error : string) (st : State) : State :=
  if onErrorCallback st then emit (WS.ErrorCallback error) st else st.

(** [handleReconnect()] *)
Definition handleReconnect (rd : WS.Readings) (st : State) : State :=
  if (reconnectAttempts st <? maxReconnectAttempts st)%nat then
    let st := st <| reconnectAttempts := S (reconnectAttempts st) |> in
    let st :=
      if (2 <? reconnectAttempts st)%nat
      then st <| currentUrlIndex := ((currentUrlIndex st + 1) mod length wsUrls)%nat |>
      else st in
    let baseDelay :=
      Z.min (1000 * 2 ^ (Z.of_nat (reconnectAttempts st) - 1)) 30000 in
    let jitter := (WS.random rd * 1000)%Q in
    snd (setTimer WS.Reconnect (inject_Z baseDelay + jitter)%Q false st)
  else
    handleConnectionError "Max reconnection attempts reached" st.

(** The [try] block of [ws.onmessage] after [JSON.parse] returned [data]. *)
Definition dispatch (data : Js.value) (st : State) : Settled State string :=
  try! ev := Js.getProp data "e";
  if Js.isString ev "kline" then
    let st := if onKlineUpdate st then emit (WS.KlineUpdate data) st else st in
    try! k := Js.getProp data "k";
    if Js.truthy k then
      try! kc := Js.getProp k "c";
      if Js.truthy kc then
        try! dE := Js.getProp data "E";
        try! ds := Js.getProp data "s";
        try! ko := Js.getProp k "o";
        try! kh := Js.getProp k "h";
        try! kl := Js.getProp k "l";
        let tickerData :=
          {| Ticker.e := Js.str "24hrTicker";
             Ticker.E := dE;
             Ticker.s := ds;
             Ticker.c := kc;
             Ticker.o := ko;
             Ticker.h := kh;
             Ticker.l := kl;
             Ticker.P := Js.str "0.00";
             Ticker.p := Js.str "0.00" |} in
        Fulfilled (if onTickerUpdate st
                   then emit (WS.TickerUpdate tickerData) st else st)
      else Fulfilled st
    else Fulfilled st
  else Fulfilled st.

(** [ws.onmessage] *)
Definition onmessage (rd : WS.Readings) (parsed : Settled Js.value string)
    (st : State) : State :=
  let st := st <| lastDataReceived := WS.now rd |> in
  let st' :=
    match parsed with
    | Fulfilled data => dispatch data st
    | Rejected err => Rejected err
    end in
  match st' with
  | Fulfilled st => st
  | Rejected error =>
      handleConnectionError ("Message parsing error: " ++ error)%string st
  end.

(** [handleReconnect] queues a [Reconnect] timer. *)
Definition schedulesReconnect (rd : WS.Readings) (st : State) : Prop :=
  ∃ t, timers (handleReconnect rd st) = timers st ++ [t]
       ∧ WS.callback t = WS.Reconnect.

End Legacy.

(** ** Scenarios of the streaming client *)

Module Scenario.
Import WS.

Definition at_ (t : Z) (r : Q) : Readings :=
  {| now := t; random := r; ctorThrows := None |}.

(** A client with its four listeners registered. *)
Definition listening : State :=
  run [(at_ 0 0, CallOnKline); (at_ 0 0, CallOnTicker);
       (at_ 0 0, CallOnConnection); (at_ 0 0, CallOnError)]
      (create "BTCUSDT" "1m").

(** The connection opens, then the remote end closes it abnormally: a
    reconnect is scheduled (timer 4); then the owner disconnects. *)
Definition dropped : State :=
  run [(at_ 10000 0, CallConnect);
       (at_ 10500 0, SocketOpen 0);
       (at_ 20000 (1 # 2), SocketClose 0 1006)]
      listening.

Definition disconnected : State := step (at_ 20100 0) CallDisconnect dropped.

(** Three connection attempts in a row fail: each socket reports an
    error and closes abnormally; the retry timers come due in between. *)
Definition tripped : State :=
  run [(at_ 10000 0, CallConnect);
       (at_ 10100 0, SocketError 0 (PlainEvent "error"));
       (at_ 10100 (1 # 4), SocketClose 0 1006);
       (at_ 13600 0, TimerDue 3);
       (at_ 13700 0, SocketError 1 (PlainEvent "error"));
       (at_ 13700 (1 # 4), SocketClose 1 1006);
       (at_ 15100 (1 # 4), TimerDue 2);
       (at_ 18700 0, TimerDue 5);
       (at_ 20200 0, TimerDue 6);
       (at_ 20300 0, SocketError 2 (PlainEvent "error"));
       (at_ 20300 0, SocketClose 2 1006)]
      listening.


(** A kline message as [JSON.parse] returns it. *)
Definition klineMessage : Js.value :=
  Js.object
    [("e", Js.str "kline"); ("E", Js.number 1700000000000);
     ("s", Js.str "BTCUSDT");
     ("k", Js.object
             [("t", Js.number 1700000000000); ("o", Js.str "43100.00");
              ("c", Js.str "43260.00"); ("h", Js.str "43300.00");
              ("l", Js.str "43000.00"); ("v", Js.str "12.5");
              ("x", Js.boolean false)])].

(** A client whose connection is open. *)
Definition streaming : State :=
  run [(at_ 10000 0, CallConnect); (at_ 10500 0, SocketOpen 0)] listening.

End Scenario.

(** ** The market-data route ([GET], app/api/ai/analyze/route.ts): the keys
    it caches under and the [cached] flag of its answer *)

Module Route.

(** [searchParams.get('endpoint') || 'summary'] *)
Definition endpointOf (param : option string) : string :=
  Providers.orElse param "summary".

(** [searchParams.get('symbol') || 'BTC'] *)
Definition symbolOf (param : option string) : string :=
  Providers.orElse param "BTC".

(** The keys [getCachedData] is called with while [endpoint] is served,
    in the order of the calls. *)
Definition cacheKeys (endpoint symbol : string) : list string :=
  if String.eqb endpoint "indicators" then ["bull-market-indicators"]
  else if String.eqb endpoint "sentiment" then ["market-sentiment"]
  else if String.eqb endpoint "sell-signal" then ["sell-signal-strength"]
  else if String.eqb endpoint "comprehensive"
  then [("comprehensive-market-data-" ++ symbol)%string]
  else ["bull-market-indicators"; "market-sentiment"; "sell-signal-strength";
        ("comprehensive-market-data-" ++ symbol)%string].

(** The [cached] field of the answer:
    [cache.has(endpoint === 'summary' ? 'bull-market-indicators' : endpoint)] *)
Definition cachedField {T : Type} (endpoint : string)
    (cache : gmap string (Cache.CacheEntry T)) : bool :=
  bool_decide
    (is_Some (cache !! (if String.eqb endpoint "summary"
                        then "bull-market-indicators" else endpoint))).

(** What the calls of [getCachedData] do to the cache while requests are
    served, interleaved at their [await]s in any way: the synchronous part
    of a call, or the continuation of one. *)
Inductive CacheStep (T E : Type) : Type :=
| Begins (rd : Cache.Readings) (key : string)
| Resumes (nowStore : Z) (key : string) (ttl0 : Z)
    (cached : option (Cache.CacheEntry T)) (fetched : Settled T E).
Arguments Begins {T E}.
Arguments Resumes {T E}.

Definition stepKey {T E : Type} (s : CacheStep T E) : string :=
  match s with
  | Begins _ key => key
  | Resumes _ key _ _ _ => key
  end.

Definition cacheStep {T E : Type} (s : CacheStep T E)
    (cache : gmap string (Cache.CacheEntry T))
  : gmap string (Cache.CacheEntry T) :=
  match s with
  | Begins rd key => (Cache.getCachedData_begin rd key cache).1
  | Resumes nowStore key ttl0 cached fetched =>
      (Cache.getCachedData_resume nowStore key ttl0 cached fetched cache).1
  end.

(** The module's [cache] after some steps; it starts as [new Map()]. *)
Definition cacheAfterSteps {T E : Type} (steps : list (CacheStep T E))
  : gmap string (Cache.CacheEntry T) :=
  fold_left (λ cache s, cacheStep s cache) steps ∅.

(** The step belongs to a request the route serves. *)
Definition servedStep {T E : Type} (s : CacheStep T E) : Prop :=
  ∃ endpoint symbol, stepKey s ∈ cacheKeys endpoint symbol.

End Route.

(** ** Provider statuses and recommendations
    ([getProviderStatuses], lib/ai-providers/factory; [getRecommendation]
    and [getDetailedRecommendations], the two routes under app/api/ai) *)

Module Statuses.
Import Providers.

(** [getDisplayName()] of each class. *)
Definition getDisplayName (p : AIProvider) : string :=
  match kind p with
  | claude => "Claude (Anthropic)"
  | openai => "OpenAI (GPT)"
  | groq => "Groq (FREE & Fast)"
  | huggingface => "Hugging Face (FREE)"
  | ollama => "Ollama (FREE Local)"
  end.

(** [getDefaultModel()] of each class. *)
Definition getDefaultModel (p : AIProvider) : string :=
  match kind p with
  | claude => "claude-3-haiku-20240307"
  | openai => "gpt-3.5-turbo"
  | groq => "llama3-8b-8192"
  | huggingface => "microsoft/DialoGPT-medium"
  | ollama => "llama3.2"
  end.

(** [getSupportedModels()] of each class. *)
Definition getSupportedModels (p : AIProvider) : list string :=
  match kind p with
  | claude =>
      ["claude-3-haiku-20240307"; "claude-3-sonnet-20240229";
       "claude-3-opus-20240229"]
  | openai =>
      ["gpt-3.5-turbo"; "gpt-4"; "gpt-4-turbo"; "gpt-4o"; "gpt-4o-mini"]
  | groq =>
      ["llama3-8b-8192"; "llama3-70b-8192"; "mixtral-8x7b-32768";
       "gemma-7b-it"]
  | huggingface =>
      ["microsoft/DialoGPT-medium"; "microsoft/DialoGPT-large";
       "facebook/blenderbot-400M-distill"; "microsoft/phi-2"]
  | ollama =>
      ["llama3.2"; "llama3.1"; "phi3"; "gemma2"; "mistral"; "codellama"]
  end.

(** [getRequiredEnvVars()] of each class. *)
Definition getRequiredEnvVars (p : AIProvider) : list string :=
  match kind p with
  | claude => ["ANTHROPIC_API_KEY"]
  | openai => ["OPENAI_API_KEY"]
  | groq => ["GROQ_API_KEY"]
  | huggingface => ["HUGGINGFACE_API_KEY"]
  | ollama => []
  end.

(** [interface ProviderStatus] *)
Record ProviderStatus : Type :=
  { name : string;
    displayName : string;
    available : bool;
    configured : bool;
    isFree : bool;
    model : string;
    error : option string }.

Section Factory.
(** [process.env], and whether the probe
    [await fetch('http://localhost:11434/api/tags', ...)] fulfils. *)
Variable env : gmap string string.
Variable probeFulfils : bool.

(** One turn of the loop of [getProviderStatuses].  No [isAvailable()]
    throws, so the outer [catch] is never entered. *)
Definition statusOf (provider : AIProvider) : ProviderStatus :=
  let requiredEnvVars := getRequiredEnvVars provider in
  let isConfigured :=
    (length requiredEnvVars =? 0)%nat
    || forallb (λ envVar, bool_decide (getEnvValue env envVar ≠ None))
               requiredEnvVars in
  let available := isAvailable provider in
  let '(available, error) :=
    if String.eqb (getName provider) "ollama" && available then
      if probeFulfils then (available, None)
      else (false, Some "Ollama not running locally")
    else (available, None) in
  {| name := getName provider;
     displayName := getDisplayName provider;
     available := available;
     configured := isConfigured;
     isFree := Providers.isFree provider;
     model := getDefaultModel provider;
     error := error |}.

(** [getProviderStatuses()] *)
Definition getProviderStatuses : list ProviderStatus :=
  map statusOf (getAllProviders env).

End Factory.

(** [providers.find(p => p.name === n)] *)
Definition findStatus (providers : list ProviderStatus) (n : string)
  : option ProviderStatus :=
  find (λ p, String.eqb (name p) n) providers.

(** [getRecommendation] of the availability route. *)
Definition getRecommendation (providers : list ProviderStatus) : string :=
  let freeAvailable := List.filter (λ p, isFree p && available p) providers in
  let freeConfigurable :=
    List.filter (λ p, isFree p && negb (configured p)) providers in
  match freeAvailable with
  | first :: _ => ("Using " ++ displayName first ++ " (FREE)")%string
  | [] =>
      match freeConfigurable with
      | first :: _ =>
          let best := default first (findStatus freeConfigurable "groq") in
          ("Recommend setting up " ++ displayName best ++ " (FREE & Fast)")%string
      | [] => "Configure any AI provider to enable real AI analysis"
      end
  end.

(** The [available] field of the availability route's answer:
    [providerStatuses.some(p => p.available)]. *)
Definition hasAvailableProvider (providers : list ProviderStatus) : bool :=
  existsb available providers.

(** An element of the list [getDetailedRecommendations] builds; its field
    [isFree] is [recIsFree] here, beside the one of [ProviderStatus]. *)
Record Recommendation : Type :=
  { provider : string;
    title : string;
    description : string;
    priority : Z;
    recIsFree : bool }.

(** [recommendations.sort((a, b) => a.priority - b.priority)]: the sort is
    stable, an element stays before the later ones of equal priority. *)
Fixpoint insertByPriority (r : Recommendation) (l : list Recommendation)
  : list Recommendation :=
  match l with
  | [] => [r]
  | x :: l' =>
      if priority r - priority x <=? 0 then r :: l
      else x :: insertByPriority r l'
  end.

Definition sortByPriority (l : list Recommendation) : list Recommendation :=
  foldr insertByPriority [] l.

(** One [const x = providers.find(...); if (x && !x.<field>) push(...)]
    block. *)
Definition pushIf (providers : list ProviderStatus) (n : string)
    (field : ProviderStatus -> bool) (r : Recommendation)
    (recommendations : list Recommendation) : list Recommendation :=
  match findStatus providers n with
  | Some x => if negb (field x) then recommendations ++ [r]
              else recommendations
  | None => recommendations
  end.

(** [getDetailedRecommendations] of the providers route. *)
Definition getDetailedRecommendations (providers : list ProviderStatus)
  : list Recommendation :=
  let recommendations := [] in
  let recommendations :=
    pushIf providers "groq" configured
      {| provider := "groq";
         title := "🚀 Recommended: Groq (FREE & Fast)";
         description := "Get FREE API key from console.groq.com - extremely fast inference";
         priority := 1;
         recIsFree := true |} recommendations in
  let recommendations :=
    pushIf providers "ollama" available
      {| provider := "ollama";
         title := "💻 Ollama (FREE Local)";
         description := "Install locally: ollama.ai - completely free, no API key needed";
         priority := 2;
         recIsFree := true |} recommendations in
  let recommendations :=
    pushIf providers "huggingface" configured
      {| provider := "huggingface";
         title := "🤗 Hugging Face (FREE)";
         description := "Get FREE API key from huggingface.co/settings/tokens";
         priority := 3;
         recIsFree := true |} recommendations in
  let recommendations :=
    pushIf providers "claude" configured
      {| provider := "claude";
         title := "🧠 Claude (Best Quality)";
         description := "Premium AI from console.anthropic.com - best analysis quality";
         priority := 4;
         recIsFree := false |} recommendations in
  let recommendations :=
    pushIf providers "openai" configured
      {| provider := "openai";
         title := "🤖 OpenAI GPT";
         description := "Get API key from platform.openai.com/api-keys";
         priority := 5;
         recIsFree := false |} recommendations in
  sortByPriority recommendations.

End Statuses.

(** ** The streaming client: its queries and its retry invariant *)

Module WSInfo.
Import WS.

(** [getConnectionState()] *)
Definition getConnectionState (st : State) : string :=
  if isCircuitBreakerActive st then "Circuit Breaker Active"
  else
    match ws st with
    | None => "Not initialized"
    | Some id =>
        match readyState st id with
        | Some CONNECTING => "Connecting"
        | Some OPEN => "Connected"
        | Some CLOSING => "Closing"
        | Some CLOSED => "Closed"
        | None => "Unknown"
        end
    end.

(** The object [getConnectionInfo()] returns; [currentUrl] is [None] when
    [this.wsUrls[this.currentUrlIndex]] is [undefined]. *)
Record ConnectionInfo : Type :=
  { state : string;
    attempts : nat;
    currentUrl : option string;
    infoIsConnecting : bool;
    infoLastConnectionTime : Z;
    infoIsCircuitBreakerActive : bool;
    infoErrorCount : nat }.

Definition getConnectionInfo (st : State) : ConnectionInfo :=
  {| state := getConnectionState st;
     attempts := reconnectAttempts st;
     currentUrl := wsUrls !! currentUrlIndex st;
     infoIsConnecting := isConnecting st;
     infoLastConnectionTime := lastConnectionTime st;
     infoIsCircuitBreakerActive := isCircuitBreakerActive st;
     infoErrorCount := errorCount st |}.

(** The invariant of the retry policy: the attempt counter never passes
    its bound of three, and the URL index names one of the endpoints. *)
Definition retryInvariant (st : State) : Prop :=
  (reconnectAttempts st <= maxReconnectAttempts st)%nat
  ∧ maxReconnectAttempts st = 3%nat
  ∧ (currentUrlIndex st < length wsUrls)%nat.

End WSInfo.

(** ** Symbol search ([searchSymbols], app/api/binance/symbols/route.ts) *)

Module Symbols.

(** [interface BinanceSymbol] *)
Record BinanceSymbol : Type :=
  { symbol : string;
    baseAsset : string;
    quoteAsset : string;
    status : string;
    displayName : option string }.

#[export] Instance BinanceSymbol_eq_dec : EqDecision BinanceSymbol.
Proof. solve_decision. Defined.

(** [s.startsWith(t)] *)
Fixpoint startsWith (s t : string) : bool :=
  match t, s with
  | EmptyString, _ => true
  | String c t', String d s' => Ascii.eqb c d && startsWith s' t'
  | String _ _, EmptyString => false
  end.

(** [s.includes(t)]: [t] occurs in [s]. *)
Fixpoint includes (s t : string) : bool :=
  startsWith s t ||
  match s with
  | EmptyString => false
  | String _ s' => includes s' t
  end.

(** [l.slice(0, end)] for [end] an integer ([Some]) or [NaN] ([None]): a
    negative [end] counts from the end of the array. *)
Definition slice0 {A : Type} (l : list A) (end_ : option Z) : list A :=
  let len := Z.of_nat (length l) in
  let relativeEnd := default 0 end_ in
  let final :=
    if relativeEnd <? 0 then Z.max (len + relativeEnd) 0
    else Z.min relativeEnd len in
  take (Z.to_nat final) l.

Section Search.
(** [String.prototype.toUpperCase]; the search is verified for any. *)
Variable toUpperCase : string -> string.

Definition isUSDT (s : BinanceSymbol) : bool :=
  String.eqb (quoteAsset s) "USDT".

(** The predicate of [exactMatches]. *)
Definition isExactMatch (normalizedQuery : string) (s : BinanceSymbol) : bool :=
  String.eqb (symbol s) normalizedQuery
  || String.eqb (baseAsset s) normalizedQuery
  || String.eqb (baseAsset s ++ quoteAsset s)%string normalizedQuery.

(** The second conjunct of the predicate of [partialMatches]. *)
Definition isPartialMatch (normalizedQuery : string) (s : BinanceSymbol) : bool :=
  includes (symbol s) normalizedQuery
  || includes (baseAsset s) normalizedQuery
  || includes (quoteAsset s) normalizedQuery
  || match displayName s with
     | Some d => Providers.truthy d && includes (toUpperCase d) normalizedQuery
     | None => false
     end.

(** [searchSymbols(symbols, query, limit)].  [exactMatches.includes(symbol)]
    compares objects; an element of [symbols] equal field by field to an
    exact match is an exact match itself, so membership up to equality of
    the fields gives the same answer. *)
Definition searchSymbols (symbols : list BinanceSymbol) (query : string)
    (limit : option Z) : list BinanceSymbol :=
  if String.eqb query "" then
    slice0 (List.filter isUSDT symbols) limit
  else
    let normalizedQuery := toUpperCase query in
    let exactMatches := List.filter (isExactMatch normalizedQuery) symbols in
    let partialMatches :=
      List.filter
        (λ s, negb (bool_decide (s ∈ exactMatches))
              && isPartialMatch normalizedQuery s) symbols in
    let allMatches := exactMatches ++ partialMatches in
    let usdtMatches := List.filter isUSDT allMatches in
    let otherMatches := List.filter (λ s, negb (isUSDT s)) allMatches in
    slice0 (usdtMatches ++ otherMatches) limit.

End Search.

(** [s.toUpperCase()] on ASCII. *)
Definition upperAscii (c : ascii) : ascii :=
  let n := nat_of_ascii c in
  if ((97 <=? n)%nat && (n <=? 122)%nat)%bool then ascii_of_nat (n - 32) else c.

Fixpoint toUpperCase (s : string) : string :=
  match s with
  | EmptyString => EmptyString
  | String c rest => String (upperAscii c) (toUpperCase rest)
  end.

(** The head of the list [getAllSymbols] falls back to. *)
Definition fallbackSymbols : list BinanceSymbol :=
  [ {| symbol := "BTCUSDT"; baseAsset := "BTC"; quoteAsset := "USDT";
       status := "TRADING"; displayName := Some "Bitcoin/USDT" |};
    {| symbol := "ETHUSDT"; baseAsset := "ETH"; quoteAsset := "USDT";
       status := "TRADING"; displayName := Some "Ethereum/USDT" |};
    {| symbol := "BNBUSDT"; baseAsset := "BNB"; quoteAsset := "USDT";
       status := "TRADING"; displayName := Some "BNB/USDT" |} ].

End Symbols.

(** * Properties *)

(** ** The freshness cache *)

Section CacheFacts.
Context {T E : Type}.
Implicit Types (cache : gmap string (Cache.CacheEntry T)) (key : string).
Implicit Types (rd : Cache.Readings) (fetchFn : unit -> Settled T E).

(** The sweep keeps exactly the entries that are not older than their TTL. *)
Lemma cleanupCache_lookup now cache key :
  Cache.cleanupCache now cache !! key =
  match cache !! key with
  | Some c => if decide (now - Cache.timestamp c > Cache.ttl c) then None else Some c
  | None => None
  end.
Proof.
  unfold Cache.cleanupCache.
  destruct (cache !! key) as [c|] eqn:Hc.
  - destruct (decide (now - Cache.timestamp c > Cache.ttl c)) as [Hd|Hd].
    + apply map_lookup_filter_None. right. intros x Hx. cbn.
      rewrite Hc in Hx. injection Hx as <-. tauto.
    + apply map_lookup_filter_Some. split; [exact Hc | exact Hd].
  - apply map_lookup_filter_None. left. exact Hc.
Qed.

(** A fresh entry survives the sweep of the same call. *)
Lemma maybeCleanup_fresh rd cache key c :
  cache !! key = Some c ->
  Cache.now rd - Cache.timestamp c < Cache.ttl c ->
  Cache.maybeCleanup rd cache !! key = Some c.
Proof.
  intros Hc Hfresh. unfold Cache.maybeCleanup.
  destruct (Qlt_le_dec _ _); [|exact Hc].
  rewrite cleanupCache_lookup, Hc.
  destruct (decide _); [lia | reflexivity].
Qed.

(** A fresh entry is returned and [fetchFn] is not called. *)
Lemma getCachedData_fresh rd nowStore key fetchFn ttl0 cache c :
  cache !! key = Some c ->
  Cache.now rd - Cache.timestamp c < Cache.ttl c ->
  Cache.returned (Cache.getCachedData rd nowStore key fetchFn ttl0 cache)
    = Fulfilled (Cache.data c)
  ∧ Cache.fetchCalls (Cache.getCachedData rd nowStore key fetchFn ttl0 cache) = 0%nat.
Proof.
  intros Hc Hfresh.
  unfold Cache.getCachedData, Cache.getCachedData_begin.
  rewrite (maybeCleanup_fresh rd cache key c Hc Hfresh). cbn.
  rewrite bool_decide_eq_true_2 by exact Hfresh. cbn. split; reflexivity.
Qed.

(** With no entry, or an expired one, [fetchFn] is called once. *)
Lemma getCachedData_miss rd nowStore key fetchFn ttl0 cache :
  Cache.isFresh (Cache.now rd) (cache !! key) = false ->
  Cache.fetchCalls (Cache.getCachedData rd nowStore key fetchFn ttl0 cache) = 1%nat.
Proof.
  intros Hstale.
  unfold Cache.getCachedData, Cache.getCachedData_begin.
  assert (Hs : Cache.isFresh (Cache.now rd) (Cache.maybeCleanup rd cache !! key) = false).
  { unfold Cache.maybeCleanup. destruct (Qlt_le_dec _ _); [|exact Hstale].
    rewrite cleanupCache_lookup. destruct (cache !! key) as [c|]; [|reflexivity].
    destruct (decide _); [reflexivity | exact Hstale]. }
  destruct (Cache.maybeCleanup rd cache !! key) as [c|] eqn:Hc.
  - rewrite Hs. destruct (Cache.getCachedData_resume _ _ _ _ _ _). reflexivity.
  - destruct (Cache.getCachedData_resume _ _ _ _ _ _). reflexivity.
Qed.

(** When the fetch fails, the call returns the entry that is in the cache
    after the sweep, and rethrows when there is none. *)
Lemma getCachedData_failure rd nowStore key fetchFn ttl0 cache err :
  fetchFn tt = Rejected err ->
  Cache.isFresh (Cache.now rd) (cache !! key) = false ->
  Cache.returned (Cache.getCachedData rd nowStore key fetchFn ttl0 cache) =
  match Cache.maybeCleanup rd cache !! key with
  | Some c => Fulfilled (Cache.data c)
  | None => Rejected err
  end.
Proof.
  intros Hf Hstale.
  unfold Cache.getCachedData, Cache.getCachedData_begin.
  assert (Hs : Cache.isFresh (Cache.now rd) (Cache.maybeCleanup rd cache !! key) = false).
  { unfold Cache.maybeCleanup. destruct (Qlt_le_dec _ _); [|exact Hstale].
    rewrite cleanupCache_lookup. destruct (cache !! key) as [c|]; [|reflexivity].
    destruct (decide _); [reflexivity | exact Hstale]. }
  destruct (Cache.maybeCleanup rd cache !! key) as [c|] eqn:Hc.
  - rewrite Hs. unfold Cache.getCachedData_resume. rewrite Hf. reflexivity.
  - unfold Cache.getCachedData_resume. rewrite Hf. reflexivity.
Qed.

(** When the sweep does not run, a stale entry is what a failed fetch
    falls back to. *)
Lemma getCachedData_stale_without_sweep rd nowStore key fetchFn ttl0 cache c err :
  (1 # 10 <= Cache.random rd)%Q ->
  fetchFn tt = Rejected err ->
  cache !! key = Some c ->
  ¬ (Cache.now rd - Cache.timestamp c < Cache.ttl c) ->
  Cache.returned (Cache.getCachedData rd nowStore key fetchFn ttl0 cache)
    = Fulfilled (Cache.data c).
Proof.
  intros Hr Hf Hc Hstale.
  rewrite (getCachedData_failure _ _ _ _ _ _ err Hf).
  - unfold Cache.maybeCleanup. destruct (Qlt_le_dec _ _) as [Hlt|_].
    + exfalso. apply (Qlt_not_le _ _ Hlt). exact Hr.
    + rewrite Hc. reflexivity.
  - rewrite Hc. cbn. apply bool_decide_eq_false_2. exact Hstale.
Qed.

End CacheFacts.

(** C2 (the code departs from the claim).  A call made 400 s after the
    entry was stored, whose [Math.random()] reads 0.05, sweeps the expired
    entry away before looking the key up: the failure of the fetch is then
    propagated although a prior entry existed.  With a reading of 0.5 the
    same call returns the stale value. *)
Theorem getCachedData_sweep_loses_stale_entry :
  Cache.staleCache !! "market-sentiment"
    = Some {| Cache.data := 42; Cache.timestamp := 0; Cache.ttl := 300000 |}
  ∧ Cache.returned
      (Cache.getCachedData {| Cache.random := 5 # 100; Cache.now := 400000 |} 400001
         "market-sentiment" Cache.failingFetch 300000 Cache.staleCache)
    = Rejected "upstream unavailable"
  ∧ Cache.returned
      (Cache.getCachedData {| Cache.random := 5 # 10; Cache.now := 400000 |} 400001
         "market-sentiment" Cache.failingFetch 300000 Cache.staleCache)
    = Fulfilled 42.
Proof.
  split; [apply lookup_singleton_eq|]. split.
  - rewrite (getCachedData_failure _ _ _ _ _ _ "upstream unavailable");
      [|reflexivity|unfold Cache.staleCache; rewrite lookup_singleton_eq; reflexivity].
    unfold Cache.maybeCleanup. destruct (Qlt_le_dec _ _) as [_|Hle].
    + rewrite cleanupCache_lookup. unfold Cache.staleCache.
      rewrite lookup_singleton_eq. reflexivity.
    + exfalso. revert Hle. unfold Qle. cbn. lia.
  - apply (getCachedData_stale_without_sweep _ _ _ _ _ _
             {| Cache.data := 42; Cache.timestamp := 0; Cache.ttl := 300000 |}
             "upstream unavailable").
    + cbn. unfold Qle. cbn. lia.
    + reflexivity.
    + apply lookup_singleton_eq.
    + cbn. lia.
Qed.

(** ** The AI provider factory *)

Section ProviderFacts.
Variable env : gmap string string.

Lemma includes_namesValidProvider preferred :
  Providers.includes preferred = Providers.namesValidProvider (Some preferred).
Proof.
  cbv beta iota delta
    [Providers.includes Providers.namesValidProvider Providers.typeName find].
  rewrite !(String.eqb_sym _ preferred).
  repeat (destruct (String.eqb preferred _); [reflexivity|]).
  reflexivity.
Qed.

Lemma namesValidProvider_empty : Providers.namesValidProvider (Some "") = None.
Proof. reflexivity. Qed.

(** Ollama needs no key, so the priority loop always returns. *)
Lemma getDefaultProvider_firstAvailable :
  Providers.getDefaultProvider env = Providers.firstAvailable (Providers.availableIn env).
Proof.
  unfold Providers.getDefaultProvider, Providers.getDefaultProviderFrom,
    Providers.firstAvailable, Providers.availableIn.
  cbn.
  destruct (Providers.truthy (Providers.orElse (Providers.getEnvValue env "GROQ_API_KEY") ""));
    reflexivity.
Qed.

End ProviderFacts.

(** The loop of [getDefaultProvider] over any list that holds one provider
    per name: the first available one in priority order, and [groq] when
    none is available. *)
Lemma getDefaultProviderFrom_firstAvailable
    (providers : list Providers.AIProvider)
    (available : Providers.AIProviderType -> bool) :
  (∀ t, Providers.isAvailable <$> Providers.findByName providers t
        = Some (available t)) ->
  (∀ p, p ∈ providers ->
        Providers.isAvailable p = available (Providers.kind p)) ->
  Providers.getDefaultProviderFrom providers = Providers.firstAvailable available.
Proof.
  intros Hname Hall.
  unfold Providers.getDefaultProviderFrom, Providers.firstAvailable,
    Providers.priorityOrder.
  cbn.
  repeat
    match goal with
    | |- context [Providers.findByName providers ?t] =>
        let Ht := fresh "Ht" in
        pose proof (Hname t) as Ht;
        destruct (Providers.findByName providers t) as [?p|];
        [cbn in Ht; injection Ht as Ht; rewrite Ht;
         let Hav := fresh "Hav" in
         destruct (available t) eqn:Hav; [reflexivity|]
        |discriminate Ht]
    end.
  destruct (find Providers.isAvailable providers) as [q|] eqn:Hf; [|reflexivity].
  apply find_some in Hf as [Hin Hq].
  apply list_elem_of_In in Hin.
  rewrite (Hall q Hin) in Hq.
  destruct (Providers.kind q); congruence.
Qed.

(** C10.  [getPreferredProvider] computes the selection the specification
    describes from the [AI_PROVIDER] variable and the providers'
    availability: the named provider if it is valid and available,
    otherwise the first available one in the order groq, ollama,
    huggingface, claude, openai, and groq when none is. *)
Theorem getPreferredProvider_selectProvider (env : gmap string string) :
  Providers.getPreferredProvider env
  = Providers.selectProvider (env !! "AI_PROVIDER") (Providers.availableIn env).
Proof.
  unfold Providers.getPreferredProvider, Providers.selectProvider,
    Providers.getEnvValue.
  destruct (env !! "AI_PROVIDER") as [preferred|];
    [|apply getDefaultProvider_firstAvailable].
  destruct (Providers.truthy preferred) eqn:Htr.
  - rewrite includes_namesValidProvider.
    destruct (Providers.namesValidProvider (Some preferred)) as [t|];
      [|apply getDefaultProvider_firstAvailable].
    fold (Providers.availableIn env t).
    destruct (Providers.availableIn env t);
      [reflexivity | apply getDefaultProvider_firstAvailable].
  - unfold Providers.truthy in Htr. apply negb_false_iff in Htr.
    apply String.eqb_eq in Htr. subst preferred.
    rewrite namesValidProvider_empty.
    apply getDefaultProvider_firstAvailable.
Qed.

(** ** The dedup/sort stage *)

Section DedupFacts.
Import Dedup.

Lemma insertObservation_times o l x :
  x ∈ insertObservation o l -> x = o ∨ x ∈ l.
Proof.
  induction l as [|y l IH]; cbn.
  - intros Hx. apply list_elem_of_singleton in Hx. auto.
  - destruct (time o <? time y).
    + intros Hx. apply elem_of_cons in Hx as [->|Hx]; auto.
    + destruct (time o =? time y).
      * intros Hx. apply elem_of_cons in Hx as [->|Hx]; auto.
        right. apply elem_of_cons. auto.
      * intros Hx. apply elem_of_cons in Hx as [->|Hx].
        -- right. apply elem_of_cons. auto.
        -- destruct (IH Hx) as [->|Hin]; auto.
           right. apply elem_of_cons. auto.
Qed.

(** Inserting keeps the sequence strictly ascending in time. *)
Lemma insertObservation_sorted o l :
  StronglySorted before l -> StronglySorted before (insertObservation o l).
Proof.
  induction 1 as [|y l Hl IH Hy]; cbn.
  - repeat constructor.
  - destruct (time o <? time y) eqn:Hlt.
    + apply Z.ltb_lt in Hlt. constructor.
      * constructor; assumption.
      * constructor; [exact Hlt|].
        eapply Forall_impl; [exact Hy|]. unfold before. intros z Hz. cbn in Hz. lia.
    + destruct (time o =? time y) eqn:Heq.
      * apply Z.eqb_eq in Heq. constructor; [assumption|].
        eapply Forall_impl; [exact Hy|]. unfold before. intros z Hz. cbn in Hz. lia.
      * apply Z.ltb_ge in Hlt. apply Z.eqb_neq in Heq. constructor; [exact IH|].
        apply Forall_forall. intros z Hz.
        destruct (insertObservation_times o l z Hz) as [->|Hin].
        -- unfold before. lia.
        -- rewrite Forall_forall in Hy. apply Hy, Hin.
Qed.

(** After an insertion the entry for the inserted time is the inserted
    observation; the entries for the other times are as before. *)
Lemma entryAt_insertObservation t o l :
  entryAt t (insertObservation o l)
  = if time o =? t then Some o else entryAt t l.
Proof.
  unfold entryAt. induction l as [|y l IH]; cbn.
  - reflexivity.
  - destruct (time o <? time y) eqn:Hlt; cbn.
    + reflexivity.
    + destruct (time o =? time y) eqn:Heq; cbn.
      * apply Z.eqb_eq in Heq. rewrite <- Heq.
        destruct (time o =? t); reflexivity.
      * rewrite IH. destruct (time y =? t) eqn:Hy; [|reflexivity].
        apply Z.eqb_eq in Hy. apply Z.eqb_neq in Heq.
        destruct (time o =? t) eqn:Ho; [|reflexivity].
        apply Z.eqb_eq in Ho. lia.
Qed.

Lemma fold_insert_sorted received acc :
  StronglySorted before acc ->
  StronglySorted before (fold_left (λ acc o, insertObservation o acc) received acc).
Proof.
  revert acc. induction received as [|o received IH]; intros acc Hacc; cbn.
  - exact Hacc.
  - apply IH, insertObservation_sorted, Hacc.
Qed.

Lemma fold_insert_entryAt t received acc :
  entryAt t (fold_left (λ acc o, insertObservation o acc) received acc)
  = fold_left (λ held o, if time o =? t then Some o else held) received
      (entryAt t acc).
Proof.
  revert acc. induction received as [|o received IH]; intros acc; cbn [fold_left].
  - reflexivity.
  - rewrite IH, entryAt_insertObservation. reflexivity.
Qed.

Lemma sorted_before_le l :
  StronglySorted before l -> StronglySorted (λ a b, time a <= time b) l.
Proof.
  induction 1 as [|y l Hl IH Hy]; constructor; [exact IH|].
  eapply Forall_impl; [exact Hy|]. unfold before. intros z Hz. cbn in Hz. lia.
Qed.

Lemma sorted_before_NoDup l :
  StronglySorted before l -> NoDup (map time l).
Proof.
  induction 1 as [|y l Hl IH Hy]; cbn; constructor; [|exact IH].
  intros Hin. apply list_elem_of_fmap in Hin as [z [Hz Hzin]].
  rewrite Forall_forall in Hy. specialize (Hy z Hzin). unfold before in Hy. lia.
Qed.

(** C9.  Whatever the order of the input and however many observations
    share a timestamp, the output of the dedup/sort stage is
    non-decreasing in time, holds no two entries with the same time, and
    holds for each time the observation received last with that time. *)
Theorem dedupSort_sorted_unique_last_wins (received : list Observation) :
  StronglySorted (λ a b, time a <= time b) (dedupSort received)
  ∧ NoDup (map time (dedupSort received))
  ∧ ∀ t, entryAt t (dedupSort received) = lastReceived t received.
Proof.
  assert (Hs : StronglySorted before (dedupSort received)).
  { apply fold_insert_sorted. constructor. }
  split; [apply sorted_before_le, Hs|].
  split; [apply sorted_before_NoDup, Hs|].
  intros t. unfold dedupSort, lastReceived.
  rewrite fold_insert_entryAt. reflexivity.
Qed.

End DedupFacts.

(** ** The data orchestrator *)

Section HookFacts.
Context `{Hook.Collaborators}.
Import Hook.

(** C1.  A ticker update whose change fields [p] and [P] both parse to
    zero leaves the held [priceChange] and [priceChangePercent] as they
    are, whatever they are, and still sets the current price from the
    message. *)
Theorem ticker_zero_change_keeps_held_change
    (now : Z) (wsConnected : bool) (data : Ticker.WebSocketTickerData)
    (s : State) :
  PrimFloat.eqb (parseFloat (Ticker.p data)) 0 = true ->
  PrimFloat.eqb (parseFloat (Ticker.P data)) 0 = true ->
  priceChange (stableHandleTickerUpdate now wsConnected data s) = priceChange s
  ∧ priceChangePercent (stableHandleTickerUpdate now wsConnected data s)
    = priceChangePercent s
  ∧ currentPrice (stableHandleTickerUpdate now wsConnected data s)
    = Some (parseFloat (Ticker.c data)).
Proof.
  intros Hp HP. unfold stableHandleTickerUpdate, Js.nonzero.
  rewrite Hp, HP. cbn [negb orb].
  destruct (bool_decide (now - lastSyncRef s > 5000));
    [destruct wsConnected|]; repeat split; reflexivity.
Qed.

(** X22.  A ticker update with a change field that does not parse to
    zero replaces the held change by the change of the message, both
    fields at once. *)
Lemma ticker_nonzero_change_replaces
    (now : Z) (wsConnected : bool) (data : Ticker.WebSocketTickerData)
    (s : State) :
  Js.nonzero (parseFloat (Ticker.p data))
  || Js.nonzero (parseFloat (Ticker.P data)) = true ->
  priceChange (stableHandleTickerUpdate now wsConnected data s)
    = parseFloat (Ticker.p data)
  ∧ priceChangePercent (stableHandleTickerUpdate now wsConnected data s)
    = parseFloat (Ticker.P data).
Proof.
  intros Hnz. unfold stableHandleTickerUpdate. rewrite Hnz.
  destruct (bool_decide (now - lastSyncRef s > 5000));
    [destruct wsConnected|]; split; reflexivity.
Qed.

(** *** The in-flight flags *)

Lemma fetchPriceData_settled_flags t0 r s :
  flags (fetchPriceData_settled t0 r s) = flags s.
Proof. destruct r; reflexivity. Qed.

Lemma fetchData_settled_flags cl t0 now r s :
  flags (fetchData_settled cl t0 now r s) = flags s.
Proof.
  unfold fetchData_settled. destruct r; repeat case_match; reflexivity.
Qed.

Lemma stableHandleTickerUpdate_flags now wsConnected data s :
  flags (stableHandleTickerUpdate now wsConnected data s) = flags s.
Proof.
  unfold stableHandleTickerUpdate. repeat case_match; reflexivity.
Qed.

Lemma stableHandleKlineUpdate_flags now wsConnected data s :
  flags (stableHandleKlineUpdate now wsConnected data s) = flags s.
Proof.
  unfold stableHandleKlineUpdate. repeat case_match; reflexivity.
Qed.

Lemma stableHandleConnectionChange_flags connected s :
  flags (stableHandleConnectionChange connected s) = flags s.
Proof. destruct connected; reflexivity. Qed.

(** Replacing or removing the [i]-th task changes a count by that task's
    share only. *)
Lemma count_insert (which : Task -> bool) (l : list Task) i t t' :
  l !! i = Some t ->
  (length (List.filter which (<[i := t']> l)) + (if which t then 1 else 0)
   = length (List.filter which l) + (if which t' then 1 else 0))%nat.
Proof.
  intros Hi.
  rewrite <- (take_drop_middle l i t Hi) at 2.
  rewrite insert_take_drop by (eapply lookup_lt_Some; exact Hi).
  rewrite !List.filter_app, !length_app. cbn.
  destruct (which t), (which t'); cbn; lia.
Qed.

Lemma count_delete (which : Task -> bool) (l : list Task) i t :
  l !! i = Some t ->
  (length (List.filter which (delete i l)) + (if which t then 1 else 0)
   = length (List.filter which l))%nat.
Proof.
  intros Hi.
  rewrite <- (take_drop_middle l i t Hi) at 2.
  rewrite delete_take_drop.
  rewrite !List.filter_app, !length_app. cbn.
  destruct (which t); cbn; lia.
Qed.

(** A continuation that suspends again stays an invocation of the same
    callback and leaves the flags; one that returns clears its own flag. *)
Lemma resume_flags now t rp s :
  match resume now t rp s with
  | Some (s', Some (t', _)) =>
      isRefresh t' = isRefresh t
      ∧ isSymbolChange t' = isSymbolChange t
      ∧ isTimeframeChange t' = isTimeframeChange t
      ∧ flags s' = flags s
  | Some (s', None) =>
      flags s' =
      (if isRefresh t then false else isRefreshingRef s,
       if isSymbolChange t then false else isChangingSymbolRef s,
       if isTimeframeChange t then false else isChangingTimeframeRef s)
  | None => True
  end.
Proof.
  destruct t, rp; cbn [resume isRefresh isSymbolChange isTimeframeChange];
    try exact I;
    try (pose proof (fetchData_settled_flags cl t0 now r s) as Hf;
         generalize dependent (fetchData_settled cl t0 now r s); intros s1 Hf);
    try (pose proof (fetchPriceData_settled_flags t0 r s) as Hf;
         generalize dependent (fetchPriceData_settled t0 r s); intros s1 Hf);
    unfold flags in *; try injection Hf as H1 H2 H3;
    try destruct (0 <? length (cCandles cl))%nat;
    repeat (split; [reflexivity|]);
    rewrite <- ?H1, <- ?H2, <- ?H3; reflexivity.
Qed.

Lemma mounted_flagsMatch t0 : flagsMatch (mounted t0).
Proof. repeat split. Qed.

Lemma suspend_count which t rq s m :
  inFlight which (suspend t rq s m)
  = (inFlight which m + (if which t then 1 else 0))%nat.
Proof.
  unfold inFlight, suspend. cbn.
  rewrite List.filter_app, length_app. cbn. destruct (which t); reflexivity.
Qed.

Lemma step_flagsMatch now ev m : flagsMatch m -> flagsMatch (step now ev m).
Proof.
  intros (HR & HS & HT). destruct ev; cbn [step].
  - unfold refreshData. destruct (isRefreshingRef (st m)) eqn:Hf.
    + unfold flagsMatch. rewrite Hf. auto.
    + unfold flagsMatch. rewrite !suspend_count.
      cbn [isRefresh isSymbolChange isTimeframeChange].
      rewrite HR, HS, HT, ?Hf.
      repeat split; rewrite ?Nat.add_0_r; reflexivity.
  - unfold changeSymbol. destruct (String.eqb _ _); [repeat split; assumption|].
    destruct (isChangingSymbolRef (st m)) eqn:Hf.
    + unfold flagsMatch. rewrite Hf. auto.
    + unfold flagsMatch. rewrite !suspend_count.
      cbn [isRefresh isSymbolChange isTimeframeChange].
      rewrite HR, HS, HT, ?Hf.
      repeat split; rewrite ?Nat.add_0_r; reflexivity.
  - unfold changeTimeframe. destruct (String.eqb _ _); [repeat split; assumption|].
    destruct (isChangingTimeframeRef (st m)) eqn:Hf.
    + unfold flagsMatch. rewrite Hf. auto.
    + unfold flagsMatch. rewrite !suspend_count.
      cbn [isRefresh isSymbolChange isTimeframeChange].
      rewrite HR, HS, HT, ?Hf.
      repeat split; rewrite ?Nat.add_0_r; reflexivity.
  - unfold settle. destruct (tasks m !! i) as [t|] eqn:Hi;
      [|repeat split; assumption].
    pose proof (resume_flags now t rp (st m)) as Hfl.
    destruct (resume now t rp (st m)) as [[s' next]|];
      [|repeat split; assumption].
    unfold flagsMatch, inFlight in *.
    destruct next as [[t' rq]|]; cbn [st tasks].
    + destruct Hfl as (H1 & H2 & H3 & Hfl). unfold flags in Hfl.
      injection Hfl as -> -> ->.
      pose proof (count_insert isRefresh _ _ _ t' Hi).
      pose proof (count_insert isSymbolChange _ _ _ t' Hi).
      pose proof (count_insert isTimeframeChange _ _ _ t' Hi).
      rewrite H1, H2, H3 in *.
      destruct (isRefresh t), (isSymbolChange t), (isTimeframeChange t);
        repeat split; lia.
    + unfold flags in Hfl. injection Hfl as -> -> ->.
      pose proof (count_delete isRefresh _ _ _ Hi).
      pose proof (count_delete isSymbolChange _ _ _ Hi).
      pose proof (count_delete isTimeframeChange _ _ _ Hi).
      destruct (isRefresh t), (isSymbolChange t), (isTimeframeChange t),
        (isRefreshingRef (st m)), (isChangingSymbolRef (st m)),
        (isChangingTimeframeRef (st m)); repeat split; lia.
  - unfold initializeData, flagsMatch. rewrite !suspend_count.
    cbn [isRefresh isSymbolChange isTimeframeChange st suspend].
    rewrite HR, HS, HT. repeat split; apply Nat.add_0_r.
  - unfold monitor. destruct (_ && _); [|repeat split; assumption].
    unfold flagsMatch. rewrite !suspend_count.
    cbn [isRefresh isSymbolChange isTimeframeChange st suspend].
    rewrite HR, HS, HT. repeat split; apply Nat.add_0_r.
  - pose proof (stableHandleKlineUpdate_flags now wsConnected data (st m)) as Hfl.
    unfold flags in Hfl. injection Hfl as H1 H2 H3.
    unfold flagsMatch, inFlight in *. cbn [st tasks]. rewrite H1, H2, H3. auto.
  - pose proof (stableHandleTickerUpdate_flags now wsConnected data (st m)) as Hfl.
    unfold flags in Hfl. injection Hfl as H1 H2 H3.
    unfold flagsMatch, inFlight in *. cbn [st tasks]. rewrite H1, H2, H3. auto.
  - pose proof (stableHandleConnectionChange_flags connected (st m)) as Hfl.
    unfold flags in Hfl. injection Hfl as H1 H2 H3.
    unfold flagsMatch, inFlight in *. cbn [st tasks]. rewrite H1, H2, H3. auto.
Qed.

Lemma run_flagsMatch evs m : flagsMatch m -> flagsMatch (run evs m).
Proof.
  revert m. induction evs as [|[now ev] evs IH]; intros m Hm; cbn.
  - exact Hm.
  - apply IH, step_flagsMatch, Hm.
Qed.

Lemma reachable_flagsMatch m : reachable m -> flagsMatch m.
Proof.
  intros (t0 & evs & ->). apply run_flagsMatch, mounted_flagsMatch.
Qed.

(** C6.  In every state the hook can reach, at most one [refreshData]
    invocation is in flight; and a call made while one is in flight
    changes nothing: no state, no fetch request, and no invocation left
    pending for later. *)
Theorem refreshData_not_reentrant (now : Z) (m : Machine) :
  reachable m ->
  (inFlight isRefresh m <= 1)%nat
  ∧ ((1 <= inFlight isRefresh m)%nat -> refreshData now m = m).
Proof.
  intros Hm. destruct (reachable_flagsMatch m Hm) as (HR & _).
  unfold refreshData.
  destruct (isRefreshingRef (st m)); rewrite HR.
  - split; [lia | reflexivity].
  - split; [lia | intros Hle; lia].
Qed.

(** C7, as the code has it.  [changeSymbol] and [changeTimeframe] called
    with the current value change nothing (the subscription stays, so the
    streaming client is neither torn down nor rebuilt); called while a
    change of the same kind is in flight they are dropped.  On an actual
    change [changeSymbol] resets candle data, analysis, indicators, current
    price, price change and ticker data to their placeholders before any
    fetch is issued (it only starts its 500 ms wait), whereas
    [changeTimeframe] keeps all of these and issues its candle fetch at
    once. *)
Theorem changeSubscription_guards_and_reset
    (now : Z) (newSymbol newTimeframe : string) (m : Machine) :
  reachable m ->
  changeSymbol (currentSymbol (st m)) m = m
  ∧ changeTimeframe now (currentTimeframe (st m)) m = m
  ∧ ((1 <= inFlight isSymbolChange m)%nat -> changeSymbol newSymbol m = m)
  ∧ ((1 <= inFlight isTimeframeChange m)%nat ->
     changeTimeframe now newTimeframe m = m)
  ∧ (newSymbol ≠ currentSymbol (st m) -> inFlight isSymbolChange m = 0%nat ->
     let m' := changeSymbol newSymbol m in
     candleData (st m') = []
     ∧ analysis (st m') = None
     ∧ indicatorArrays (st m') = None
     ∧ currentPrice (st m') = None
     ∧ priceChange (st m') = 0%float
     ∧ priceChangePercent (st m') = 0%float
     ∧ tickerData (st m') = None
     ∧ subscription (st m') = (newSymbol, currentTimeframe (st m))
     ∧ tasks m' = tasks m ++ [SymbolDelay (capture (st m)) newSymbol]
     ∧ requests m' = requests m ++ [Sleep 500])
  ∧ (newTimeframe ≠ currentTimeframe (st m) ->
     inFlight isTimeframeChange m = 0%nat ->
     let m' := changeTimeframe now newTimeframe m in
     candleData (st m') = candleData (st m)
     ∧ analysis (st m') = analysis (st m)
     ∧ indicatorArrays (st m') = indicatorArrays (st m)
     ∧ currentPrice (st m') = currentPrice (st m)
     ∧ priceChange (st m') = priceChange (st m)
     ∧ priceChangePercent (st m') = priceChangePercent (st m)
     ∧ tickerData (st m') = tickerData (st m)
     ∧ subscription (st m') = (currentSymbol (st m), newTimeframe)
     ∧ tasks m' = tasks m ++ [TimeframeKlines (capture (st m)) newTimeframe now]
     ∧ ∃ symbol interval,
         requests m' = requests m ++ [FetchKlines symbol interval 100]).
Proof.
  intros Hm. destruct (reachable_flagsMatch m Hm) as (_ & HS & HT).
  split; [unfold changeSymbol; rewrite String.eqb_refl; reflexivity|].
  split; [unfold changeTimeframe; rewrite String.eqb_refl; reflexivity|].
  split.
  { intros Hin. unfold changeSymbol. destruct (String.eqb _ _); [reflexivity|].
    destruct (isChangingSymbolRef (st m)); [reflexivity|]. rewrite HS in Hin. lia. }
  split.
  { intros Hin. unfold changeTimeframe. destruct (String.eqb _ _); [reflexivity|].
    destruct (isChangingTimeframeRef (st m)); [reflexivity|]. rewrite HT in Hin. lia. }
  split.
  - intros Hne Hnone. unfold changeSymbol.
    rewrite (proj2 (String.eqb_neq _ _) Hne).
    destruct (isChangingSymbolRef (st m)); [rewrite HS in Hnone; discriminate|].
    cbn. repeat split.
  - intros Hne Hnone. unfold changeTimeframe.
    rewrite (proj2 (String.eqb_neq _ _) Hne).
    destruct (isChangingTimeframeRef (st m)); [rewrite HT in Hnone; discriminate|].
    cbn. repeat split. eexists _, _. reflexivity.
Qed.

End HookFacts.

(** *** Scenarios on the sample host *)

Lemma refreshing_reachable : Hook.reachable Sample.refreshing.
Proof. exists 0, [(1000, Hook.CallRefreshData)]. reflexivity. Qed.

Lemma loaded_reachable : Hook.reachable Sample.loaded.
Proof. eexists 0, _. reflexivity. Qed.

(** The state in which the change of the REST ticker is held. *)
Lemma loaded_holds_change :
  Hook.priceChange (Hook.st Sample.loaded) = 150.25%float
  ∧ Hook.priceChangePercent (Hook.st Sample.loaded) = 1.42%float.
Proof. vm_compute. split; reflexivity. Qed.

(** C1 at the scenario of the specification: the change [150.25] /
    [1.42] is held, a ticker with [p] and [P] equal to ["0.00"] arrives;
    the change stays and the price becomes the one of the message. *)
Lemma ticker_zero_change_keeps_held_change_witness :
  Hook.priceChange
    (Hook.stableHandleTickerUpdate 9000 true Sample.sentinelTicker
       (Hook.st Sample.loaded)) = 150.25%float
  ∧ Hook.priceChangePercent
      (Hook.stableHandleTickerUpdate 9000 true Sample.sentinelTicker
         (Hook.st Sample.loaded)) = 1.42%float
  ∧ Hook.currentPrice
      (Hook.stableHandleTickerUpdate 9000 true Sample.sentinelTicker
         (Hook.st Sample.loaded)) = Some 43260%float.
Proof.
  exact (ticker_zero_change_keeps_held_change 9000 true Sample.sentinelTicker
           (Hook.st Sample.loaded) eq_refl eq_refl).
Defined.

(** C6 with a refresh in flight: the second call is dropped. *)
Lemma refreshData_not_reentrant_witness :
  Hook.inFlight Hook.isRefresh Sample.refreshing = 1%nat
  ∧ Hook.refreshData 2000 Sample.refreshing = Sample.refreshing.
Proof.
  split; [reflexivity|].
  apply (refreshData_not_reentrant 2000 Sample.refreshing refreshing_reachable).
  apply le_n.
Defined.

(** C7 on a loaded hook: a change to the current symbol is a no-op. *)
Lemma changeSubscription_guards_and_reset_witness :
  Hook.changeSymbol "BTCUSDT" Sample.loaded = Sample.loaded
  ∧ Hook.candleData (Hook.st (Hook.changeSymbol "ETHUSDT" Sample.loaded)) = [].
Proof.
  pose proof (changeSubscription_guards_and_reset 2000 "ETHUSDT" "1h"
                Sample.loaded loaded_reachable) as (Hsame & _ & _ & _ & Hreset & _).
  split; [exact Hsame|].
  apply Hreset; [discriminate | reflexivity].
Defined.

(** C7 as stated fails for the interval: after a refresh has loaded
    candles, price and ticker, an actual change of timeframe (from ["1d"]
    to ["1h"], none in flight) leaves the candle data, the current price
    and the ticker data of the old subscription in place. *)
Lemma changeTimeframe_keeps_dependent_state :
  Hook.currentTimeframe (Hook.st Sample.loaded) = "1d"
  ∧ Hook.isChangingTimeframeRef (Hook.st Sample.loaded) = false
  ∧ Hook.currentTimeframe
      (Hook.st (Hook.changeTimeframe 2000 "1h" Sample.loaded)) = "1h"
  ∧ Hook.candleData (Hook.st (Hook.changeTimeframe 2000 "1h" Sample.loaded))
    = [Sample.candle0]
  ∧ Hook.currentPrice (Hook.st (Hook.changeTimeframe 2000 "1h" Sample.loaded))
    = Some 43250.5%float
  ∧ Hook.tickerData (Hook.st (Hook.changeTimeframe 2000 "1h" Sample.loaded))
    = Some Sample.restTicker.
Proof. vm_compute. repeat split; reflexivity. Qed.

(** ** The streaming client *)

Section WSFacts.
Import WS.
Implicit Types (rd : Readings) (st : State).

(** *** Reconnection *)





Lemma handleConnectionError_out error st :
  out (handleConnectionError error st)
  = out st ++ (if onErrorCallback st then [ErrorCallback error] else []).
Proof.
  unfold handleConnectionError. destruct (onErrorCallback st); cbn;
    [reflexivity | rewrite app_nil_r; reflexivity].
Qed.



(** *** Messages *)

Lemma getProp_defined v k1 k2 x :
  Js.getProp v k1 = Fulfilled x -> ∃ y, Js.getProp v k2 = Fulfilled y.
Proof. destruct v; cbn; intros Hx; try discriminate Hx; eexists; reflexivity. Qed.

Lemma getProp_truthy v k : Js.truthy v = true -> ∃ y, Js.getProp v k = Fulfilled y.
Proof. destruct v; cbn; intros Hv; try discriminate Hv; eexists; reflexivity. Qed.

Lemma tickerUpdates_app l1 l2 :
  tickerUpdates (l1 ++ l2) = tickerUpdates l1 ++ tickerUpdates l2.
Proof. apply omap_app. Qed.

Lemma notifyConnection_tickerUpdates connected st :
  tickerUpdates (out (notifyConnection connected st)) = tickerUpdates (out st).
Proof.
  unfold notifyConnection. destruct (onConnectionChange st); [|reflexivity].
  cbn [emit]. change (tickerUpdates (out st ++ [ConnectionChange connected])
                      = tickerUpdates (out st)).
  rewrite tickerUpdates_app. apply app_nil_r.
Qed.

Lemma notifyConnection_onTickerUpdate connected st :
  onTickerUpdate (notifyConnection connected st) = onTickerUpdate st.
Proof. unfold notifyConnection. destruct (onConnectionChange st); reflexivity. Qed.

(** The state in which [ws.onmessage] enters its [try] block has the
    ticker listener and the ticker notices of the state before. *)
Lemma onmessage_entry rd st :
  let st1 := st <| lastDataReceived := now rd |> in
  let st2 := if isConnected st1 then notifyConnection true st1 else st1 in
  onTickerUpdate st2 = onTickerUpdate st
  ∧ tickerUpdates (out st2) = tickerUpdates (out st).
Proof.
  cbn zeta. destruct (isConnected _).
  - rewrite notifyConnection_onTickerUpdate, notifyConnection_tickerUpdates.
    split; reflexivity.
  - split; reflexivity.
Qed.

(** On a kline event with a close price, [dispatch] ends by handing the
    ticker listener a ticker whose change fields are ["0.00"]. *)
Lemma dispatch_kline data st ev k kc :
  onTickerUpdate st = true ->
  Js.getProp data "e" = Fulfilled ev ->
  Js.isString ev "kline" = true ->
  Js.getProp data "k" = Fulfilled k ->
  Js.truthy k = true ->
  Js.getProp k "c" = Fulfilled kc ->
  Js.truthy kc = true ->
  ∃ st' t,
    dispatch data st = Fulfilled st'
    ∧ tickerUpdates (out st') = tickerUpdates (out st) ++ [t]
    ∧ Ticker.p t = Js.str "0.00"
    ∧ Ticker.P t = Js.str "0.00"
    ∧ Ticker.c t = kc.
Proof.
  intros Hl He Hev Hk Hkt Hc Hct. unfold dispatch.
  rewrite He, Hev, Hk, Hkt, Hc, Hct.
  destruct (getProp_defined data "e" "E" ev He) as [dE ->].
  destruct (getProp_defined data "e" "s" ev He) as [ds ->].
  destruct (getProp_truthy k "o" Hkt) as [ko ->].
  destruct (getProp_truthy k "h" Hkt) as [kh ->].
  destruct (getProp_truthy k "l" Hkt) as [kl ->].
  set (t := {| Ticker.e := Js.str "24hrTicker"; Ticker.E := dE; Ticker.s := ds;
               Ticker.c := kc; Ticker.o := ko; Ticker.h := kh; Ticker.l := kl;
               Ticker.P := Js.str "0.00"; Ticker.p := Js.str "0.00" |}).
  destruct (onKlineUpdate st) eqn:Hkl.
  - change (onTickerUpdate (emit (KlineUpdate data) st)) with (onTickerUpdate st).
    rewrite Hl. exists (emit (TickerUpdate t) (emit (KlineUpdate data) st)), t.
    split; [reflexivity|]. split; [|repeat split].
    change (tickerUpdates ((out st ++ [KlineUpdate data]) ++ [TickerUpdate t])
            = tickerUpdates (out st) ++ [t]).
    rewrite !tickerUpdates_app, app_nil_r. reflexivity.
  - rewrite Hl. exists (emit (TickerUpdate t) st), t.
    split; [reflexivity|]. split; [|repeat split].
    change (tickerUpdates (out st ++ [TickerUpdate t])
            = tickerUpdates (out st) ++ [t]).
    rewrite tickerUpdates_app. reflexivity.
Qed.

(** C8.  For every message that parses to a kline event carrying a close
    price, [ws.onmessage] invokes the registered ticker listener exactly
    once, with a ticker synthesized from the kline whose change fields [p]
    and [P] are the string ["0.00"]. *)
Theorem onmessage_kline_synthesizes_zero_change_ticker
    rd (data ev k kc : Js.value) st :
  onTickerUpdate st = true ->
  Js.getProp data "e" = Fulfilled ev ->
  Js.isString ev "kline" = true ->
  Js.getProp data "k" = Fulfilled k ->
  Js.truthy k = true ->
  Js.getProp k "c" = Fulfilled kc ->
  Js.truthy kc = true ->
  ∃ t,
    tickerUpdates (out (onmessage rd (Fulfilled data) st))
    = tickerUpdates (out st) ++ [t]
    ∧ Ticker.p t = Js.str "0.00"
    ∧ Ticker.P t = Js.str "0.00"
    ∧ Ticker.c t = kc.
Proof.
  intros Hl He Hev Hk Hkt Hc Hct.
  destruct (onmessage_entry rd st) as [Hl2 Ho2].
  unfold onmessage.
  generalize dependent
    (if isConnected (st <| lastDataReceived := now rd |>)
     then notifyConnection true (st <| lastDataReceived := now rd |>)
     else st <| lastDataReceived := now rd |>).
  intros st2 Hl2 Ho2. rewrite Hl in Hl2.
  destruct (dispatch_kline data st2 ev k kc Hl2 He Hev Hk Hkt Hc Hct)
    as (st' & t & -> & Hout & Hp & HP & Hcl).
  exists t. rewrite Hout, Ho2. auto.
Qed.

(** A message that does not parse is reported and invokes no listener
    but the error listener. *)
Lemma onmessage_parse_error rd err st :
  tickerUpdates (out (onmessage rd (Rejected err) st)) = tickerUpdates (out st).
Proof.
  destruct (onmessage_entry rd st) as [_ Ho2].
  unfold onmessage.
  generalize dependent
    (if isConnected (st <| lastDataReceived := now rd |>)
     then notifyConnection true (st <| lastDataReceived := now rd |>)
     else st <| lastDataReceived := now rd |>).
  intros st2 Ho2. rewrite handleConnectionError_out, tickerUpdates_app, Ho2.
  destruct (onErrorCallback st2); apply app_nil_r.
Qed.

End WSFacts.


(** *** Timers and [disconnect] *)

Section TimerFacts.
Import WS.
Implicit Types (rd : Readings) (st : State).

Lemma clearTimer_pending h st t :
  t ∈ timers (clearTimer h st) ↔ t ∈ timers st ∧ handle t ≠ h.
Proof.
  unfold clearTimer.
  change (t ∈ filter (λ t, handle t ≠ h) (timers st) ↔ t ∈ timers st ∧ handle t ≠ h).
  rewrite list_elem_of_filter. tauto.
Qed.

(** X13.  [disconnect] cancels exactly the timers whose handles the
    instance stored (the connection timeout, the heartbeat and the
    data-timeout check): a timer is pending afterwards exactly when it was
    pending before and is none of these three. *)
Lemma disconnect_pending st t :
  t ∈ timers (disconnect st) ↔
  t ∈ timers st
  ∧ connectionTimeout st ≠ Some (handle t)
  ∧ pingInterval st ≠ Some (handle t)
  ∧ dataTimeoutCheck st ≠ Some (handle t).
Proof.
  destruct st as [ws0 ? ? ? ? ? ? ? ? ct ? ? pi ? dc ? ? ? ? ? ? ? socks tm ? ?].
  unfold disconnect, stopHeartbeat, stopDataTimeoutCheck, closeSocket, clearTimer,
    emit, readyState.
  destruct ct as [h1|], pi as [h2|], dc as [h3|], ws0 as [id|]; cbn;
    try (destruct (socks !! id) as [[]|]; cbn).
  all: rewrite ?list_elem_of_filter.
  all: intuition congruence.
Qed.
End TimerFacts.

(** *** The cooldown of the circuit breaker *)

Section DelayFacts.
Import WS.
Implicit Types (rd : Readings) (st : State).

Lemma handleConnectionError_delay error st :
  circuitBreakerDelay (handleConnectionError error st) = circuitBreakerDelay st.
Proof. unfold handleConnectionError. destruct (onErrorCallback st); reflexivity. Qed.

Lemma notifyConnection_delay connected st :
  circuitBreakerDelay (notifyConnection connected st) = circuitBreakerDelay st.
Proof. unfold notifyConnection. destruct (onConnectionChange st); reflexivity. Qed.

Lemma closeSocket_delay id code st :
  circuitBreakerDelay (closeSocket id code st) = circuitBreakerDelay st.
Proof.
  unfold closeSocket. destruct (readyState _ id) as [[]|]; reflexivity.
Qed.

Lemma stopHeartbeat_delay st :
  circuitBreakerDelay (stopHeartbeat st) = circuitBreakerDelay st.
Proof. unfold stopHeartbeat. destruct (pingInterval st); reflexivity. Qed.

Lemma stopDataTimeoutCheck_delay st :
  circuitBreakerDelay (stopDataTimeoutCheck st) = circuitBreakerDelay st.
Proof. unfold stopDataTimeoutCheck. destruct (dataTimeoutCheck st); reflexivity. Qed.

Create Rewrite HintDb delay_db.
#[local] Hint Rewrite handleConnectionError_delay notifyConnection_delay closeSocket_delay
  stopHeartbeat_delay stopDataTimeoutCheck_delay : delay_db.

(** Split on the tests of a handler until each branch is a chain of
    field updates. *)
Ltac same_delay :=
  repeat first
    [ reflexivity
    | progress autorewrite with delay_db
    | match goal with
      | |- circuitBreakerDelay (if ?b then _ else _) = _ => destruct b
      | |- circuitBreakerDelay (match ?x with _ => _ end) = _ => destruct x
      | |- circuitBreakerDelay (apply_update ?u ?s) = _ =>
          change (circuitBreakerDelay (apply_update u s))
            with (circuitBreakerDelay s)
      end ].

Lemma setTimer_delay cb d rep st :
  circuitBreakerDelay (setTimer cb d rep st).2 = circuitBreakerDelay st.
Proof. reflexivity. Qed.

Lemma clearTimer_delay h st :
  circuitBreakerDelay (clearTimer h st) = circuitBreakerDelay st.
Proof. reflexivity. Qed.

Lemma emit_delay n st : circuitBreakerDelay (emit n st) = circuitBreakerDelay st.
Proof. reflexivity. Qed.

#[local] Hint Rewrite setTimer_delay clearTimer_delay emit_delay : delay_db.

(** The same through the [let]s of a handler: each intermediate state is
    replaced by a variable with the same cooldown. *)
Ltac same_delay_let :=
  repeat first
    [ reflexivity
    | progress autorewrite with delay_db
    | match goal with
      | |- circuitBreakerDelay (let st := ?e in _) = circuitBreakerDelay ?s0 =>
          let st' := fresh "st" in let H := fresh "H" in
          assert (H : circuitBreakerDelay e = circuitBreakerDelay s0)
            by same_delay_let;
          generalize dependent e; intros st' H; cbv zeta;
          rewrite <- H; clear H
      | |- circuitBreakerDelay (match setTimer _ _ _ _ with _ => _ end) = _ =>
          cbv beta iota zeta delta [setTimer]
      | |- circuitBreakerDelay (if ?b then _ else _) = _ => destruct b
      | |- circuitBreakerDelay (match ?x with _ => _ end) = _ => destruct x
      | |- circuitBreakerDelay (apply_update ?u ?s) = _ =>
          change (circuitBreakerDelay (apply_update u s))
            with (circuitBreakerDelay s)
      end ].

Lemma handleReconnect_delay rd st :
  circuitBreakerDelay (handleReconnect rd st) = circuitBreakerDelay st.
Proof.
  cbv beta iota zeta delta [handleReconnect setTimer snd]. same_delay.
Qed.

Lemma connect_delay rd st :
  circuitBreakerDelay (connect rd st) = circuitBreakerDelay st.
Proof.
  cbv beta iota delta [connect]. same_delay_let.
Qed.

Lemma onopen_delay rd st :
  circuitBreakerDelay (onopen rd st) = circuitBreakerDelay st.
Proof.
  cbv beta iota delta [onopen startHeartbeat startDataTimeoutCheck].
  same_delay_let.
Qed.

Lemma onclose_delay rd code st :
  circuitBreakerDelay (onclose rd code st) = circuitBreakerDelay st.
Proof.
  cbv beta iota delta [onclose]. same_delay_let.
  rewrite handleReconnect_delay. same_delay_let.
Qed.

Lemma onerror_delay rd error st :
  circuitBreakerDelay (onerror rd error st) = circuitBreakerDelay st.
Proof. cbv beta iota delta [onerror]. same_delay_let. Qed.

Lemma dispatch_delay data st :
  match dispatch data st with
  | Fulfilled st' => circuitBreakerDelay st' = circuitBreakerDelay st
  | Rejected _ => True
  end.
Proof.
  unfold dispatch.
  repeat match goal with
         | |- context [match Js.getProp ?v ?k with _ => _ end] =>
             destruct (Js.getProp v k)
         | |- context [if ?b then _ else _] => destruct b
         end; try exact I; reflexivity.
Qed.

Lemma onmessage_delay rd parsed st :
  circuitBreakerDelay (onmessage rd parsed st) = circuitBreakerDelay st.
Proof.
  unfold onmessage.
  assert (H : circuitBreakerDelay
                (if isConnected (st <| lastDataReceived := now rd |>)
                 then notifyConnection true (st <| lastDataReceived := now rd |>)
                 else st <| lastDataReceived := now rd |>)
              = circuitBreakerDelay st) by same_delay_let.
  generalize dependent
    (if isConnected (st <| lastDataReceived := now rd |>)
     then notifyConnection true (st <| lastDataReceived := now rd |>)
     else st <| lastDataReceived := now rd |>).
  intros st2 H. destruct parsed as [data|err].
  - pose proof (dispatch_delay data st2) as Hd.
    destruct (dispatch data st2).
    + congruence.
    + rewrite handleConnectionError_delay. exact H.
  - rewrite handleConnectionError_delay. exact H.
Qed.

Lemma disconnect_delay st :
  circuitBreakerDelay (disconnect st) = circuitBreakerDelay st.
Proof. cbv beta iota delta [disconnect]. same_delay_let. Qed.

Lemma changeStream_delay symbol0 interval0 st :
  circuitBreakerDelay (changeStream symbol0 interval0 st) = circuitBreakerDelay st.
Proof.
  cbv beta iota delta [changeStream]. same_delay_let.
  rewrite disconnect_delay. same_delay_let.
Qed.

Lemma runTimer_delay cb rd st :
  circuitBreakerDelay (runTimer cb rd st) = circuitBreakerDelay st.
Proof.
  destruct cb; cbv beta iota delta [runTimer]; same_delay_let;
    rewrite ?connect_delay, ?handleReconnect_delay; same_delay_let.
Qed.

(** No step of an instance changes [circuitBreakerDelay]. *)
Lemma step_delay rd ev st :
  circuitBreakerDelay (step rd ev st) = circuitBreakerDelay st.
Proof.
  destruct ev; cbv beta iota delta [step timerDue setReadyState];
    rewrite ?connect_delay, ?disconnect_delay, ?changeStream_delay;
    same_delay_let;
    rewrite ?onopen_delay, ?onmessage_delay, ?onclose_delay, ?onerror_delay,
      ?runTimer_delay; same_delay_let.
Qed.

Lemma run_delay evs st :
  circuitBreakerDelay (run evs st) = circuitBreakerDelay st.
Proof.
  revert st. induction evs as [|[rd ev] evs IH]; intros st; cbn.
  - reflexivity.
  - rewrite IH. apply step_delay.
Qed.

End DelayFacts.

(** *** The circuit breaker *)

Section BreakerFacts.
Import WS.
Implicit Types (rd : Readings) (st : State).

(** X15.  An error that follows two or more counted errors trips the
    breaker: the count goes up by one and the time of the error is
    recorded as the start of the cooldown. *)
Lemma onerror_trips_breaker rd error st :
  (2 <= errorCount st)%nat ->
  isCircuitBreakerActive (onerror rd error st) = true
  ∧ errorCount (onerror rd error st) = S (errorCount st)
  ∧ lastErrorTime (onerror rd error st) = now rd.
Proof.
  destruct st as [? ? ? ? ? oc oe ? ? ? ? ? ? ? ? ec ? ? ? ? ? ? ? ? ? ?].
  cbn. intros Hec. destruct ec as [|[|ec]]; [lia | lia |].
  unfold onerror, handleConnectionError, notifyConnection, emit.
  destruct oe, oc; cbn; repeat split; reflexivity.
Qed.

(** While the breaker is active and less than [circuitBreakerDelay] has
    passed since the last error, [connect] does nothing. *)
Lemma connect_noop_during_cooldown rd st :
  isCircuitBreakerActive st = true ->
  now rd - lastErrorTime st < circuitBreakerDelay st ->
  connect rd st = st.
Proof.
  intros Hb Hlt. unfold connect.
  destruct (bool_decide (now rd - lastConnectionTime st < 3000)); [reflexivity|].
  destruct (isConnecting st); [reflexivity|].
  rewrite Hb, bool_decide_eq_true_2 by exact Hlt. reflexivity.
Qed.

(** X16.  Once [circuitBreakerDelay] has passed, a [connect] that is
    neither rate limited nor in extended backoff resets the error count,
    leaves the circuit-open state and creates a socket. *)
Lemma connect_after_cooldown rd st :
  isCircuitBreakerActive st = true ->
  circuitBreakerDelay st <= now rd - lastErrorTime st ->
  3000 <= now rd - lastConnectionTime st ->
  isConnecting st = false ->
  (connectionAttempts st < 5)%nat ->
  ctorThrows rd = None ->
  errorCount (connect rd st) = 0%nat
  ∧ isCircuitBreakerActive (connect rd st) = false
  ∧ socketsCreated (out (connect rd st))
    = socketsCreated (out st) ++ [length (sockets st)].
Proof.
  destruct st as [? ? ? ? ? ? ? ? ? ct ic lct ? ? ? ? let0 cbd cba ca ? ? ? ? ? ?].
  cbn. intros -> Hcool Hrate -> Hca Hctor.
  assert (Hca' : (ca = 0 ∨ ca = 1 ∨ ca = 2 ∨ ca = 3 ∨ ca = 4)%nat) by lia.
  clear Hca. unfold connect. cbn.
  rewrite bool_decide_eq_false_2 by lia.
  rewrite bool_decide_eq_false_2 by lia.
  rewrite Hctor.
  destruct Hca' as [->|[->|[->|[->| ->]]]];
    destruct ct; cbn; unfold socketsCreated; rewrite omap_app; repeat split.
Qed.

End BreakerFacts.

(** *** Scenarios *)

(** C3 (the code departs from the claim).  The connection opens and is
    closed by the remote end, so [handleReconnect] queues its timer; the
    owner then calls [disconnect].  The reconnect timer, whose handle the
    instance never stored, is still pending; when it comes due 4 s after
    the close it calls [connect], which creates a second socket, and the
    opening of that socket invokes the connection listener. *)
Theorem disconnect_leaves_reconnect_timer_pending :
  map WS.callback (WS.timers Scenario.dropped) = [WS.Reconnect]
  ∧ map WS.callback (WS.timers Scenario.disconnected) = [WS.Reconnect]
  ∧ WS.ws Scenario.disconnected = None
  ∧ WS.out
      (WS.run [(Scenario.at_ 24000 0, WS.TimerDue 4);
               (Scenario.at_ 24300 0, WS.SocketOpen 1)]
         Scenario.disconnected)
    = WS.out Scenario.disconnected ++
      [WS.NewWebSocket 1 "wss://stream.binance.com:9443/ws/btcusdt@kline_1m";
       WS.ConnectionChange true].
Proof. vm_compute. repeat split; reflexivity. Qed.

(** C4 (the code departs from the claim).  Three attempts in a row fail;
    the third error trips the breaker and the console announces a
    cooldown of [min(15000 * 3, 120000) = 45000] ms.  A [connect] 4.7 s
    after the trip is a no-op, but a [connect] 15 s after it already
    resets the breaker and creates a socket: the cooldown [connect] tests
    is the field [circuitBreakerDelay], which no step of any run ever
    changes, so the window is 15 s at every trip. *)
Theorem circuit_breaker_cooldown_never_grows :
  WS.isCircuitBreakerActive Scenario.tripped = true
  ∧ WS.errorCount Scenario.tripped = 3%nat
  ∧ WS.lastErrorTime Scenario.tripped = 20300
  ∧ WS.breakerAnnouncements (WS.out Scenario.tripped) = [45000]
  ∧ WS.connect (Scenario.at_ 25000 0) Scenario.tripped = Scenario.tripped
  ∧ WS.isCircuitBreakerActive (WS.connect (Scenario.at_ 35300 0) Scenario.tripped)
    = false
  ∧ WS.socketsCreated (WS.out (WS.connect (Scenario.at_ 35300 0) Scenario.tripped))
    = WS.socketsCreated (WS.out Scenario.tripped) ++ [3%nat]
  ∧ ∀ symbol0 interval0 evs,
      WS.circuitBreakerDelay (WS.run evs (WS.create symbol0 interval0)) = 15000.
Proof.
  repeat (split; [vm_compute; reflexivity|]).
  intros symbol0 interval0 evs. rewrite run_delay. reflexivity.
Qed.



(** C8 on an open connection: one kline message, one ticker with the
    zero change fields. *)
Lemma onmessage_kline_synthesizes_zero_change_ticker_witness :
  ∃ t,
    WS.tickerUpdates
      (WS.out (WS.onmessage (Scenario.at_ 11000 0)
                 (Fulfilled Scenario.klineMessage) Scenario.streaming))
    = WS.tickerUpdates (WS.out Scenario.streaming) ++ [t]
    ∧ Ticker.p t = Js.str "0.00"
    ∧ Ticker.P t = Js.str "0.00"
    ∧ Ticker.c t = Js.str "43260.00".
Proof.
  apply (onmessage_kline_synthesizes_zero_change_ticker
           (Scenario.at_ 11000 0) Scenario.klineMessage (Js.str "kline")
           (Js.lookupField "k" [("e", Js.str "kline"); ("E", Js.number 1700000000000);
                                ("s", Js.str "BTCUSDT");
                                ("k", Js.object
                                   [("t", Js.number 1700000000000);
                                    ("o", Js.str "43100.00");
                                    ("c", Js.str "43260.00");
                                    ("h", Js.str "43300.00");
                                    ("l", Js.str "43000.00");
                                    ("v", Js.str "12.5");
                                    ("x", Js.boolean false)])])
           (Js.str "43260.00") Scenario.streaming);
    reflexivity.
Defined.

(** ** The streaming client, earlier revision *)

Section LegacyFacts.
Implicit Types (rd : WS.Readings) (st : Legacy.State).



(** X21.  The message handler of the earlier revision synthesizes the
    same zero-change ticker: for a kline event with a close price the
    ticker listener is invoked once, with [p] and [P] equal to ["0.00"]. *)
Lemma legacy_onmessage_kline rd (data ev k kc : Js.value) st :
  Legacy.onTickerUpdate st = true ->
  Js.getProp data "e" = Fulfilled ev ->
  Js.isString ev "kline" = true ->
  Js.getProp data "k" = Fulfilled k ->
  Js.truthy k = true ->
  Js.getProp k "c" = Fulfilled kc ->
  Js.truthy kc = true ->
  ∃ t,
    WS.tickerUpdates (Legacy.out (Legacy.onmessage rd (Fulfilled data) st))
    = WS.tickerUpdates (Legacy.out st) ++ [t]
    ∧ Ticker.p t = Js.str "0.00"
    ∧ Ticker.P t = Js.str "0.00"
    ∧ Ticker.c t = kc.
Proof.
  intros Hl He Hev Hk Hkt Hc Hct. unfold Legacy.onmessage, Legacy.dispatch.
  rewrite He, Hev, Hk, Hkt, Hc, Hct.
  destruct (getProp_defined data "e" "E" ev He) as [dE ->].
  destruct (getProp_defined data "e" "s" ev He) as [ds ->].
  destruct (getProp_truthy k "o" Hkt) as [ko ->].
  destruct (getProp_truthy k "h" Hkt) as [kh ->].
  destruct (getProp_truthy k "l" Hkt) as [kl ->].
  set (t := {| Ticker.e := Js.str "24hrTicker"; Ticker.E := dE; Ticker.s := ds;
               Ticker.c := kc; Ticker.o := ko; Ticker.h := kh; Ticker.l := kl;
               Ticker.P := Js.str "0.00"; Ticker.p := Js.str "0.00" |}).
  exists t. split; [|repeat split].
  destruct st as [? ? ? ok ? ? ? ? ? ? ? ? ? ? ? ? ? ? ? ?].
  cbn in Hl. subst.
  destruct ok; cbn -[WS.tickerUpdates]; unfold constant;
    rewrite !tickerUpdates_app; cbn; rewrite ?app_nil_r; reflexivity.
Qed.

End LegacyFacts.

(** * Further properties *)

(** ** The freshness cache, continued *)

Section CacheMoreFacts.
Context {T E : Type}.
Implicit Types (cache : gmap string (Cache.CacheEntry T)) (key : string).
Implicit Types (rd : Cache.Readings) (fetchFn : unit -> Settled T E).

(** X9.  A fresh hit leaves the entry as it is: the value is returned without
    a fetch, and neither the timestamp nor the TTL of the entry is
    renewed. *)
Theorem getCachedData_hit_does_not_renew rd nowStore key fetchFn ttl0 cache c :
  cache !! key = Some c ->
  Cache.now rd - Cache.timestamp c < Cache.ttl c ->
  let r := Cache.getCachedData rd nowStore key fetchFn ttl0 cache in
  Cache.returned r = Fulfilled (Cache.data c)
  ∧ Cache.fetchCalls r = 0%nat
  ∧ Cache.cacheAfter r !! key = Some c.
Proof.
  intros Hc Hfresh. cbv zeta.
  unfold Cache.getCachedData, Cache.getCachedData_begin.
  pose proof (maybeCleanup_fresh rd cache key c Hc Hfresh) as Hm.
  rewrite Hm. cbn.
  rewrite bool_decide_eq_true_2 by exact Hfresh. cbn.
  split; [reflexivity|]. split; [reflexivity | exact Hm].
Qed.

(** X10.  Store, then hit.  A call that misses and whose fetch succeeds
    returns the fetched value and stores it with the time of storing and
    the TTL of the call; every later call for the key made before the TTL
    has passed returns that value without a fetch. *)
Theorem getCachedData_store_then_hit
    rd nowStore key fetchFn ttl0 cache d rd2 nowStore2 fetchFn2 ttl2 :
  Cache.isFresh (Cache.now rd) (cache !! key) = false ->
  fetchFn tt = Fulfilled d ->
  Cache.now rd2 - nowStore < ttl0 ->
  let r := Cache.getCachedData rd nowStore key fetchFn ttl0 cache in
  let r2 := Cache.getCachedData rd2 nowStore2 key fetchFn2 ttl2 (Cache.cacheAfter r) in
  Cache.returned r = Fulfilled d
  ∧ Cache.fetchCalls r = 1%nat
  ∧ Cache.cacheAfter r !! key
    = Some {| Cache.data := d; Cache.timestamp := nowStore; Cache.ttl := ttl0 |}
  ∧ Cache.returned r2 = Fulfilled d
  ∧ Cache.fetchCalls r2 = 0%nat.
Proof.
  intros Hstale Hf Hlt. cbv zeta.
  assert (Hr : Cache.returned (Cache.getCachedData rd nowStore key fetchFn ttl0 cache)
               = Fulfilled d
             ∧ Cache.cacheAfter (Cache.getCachedData rd nowStore key fetchFn ttl0 cache)
               !! key
               = Some {| Cache.data := d; Cache.timestamp := nowStore;
                         Cache.ttl := ttl0 |}).
  { unfold Cache.getCachedData, Cache.getCachedData_begin.
    assert (Hs : Cache.isFresh (Cache.now rd) (Cache.maybeCleanup rd cache !! key)
                 = false).
    { unfold Cache.maybeCleanup. destruct (Qlt_le_dec _ _); [|exact Hstale].
      rewrite cleanupCache_lookup. destruct (cache !! key) as [c|]; [|reflexivity].
      destruct (decide _); [reflexivity | exact Hstale]. }
    destruct (Cache.maybeCleanup rd cache !! key) as [c|] eqn:Hc;
      rewrite ?Hs; unfold Cache.getCachedData_resume; rewrite Hf; cbn;
      (split; [reflexivity | apply lookup_insert_eq]). }
  destruct Hr as [Hret Hstored].
  split; [exact Hret|].
  split; [apply getCachedData_miss, Hstale|].
  split; [exact Hstored|].
  apply (getCachedData_fresh rd2 nowStore2 key fetchFn2 ttl2 _ _ Hstored Hlt).
Qed.

(** X11.  A call for one key leaves the entry of another key alone, as long
    as that entry is not older than its TTL. *)
Theorem getCachedData_other_key rd nowStore key fetchFn ttl0 cache key' c :
  key' ≠ key ->
  cache !! key' = Some c ->
  Cache.now rd - Cache.timestamp c <= Cache.ttl c ->
  Cache.cacheAfter (Cache.getCachedData rd nowStore key fetchFn ttl0 cache) !! key'
  = Some c.
Proof.
  intros Hne Hc Hle.
  assert (Hm : Cache.maybeCleanup rd cache !! key' = Some c).
  { unfold Cache.maybeCleanup. destruct (Qlt_le_dec _ _); [|exact Hc].
    rewrite cleanupCache_lookup, Hc. destruct (decide _); [lia | reflexivity]. }
  unfold Cache.getCachedData, Cache.getCachedData_begin.
  destruct (Cache.maybeCleanup rd cache !! key) as [c0|];
    [destruct (Cache.isFresh _ _); [exact Hm|]|];
    unfold Cache.getCachedData_resume;
    (destruct (fetchFn tt) as [d|err];
     [cbn; rewrite lookup_insert_ne by congruence; exact Hm|]);
    try exact Hm.
Qed.

End CacheMoreFacts.

(** *** Scenarios of the cache *)

(** X9 on the one-entry cache, one second after the entry was stored. *)
Lemma getCachedData_hit_does_not_renew_witness :
  Cache.returned
    (Cache.getCachedData {| Cache.random := 1 # 20; Cache.now := 1000 |} 1001
       "market-sentiment" Cache.failingFetch 300000 Cache.staleCache)
  = Fulfilled 42
  ∧ Cache.fetchCalls
      (Cache.getCachedData {| Cache.random := 1 # 20; Cache.now := 1000 |} 1001
         "market-sentiment" Cache.failingFetch 300000 Cache.staleCache) = 0%nat
  ∧ Cache.cacheAfter
      (Cache.getCachedData {| Cache.random := 1 # 20; Cache.now := 1000 |} 1001
         "market-sentiment" Cache.failingFetch 300000 Cache.staleCache)
    !! "market-sentiment"
    = Some {| Cache.data := 42; Cache.timestamp := 0; Cache.ttl := 300000 |}.
Proof.
  apply (getCachedData_hit_does_not_renew
           {| Cache.random := 1 # 20; Cache.now := 1000 |} 1001
           "market-sentiment" Cache.failingFetch 300000 Cache.staleCache
           {| Cache.data := 42; Cache.timestamp := 0; Cache.ttl := 300000 |}).
  - apply lookup_singleton_eq.
  - cbn. lia.
Defined.

(** X10 on an empty cache. *)
Lemma getCachedData_store_then_hit_witness :
  Cache.returned
    (Cache.getCachedData {| Cache.random := 1 # 2; Cache.now := 2000 |} 2001
       "market-sentiment" Cache.failingFetch 300000
       (Cache.cacheAfter
          (Cache.getCachedData {| Cache.random := 1 # 2; Cache.now := 1000 |}
             1200 "market-sentiment" (λ _, Fulfilled 65 : Settled Z string)
             300000 ∅)))
  = Fulfilled 65.
Proof.
  apply (getCachedData_store_then_hit
           {| Cache.random := 1 # 2; Cache.now := 1000 |} 1200 "market-sentiment"
           (λ _, Fulfilled 65 : Settled Z string) 300000 ∅ 65
           {| Cache.random := 1 # 2; Cache.now := 2000 |} 2001
           Cache.failingFetch 300000).
  - reflexivity.
  - reflexivity.
  - cbn. lia.
Defined.

(** X11: a call for the indicators leaves the sentiment entry. *)
Lemma getCachedData_other_key_witness :
  Cache.cacheAfter
    (Cache.getCachedData {| Cache.random := 1 # 20; Cache.now := 1000 |} 1200
       "bull-market-indicators" (λ _, Fulfilled 70 : Settled Z string) 600000
       Cache.staleCache)
  !! "market-sentiment"
  = Some {| Cache.data := 42; Cache.timestamp := 0; Cache.ttl := 300000 |}.
Proof.
  apply (getCachedData_other_key
           {| Cache.random := 1 # 20; Cache.now := 1000 |} 1200
           "bull-market-indicators" (λ _, Fulfilled 70 : Settled Z string) 600000
           Cache.staleCache "market-sentiment").
  - discriminate.
  - apply lookup_singleton_eq.
  - cbn. lia.
Defined.

(** ** The market-data route *)

Section RouteFacts.
Context {T E : Type}.
Implicit Types (cache : gmap string (Cache.CacheEntry T)).

(** The keys the route caches under. *)
Lemma cacheKeys_shape endpoint symbol key :
  key ∈ Route.cacheKeys endpoint symbol ->
  key ∈ ["bull-market-indicators"; "market-sentiment"; "sell-signal-strength"]
  ∨ key = ("comprehensive-market-data-" ++ symbol)%string.
Proof.
  unfold Route.cacheKeys.
  repeat match goal with |- context [if ?b then _ else _] => destruct b end;
    rewrite ?elem_of_cons, ?elem_of_nil; intuition auto.
Qed.

Lemma cacheStep_keys (s : Route.CacheStep T E) cache key :
  is_Some (Route.cacheStep s cache !! key) ->
  is_Some (cache !! key) ∨ key = Route.stepKey s.
Proof.
  destruct s as [rd k|nowStore k ttl0 cached fetched]; cbn [Route.cacheStep Route.stepKey].
  - unfold Cache.getCachedData_begin.
    assert (Hm : is_Some (Cache.maybeCleanup rd cache !! key) ->
                 is_Some (cache !! key)).
    { unfold Cache.maybeCleanup. destruct (Qlt_le_dec _ _); [|auto].
      rewrite cleanupCache_lookup. destruct (cache !! key); [eauto|].
      intros [? ?]; discriminate. }
    destruct (Cache.maybeCleanup rd cache !! k);
      [destruct (Cache.isFresh _ _)|]; cbn; auto.
  - unfold Cache.getCachedData_resume.
    destruct fetched as [d|err]; [|destruct cached; cbn; auto].
    cbn. destruct (decide (key = k)) as [->|Hne]; [auto|].
    rewrite lookup_insert_ne by congruence. auto.
Qed.

Lemma cacheAfterSteps_keys (steps : list (Route.CacheStep T E)) key :
  is_Some (Route.cacheAfterSteps steps !! key) ->
  ∃ s, s ∈ steps ∧ key = Route.stepKey s.
Proof.
  unfold Route.cacheAfterSteps.
  induction steps as [|s steps IH] using rev_ind.
  - cbn. rewrite lookup_empty. intros [? ?]; discriminate.
  - rewrite fold_left_app. cbn [fold_left].
    intros [Hk| ->]%cacheStep_keys.
    + destruct (IH Hk) as (s' & Hs' & ->).
      exists s'. split; [apply elem_of_app; left; exact Hs' | reflexivity].
    + exists s. split; [|reflexivity].
      apply elem_of_app. right. apply list_elem_of_here.
Qed.

(** X12.  The [cached] field of the answer is [false] for each of the four
    named endpoints, whatever requests were served before and however
    their calls interleaved: no call ever stores under the name of the
    endpoint. *)
Theorem cachedField_named_endpoints_false (steps : list (Route.CacheStep T E)) :
  Forall Route.servedStep steps ->
  Route.cachedField "indicators" (Route.cacheAfterSteps steps) = false
  ∧ Route.cachedField "sentiment" (Route.cacheAfterSteps steps) = false
  ∧ Route.cachedField "sell-signal" (Route.cacheAfterSteps steps) = false
  ∧ Route.cachedField "comprehensive" (Route.cacheAfterSteps steps) = false.
Proof.
  intros Hserved.
  assert (Hno : ∀ key,
             key ∈ ["indicators"; "sentiment"; "sell-signal"; "comprehensive"] ->
             ¬ is_Some (Route.cacheAfterSteps steps !! key)).
  { intros key Hkey (s & Hs & ->)%cacheAfterSteps_keys.
    rewrite Forall_forall in Hserved.
    destruct (Hserved s Hs) as (endpoint & symbol & Hin).
    apply cacheKeys_shape in Hin as [Hin| Hin].
    - rewrite !elem_of_cons, elem_of_nil in Hin.
      rewrite !elem_of_cons, elem_of_nil in Hkey.
      destruct Hin as [Hi|[Hi|[Hi|[]]]]; rewrite Hi in Hkey;
        destruct Hkey as [Hk|[Hk|[Hk|[Hk|[]]]]]; discriminate Hk.
    - rewrite Hin in Hkey. rewrite !elem_of_cons, elem_of_nil in Hkey.
      destruct Hkey as [Hk|[Hk|[Hk|[Hk|[]]]]]; cbn in Hk; discriminate Hk. }
  unfold Route.cachedField. cbn [String.eqb Ascii.eqb Bool.eqb].
  repeat split; apply bool_decide_eq_false_2, Hno;
    rewrite !elem_of_cons; auto 6.
Qed.

End RouteFacts.

(** X12 after the indicators endpoint was served once. *)
Lemma cachedField_named_endpoints_false_witness :
  Route.cachedField "indicators"
    (Route.cacheAfterSteps
       [Route.Begins {| Cache.random := 1 # 2; Cache.now := 1000 |}
          "bull-market-indicators";
        Route.Resumes 1200 "bull-market-indicators" 600000 None
          (Fulfilled 70 : Settled Z string)]) = false
  ∧ Route.cachedField "sentiment"
      (Route.cacheAfterSteps
         [Route.Begins {| Cache.random := 1 # 2; Cache.now := 1000 |}
            "bull-market-indicators";
          Route.Resumes 1200 "bull-market-indicators" 600000 None
            (Fulfilled 70 : Settled Z string)]) = false
  ∧ Route.cachedField "sell-signal"
      (Route.cacheAfterSteps
         [Route.Begins {| Cache.random := 1 # 2; Cache.now := 1000 |}
            "bull-market-indicators";
          Route.Resumes 1200 "bull-market-indicators" 600000 None
            (Fulfilled 70 : Settled Z string)]) = false
  ∧ Route.cachedField "comprehensive"
      (Route.cacheAfterSteps
         [Route.Begins {| Cache.random := 1 # 2; Cache.now := 1000 |}
            "bull-market-indicators";
          Route.Resumes 1200 "bull-market-indicators" 600000 None
            (Fulfilled 70 : Settled Z string)]) = false.
Proof.
  apply cachedField_named_endpoints_false.
  repeat apply Forall_cons_2; [..|apply Forall_nil_2];
    exists "indicators", "BTC"; apply list_elem_of_here.
Defined.

(** ** Provider statuses and recommendations *)

Section StatusFacts.
Import Providers Statuses.
Variable env : gmap string string.

(** A key is usable when it is defined and not empty. *)
Lemma truthy_orElse (key : option string) :
  truthy (orElse key "") =
  match key with Some k => negb (String.eqb k "") | None => false end.
Proof.
  unfold orElse, truthy.
  destruct key as [k|]; [|reflexivity].
  destruct (String.eqb k "") eqn:E; cbn; rewrite ?E; reflexivity.
Qed.

Lemma availableIn_cases t :
  availableIn env t =
  match t with
  | claude => truthy (orElse (env !! "ANTHROPIC_API_KEY") "")
  | openai => truthy (orElse (env !! "OPENAI_API_KEY") "")
  | groq => truthy (orElse (env !! "GROQ_API_KEY") "")
  | huggingface => truthy (orElse (env !! "HUGGINGFACE_API_KEY") "")
  | ollama => true
  end.
Proof.
  unfold availableIn, isAvailable, getEnvValue.
  destruct t; cbn; rewrite ?andb_diag; reflexivity.
Qed.

Lemma getDefaultProvider_cases :
  getDefaultProvider env = if availableIn env groq then groq else ollama.
Proof.
  rewrite getDefaultProvider_firstAvailable.
  unfold firstAvailable. cbn [find].
  rewrite (availableIn_cases ollama).
  destruct (availableIn env groq); reflexivity.
Qed.

(** X1.  Automatic selection only ever picks Groq or Ollama: Groq when
    [GROQ_API_KEY] is defined and not empty, Ollama otherwise, whatever the
    other keys are. *)
Theorem getDefaultProvider_groq_or_ollama :
  getDefaultProvider env =
  match env !! "GROQ_API_KEY" with
  | Some key => if String.eqb key "" then ollama else groq
  | None => ollama
  end.
Proof.
  rewrite getDefaultProvider_cases, availableIn_cases, truthy_orElse.
  destruct (env !! "GROQ_API_KEY") as [key|]; [|reflexivity].
  destruct (String.eqb key ""); reflexivity.
Qed.

(** X2.  The provider [getPreferredProvider] selects reports itself
    available; the final fallback to an unavailable Groq is never taken. *)
Theorem getPreferredProvider_isAvailable :
  isAvailable (createProvider env (getPreferredProvider env)) = true.
Proof.
  assert (Hd : isAvailable (createProvider env (getDefaultProvider env)) = true).
  { rewrite getDefaultProvider_cases.
    destruct (availableIn env groq) eqn:Hk; [exact Hk | reflexivity]. }
  unfold getPreferredProvider.
  destruct (getEnvValue env "AI_PROVIDER") as [preferred|]; [|exact Hd].
  destruct (truthy preferred); [|exact Hd].
  destruct (includes preferred) as [type|]; [|exact Hd].
  destruct (isAvailable (createProvider env type)) eqn:Ha; [exact Ha | exact Hd].
Qed.

Variable probeFulfils : bool.

Lemma getProviderStatuses_eq :
  getProviderStatuses env probeFulfils =
  [ statusOf env probeFulfils (createProvider env claude);
    statusOf env probeFulfils (createProvider env openai);
    statusOf env probeFulfils (createProvider env groq);
    statusOf env probeFulfils (createProvider env huggingface);
    statusOf env probeFulfils (createProvider env ollama) ].
Proof. reflexivity. Qed.

Lemma statusOf_name t :
  name (statusOf env probeFulfils (createProvider env t)) = typeName t.
Proof. destruct t, probeFulfils; reflexivity. Qed.

Lemma statusOf_available t :
  available (statusOf env probeFulfils (createProvider env t)) =
  match t with
  | ollama => probeFulfils
  | _ => availableIn env t
  end.
Proof.
  unfold availableIn, statusOf.
  destruct t; cbn.
  5: destruct probeFulfils; reflexivity.
  all: reflexivity.
Qed.

Lemma statusOf_configured t :
  configured (statusOf env probeFulfils (createProvider env t)) =
  match t with
  | claude => bool_decide (env !! "ANTHROPIC_API_KEY" ≠ None)
  | openai => bool_decide (env !! "OPENAI_API_KEY" ≠ None)
  | groq => bool_decide (env !! "GROQ_API_KEY" ≠ None)
  | huggingface => bool_decide (env !! "HUGGINGFACE_API_KEY" ≠ None)
  | ollama => true
  end.
Proof.
  unfold statusOf, getEnvValue.
  destruct t; cbn.
  5: destruct probeFulfils; reflexivity.
  all: rewrite andb_true_r; reflexivity.
Qed.

Lemma statusOf_isFree t :
  Statuses.isFree (statusOf env probeFulfils (createProvider env t)) =
  match t with claude | openai => false | _ => true end.
Proof.
  unfold statusOf.
  destruct t; cbn; try reflexivity.
  destruct probeFulfils; reflexivity.
Qed.

(** X3.  The statuses come one per provider, in the order of
    [getAllProviders], and every provider reported available is reported
    configured. *)
Theorem getProviderStatuses_available_configured :
  map name (getProviderStatuses env probeFulfils)
    = ["claude"; "openai"; "groq"; "huggingface"; "ollama"]
  ∧ Forall (λ s, available s = true -> configured s = true)
      (getProviderStatuses env probeFulfils).
Proof.
  rewrite getProviderStatuses_eq. split.
  - cbn [map]. rewrite !statusOf_name. reflexivity.
  - repeat apply Forall_cons_2; [..|apply Forall_nil_2];
      rewrite statusOf_available, statusOf_configured, ?availableIn_cases,
        ?truthy_orElse; try reflexivity.
    all: match goal with |- context [env !! ?k] => destruct (env !! k) end;
      try discriminate; intros _; apply bool_decide_eq_true_2; discriminate.
Qed.


(** *** Recommendations *)

Lemma findStatus_statuses t :
  findStatus (getProviderStatuses env probeFulfils) (typeName t)
  = Some (statusOf env probeFulfils (createProvider env t)).
Proof. destruct t, probeFulfils; reflexivity. Qed.

Lemma pushIf_statuses t field r recommendations :
  pushIf (getProviderStatuses env probeFulfils) (typeName t) field r
    recommendations
  = if field (statusOf env probeFulfils (createProvider env t))
    then recommendations else recommendations ++ [r].
Proof.
  unfold pushIf. rewrite findStatus_statuses.
  destruct (field _); reflexivity.
Qed.

(** The providers the route recommends, by the flags of the statuses. *)
Lemma recommended_by_flags :
  let status t := statusOf env probeFulfils (createProvider env t) in
  let unless (b : bool) n := if b then [] else [n] in
  map provider
    (getDetailedRecommendations (getProviderStatuses env probeFulfils))
  = unless (configured (status groq)) "groq"
    ++ unless (available (status ollama)) "ollama"
    ++ unless (configured (status huggingface)) "huggingface"
    ++ unless (configured (status claude)) "claude"
    ++ unless (configured (status openai)) "openai".
Proof.
  unfold getDetailedRecommendations.
  change "groq" with (typeName groq) at 1.
  change "ollama" with (typeName ollama) at 1.
  change "huggingface" with (typeName huggingface) at 1.
  change "claude" with (typeName claude) at 1.
  change "openai" with (typeName openai) at 1.
  cbv zeta.
  rewrite !pushIf_statuses.
  destruct (configured (statusOf _ _ (createProvider env groq))),
    (available (statusOf _ _ (createProvider env ollama))),
    (configured (statusOf _ _ (createProvider env huggingface))),
    (configured (statusOf _ _ (createProvider env claude))),
    (configured (statusOf _ _ (createProvider env openai))); reflexivity.
Qed.

Lemma bool_decide_defined (key : option string) :
  bool_decide (key ≠ None) = match key with Some _ => true | None => false end.
Proof.
  destruct key; [apply bool_decide_eq_true_2 | apply bool_decide_eq_false_2];
    congruence.
Qed.

(** X4.  For the statuses of the factory, the providers route recommends
    exactly the key-based providers whose variable is undefined, and Ollama
    when the probe fails, in the order groq, ollama, huggingface, claude,
    openai. *)
Theorem getDetailedRecommendations_statuses :
  let unless (key : option string) n :=
    match key with Some _ => [] | None => [n] end in
  map provider
    (getDetailedRecommendations (getProviderStatuses env probeFulfils))
  = unless (env !! "GROQ_API_KEY") "groq"
    ++ (if probeFulfils then [] else ["ollama"])
    ++ unless (env !! "HUGGINGFACE_API_KEY") "huggingface"
    ++ unless (env !! "ANTHROPIC_API_KEY") "claude"
    ++ unless (env !! "OPENAI_API_KEY") "openai".
Proof.
  cbv zeta. rewrite recommended_by_flags. cbv zeta.
  rewrite !statusOf_configured, statusOf_available, !bool_decide_defined.
  destruct (env !! "GROQ_API_KEY"), (env !! "HUGGINGFACE_API_KEY"),
    (env !! "ANTHROPIC_API_KEY"), (env !! "OPENAI_API_KEY"); reflexivity.
Qed.

(** X5.  A key variable that is defined but empty leaves its provider
    unavailable, yet reported configured and never recommended for
    setup. *)
Theorem empty_key_configured_not_recommended t v :
  getRequiredEnvVars (createProvider env t) = [v] ->
  env !! v = Some "" ->
  let statuses := getProviderStatuses env probeFulfils in
  ∃ s, findStatus statuses (typeName t) = Some s
       ∧ available s = false
       ∧ configured s = true
       ∧ typeName t ∉ map provider (getDetailedRecommendations statuses).
Proof.
  intros Hv He. cbv zeta.
  exists (statusOf env probeFulfils (createProvider env t)).
  rewrite findStatus_statuses, statusOf_available, statusOf_configured,
    recommended_by_flags.
  cbv zeta.
  rewrite !statusOf_configured, statusOf_available, !bool_decide_defined,
    ?availableIn_cases.
  destruct t; cbn in Hv; try discriminate Hv;
    injection Hv as <-; rewrite He; repeat split; try reflexivity.
  all: repeat match goal with
       | |- context [match ?k with Some _ => _ | None => _ end] => destruct k
       | |- context [if ?b then _ else _] => destruct b
       end;
    cbn; rewrite ?elem_of_cons, elem_of_nil; intuition discriminate.
Qed.


Lemma statusOf_displayName t :
  displayName (statusOf env probeFulfils (createProvider env t)) =
  match t with
  | claude => "Claude (Anthropic)"
  | openai => "OpenAI (GPT)"
  | groq => "Groq (FREE & Fast)"
  | huggingface => "Hugging Face (FREE)"
  | ollama => "Ollama (FREE Local)"
  end.
Proof. destruct t, probeFulfils; reflexivity. Qed.

(** X6.  The advice of the availability route, for the statuses of the
    factory: the first available free provider in the order Groq, Hugging
    Face, Ollama; failing that the free provider to set up, Groq before
    Hugging Face; the general advice when both keys are defined but
    empty. *)
Theorem getRecommendation_statuses :
  getRecommendation (getProviderStatuses env probeFulfils) =
  if availableIn env groq then "Using Groq (FREE & Fast) (FREE)"
  else if availableIn env huggingface then "Using Hugging Face (FREE) (FREE)"
  else if probeFulfils then "Using Ollama (FREE Local) (FREE)"
  else match env !! "GROQ_API_KEY", env !! "HUGGINGFACE_API_KEY" with
       | None, _ => "Recommend setting up Groq (FREE & Fast) (FREE & Fast)"
       | Some _, None =>
           "Recommend setting up Hugging Face (FREE) (FREE & Fast)"
       | Some _, Some _ =>
           "Configure any AI provider to enable real AI analysis"
       end.
Proof.
  unfold getRecommendation. rewrite getProviderStatuses_eq.
  cbv zeta. cbn [List.filter].
  rewrite !statusOf_isFree, !statusOf_available, !statusOf_configured,
    !bool_decide_defined.
  cbn [andb].
  destruct (availableIn env groq) eqn:Hg.
  { cbn [negb andb]. rewrite statusOf_displayName. reflexivity. }
  destruct (availableIn env huggingface) eqn:Hh.
  { destruct (env !! "GROQ_API_KEY"); cbn [negb andb];
      rewrite statusOf_displayName; reflexivity. }
  destruct probeFulfils.
  { destruct (env !! "GROQ_API_KEY"), (env !! "HUGGINGFACE_API_KEY");
      cbn [negb andb]; reflexivity. }
  destruct (env !! "GROQ_API_KEY"), (env !! "HUGGINGFACE_API_KEY");
    cbn [negb andb]; reflexivity.
Qed.

(** X7.  When the availability route reports that no provider is available,
    the provider it reports as current is Ollama all the same. *)
Theorem no_provider_available_current_ollama :
  hasAvailableProvider (getProviderStatuses env probeFulfils) = false ->
  probeFulfils = false ∧ getPreferredProvider env = ollama.
Proof.
  rewrite getProviderStatuses_eq. unfold hasAvailableProvider.
  cbn [existsb]. rewrite !statusOf_available, orb_false_r.
  intros H.
  repeat (apply orb_false_elim in H as [? H]).
  split; [exact H|].
  assert (Hd : getDefaultProvider env = ollama).
  { rewrite getDefaultProvider_cases.
    destruct (availableIn env groq); [discriminate | reflexivity]. }
  unfold getPreferredProvider.
  destruct (getEnvValue env "AI_PROVIDER") as [preferred|]; [|exact Hd].
  destruct (truthy preferred); [|exact Hd].
  destruct (includes preferred) as [type|]; [|exact Hd].
  fold (availableIn env type).
  destruct type; try reflexivity;
    match goal with H : ?a = false |- context [?a] => rewrite H; exact Hd end.
Qed.

End StatusFacts.

(** X7 with an empty environment and no Ollama running. *)
Lemma no_provider_available_current_ollama_witness :
  false = false ∧ Providers.getPreferredProvider ∅ = Providers.ollama.
Proof.
  apply (no_provider_available_current_ollama ∅ false).
  vm_compute. reflexivity.
Defined.

(** X5 with [GROQ_API_KEY=] in the environment. *)
Lemma empty_key_configured_not_recommended_witness :
  ∃ s, Statuses.findStatus
         (Statuses.getProviderStatuses {[ "GROQ_API_KEY" := "" ]} false) "groq"
       = Some s
       ∧ Statuses.available s = false
       ∧ Statuses.configured s = true
       ∧ "groq" ∉ map Statuses.provider
                      (Statuses.getDetailedRecommendations
                         (Statuses.getProviderStatuses
                            {[ "GROQ_API_KEY" := "" ]} false)).
Proof.
  apply (empty_key_configured_not_recommended
           {[ "GROQ_API_KEY" := "" ]} false Providers.groq "GROQ_API_KEY");
    reflexivity.
Defined.

(** *** Recommendations for any list of statuses *)

Section RecommendationFacts.
Import Statuses.

Lemma pushIf_cases providers n field r recommendations :
  pushIf providers n field r recommendations = recommendations
  ∨ (pushIf providers n field r recommendations = recommendations ++ [r]
     ∧ ∃ x, findStatus providers n = Some x ∧ field x = false).
Proof.
  unfold pushIf.
  destruct (findStatus providers n) as [x|]; [|left; reflexivity].
  destruct (field x) eqn:E; [left; reflexivity|].
  right. split; [reflexivity|]. exists x. split; [reflexivity | exact E].
Qed.

(** X8.  Whatever statuses it is given, the providers route recommends in
    strictly increasing priority (so the sort never moves an element), and
    only providers that have a status that is not configured (for Ollama:
    not available). *)
Theorem getDetailedRecommendations_sorted_sound providers :
  let recommendations := getDetailedRecommendations providers in
  StronglySorted (λ a b, priority a < priority b) recommendations
  ∧ Forall (λ r, ∃ x, findStatus providers (provider r) = Some x
                      ∧ (if String.eqb (provider r) "ollama"
                         then available x else configured x) = false)
      recommendations.
Proof.
  unfold getDetailedRecommendations. cbv zeta.
  repeat match goal with
  | |- context [pushIf ?ps ?n ?f ?r ?recs] =>
      lazymatch recs with
      | context [pushIf] => fail
      | _ => destruct (pushIf_cases ps n f r recs) as [->|[-> (? & ? & ?)]]
      end
  end.
  all: split;
    [ cbn; repeat constructor
    | cbn; repeat (apply Forall_cons_2; [eexists; split; [eassumption | assumption]|]);
      apply Forall_nil_2 ].
Qed.

End RecommendationFacts.

(** ** The streaming client, continued *)

(** *** The retry invariant *)

Section RetryFacts.
Import WS WSInfo.
Implicit Types (rd : Readings) (st : State).

Lemma retryInvariant_emit n st : retryInvariant st -> retryInvariant (emit n st).
Proof. exact id. Qed.

Lemma retryInvariant_setTimer cb d rep st :
  retryInvariant st -> retryInvariant (setTimer cb d rep st).2.
Proof. exact id. Qed.

Lemma retryInvariant_clearTimer h st :
  retryInvariant st -> retryInvariant (clearTimer h st).
Proof. exact id. Qed.

Lemma retryInvariant_handleConnectionError error st :
  retryInvariant st -> retryInvariant (handleConnectionError error st).
Proof. unfold handleConnectionError. destruct (onErrorCallback st); exact id. Qed.

Lemma retryInvariant_notifyConnection connected st :
  retryInvariant st -> retryInvariant (notifyConnection connected st).
Proof. unfold notifyConnection. destruct (onConnectionChange st); exact id. Qed.

Lemma retryInvariant_closeSocket sock code st :
  retryInvariant st -> retryInvariant (closeSocket sock code st).
Proof. unfold closeSocket. destruct (readyState _ sock) as [[]|]; exact id. Qed.

Lemma retryInvariant_stopHeartbeat st :
  retryInvariant st -> retryInvariant (stopHeartbeat st).
Proof. unfold stopHeartbeat. destruct (pingInterval st); exact id. Qed.

Lemma retryInvariant_stopDataTimeoutCheck st :
  retryInvariant st -> retryInvariant (stopDataTimeoutCheck st).
Proof. unfold stopDataTimeoutCheck. destruct (dataTimeoutCheck st); exact id. Qed.

Lemma retryInvariant_reset_attempts st :
  retryInvariant st -> retryInvariant (st <| reconnectAttempts := 0%nat |>).
Proof.
  intros (_ & Hm & Hu).
  change ((0 <= maxReconnectAttempts st)%nat ∧ maxReconnectAttempts st = 3%nat
          ∧ (currentUrlIndex st < length wsUrls)%nat).
  split; [apply Nat.le_0_l | split; assumption].
Qed.

Lemma retryInvariant_reset_url st :
  retryInvariant st -> retryInvariant (st <| currentUrlIndex := 0%nat |>).
Proof.
  intros (Ha & Hm & _).
  change ((reconnectAttempts st <= maxReconnectAttempts st)%nat
          ∧ maxReconnectAttempts st = 3%nat ∧ (0 < 3)%nat).
  split; [exact Ha | split; [exact Hm | lia]].
Qed.

Lemma retryInvariant_handleReconnect rd st :
  retryInvariant st -> retryInvariant (handleReconnect rd st).
Proof.
  intros (Ha & Hm & Hu). unfold handleReconnect.
  destruct (isCircuitBreakerActive st); [repeat split; assumption|].
  destruct (Nat.ltb_spec (reconnectAttempts st) (maxReconnectAttempts st)) as [Hlt|Hge].
  - pose proof (Nat.mod_upper_bound (currentUrlIndex st + 1) 3) as Hmod.
    cbn. destruct (reconnectAttempts st) as [|n] eqn:E; cbn;
      repeat split; try assumption; cbn in *; lia.
  - apply retryInvariant_handleConnectionError. repeat split; assumption.
Qed.

(** Carry the invariant through a handler: each intermediate state is
    replaced by a variable that satisfies it. *)
Ltac keeps_retry :=
  repeat first
    [ assumption
    | match goal with
      | |- retryInvariant (let st := ?e in _) =>
          let st' := fresh "st" in let H := fresh "H" in
          assert (H : retryInvariant e) by keeps_retry;
          generalize dependent e; intros st' H; cbv zeta
      | |- retryInvariant (let x := _ in _) => cbv zeta
      | |- retryInvariant (match setTimer _ _ _ _ with _ => _ end) =>
          cbv beta iota zeta delta [setTimer]
      | |- retryInvariant (if ?b then _ else _) => destruct b
      | |- retryInvariant (match ?x with _ => _ end) => destruct x
      | |- retryInvariant (apply_update ?u ?s) =>
          first [ change (retryInvariant s)
                | apply retryInvariant_reset_attempts
                | apply retryInvariant_reset_url ]
      | |- retryInvariant (emit _ _) => apply retryInvariant_emit
      | |- retryInvariant (setTimer _ _ _ _).2 => apply retryInvariant_setTimer
      | |- retryInvariant (clearTimer _ _) => apply retryInvariant_clearTimer
      | |- retryInvariant (handleConnectionError _ _) =>
          apply retryInvariant_handleConnectionError
      | |- retryInvariant (notifyConnection _ _) =>
          apply retryInvariant_notifyConnection
      | |- retryInvariant (closeSocket _ _ _) => apply retryInvariant_closeSocket
      | |- retryInvariant (stopHeartbeat _) => apply retryInvariant_stopHeartbeat
      | |- retryInvariant (stopDataTimeoutCheck _) =>
          apply retryInvariant_stopDataTimeoutCheck
      | |- retryInvariant (handleReconnect _ _) =>
          apply retryInvariant_handleReconnect
      end ].

Lemma retryInvariant_connect rd st :
  retryInvariant st -> retryInvariant (connect rd st).
Proof. intros H. cbv beta iota delta [connect]. keeps_retry. Qed.

Lemma retryInvariant_onopen rd st :
  retryInvariant st -> retryInvariant (onopen rd st).
Proof.
  intros H. cbv beta iota delta [onopen startHeartbeat startDataTimeoutCheck].
  keeps_retry.
Qed.


Lemma retryInvariant_onclose rd code st :
  retryInvariant st -> retryInvariant (onclose rd code st).
Proof. intros H. cbv beta iota delta [onclose]. keeps_retry. Qed.

Lemma retryInvariant_onerror rd error st :
  retryInvariant st -> retryInvariant (onerror rd error st).
Proof. intros H. cbv beta iota delta [onerror]. keeps_retry. Qed.

Lemma retryInvariant_dispatch data st :
  retryInvariant st ->
  match dispatch data st with
  | Fulfilled st' => retryInvariant st'
  | Rejected _ => True
  end.
Proof.
  intros H. unfold dispatch.
  repeat match goal with
         | |- context [match Js.getProp ?v ?k with _ => _ end] =>
             destruct (Js.getProp v k)
         | |- context [if ?b then _ else _] => destruct b
         end; try exact I; exact H.
Qed.

Lemma retryInvariant_onmessage rd parsed st :
  retryInvariant st -> retryInvariant (onmessage rd parsed st).
Proof.
  intros H. unfold onmessage.
  assert (H2 : retryInvariant
                 (if isConnected (st <| lastDataReceived := now rd |>)
                  then notifyConnection true (st <| lastDataReceived := now rd |>)
                  else st <| lastDataReceived := now rd |>)) by keeps_retry.
  generalize dependent
    (if isConnected (st <| lastDataReceived := now rd |>)
     then notifyConnection true (st <| lastDataReceived := now rd |>)
     else st <| lastDataReceived := now rd |>).
  intros st2 H2. cbv zeta. destruct parsed as [data|err].
  - pose proof (retryInvariant_dispatch data st2 H2) as Hd.
    destruct (dispatch data st2);
      [exact Hd | apply retryInvariant_handleConnectionError, H2].
  - apply retryInvariant_handleConnectionError, H2.
Qed.

Lemma retryInvariant_disconnect st :
  retryInvariant st -> retryInvariant (disconnect st).
Proof. intros H. cbv beta iota delta [disconnect]. keeps_retry. Qed.

Lemma retryInvariant_changeStream symbol0 interval0 st :
  retryInvariant st -> retryInvariant (changeStream symbol0 interval0 st).
Proof.
  intros H. cbv beta iota delta [changeStream]. keeps_retry.
  apply retryInvariant_disconnect. keeps_retry.
Qed.

Lemma retryInvariant_runTimer cb rd st :
  retryInvariant st -> retryInvariant (runTimer cb rd st).
Proof.
  intros H. destruct cb; cbv beta iota delta [runTimer]; keeps_retry;
    apply retryInvariant_connect; keeps_retry.
Qed.

Lemma retryInvariant_step rd ev st :
  retryInvariant st -> retryInvariant (step rd ev st).
Proof.
  intros H.
  destruct ev; cbv beta iota delta [step timerDue setReadyState]; keeps_retry;
    lazymatch goal with
    | |- retryInvariant (connect _ _) => apply retryInvariant_connect
    | |- retryInvariant (disconnect _) => apply retryInvariant_disconnect
    | |- retryInvariant (changeStream _ _ _) => apply retryInvariant_changeStream
    | |- retryInvariant (onopen _ _) => apply retryInvariant_onopen
    | |- retryInvariant (onmessage _ _ _) => apply retryInvariant_onmessage
    | |- retryInvariant (onclose _ _ _) => apply retryInvariant_onclose
    | |- retryInvariant (onerror _ _ _) => apply retryInvariant_onerror
    | |- retryInvariant (runTimer _ _ _) => apply retryInvariant_runTimer
    end;
    keeps_retry.
Qed.

(** X14.  The retry policy stays within its bounds in every run of an
    instance: the attempt counter never exceeds the three attempts allowed,
    and the URL index always names one of the three endpoints, so the URL
    a connection is made to is never [undefined]. *)
Theorem run_keeps_retry_bounds symbol0 interval0 evs :
  let st := run evs (create symbol0 interval0) in
  (reconnectAttempts st <= 3)%nat
  ∧ maxReconnectAttempts st = 3%nat
  ∧ ∃ url, currentUrl (getConnectionInfo st) = Some url
           ∧ nth (currentUrlIndex st) wsUrls "undefined" = url.
Proof.
  cbv zeta.
  assert (H : retryInvariant (run evs (create symbol0 interval0))).
  { unfold run. generalize (create symbol0 interval0),
      (ltac:(repeat split; cbn; lia) : retryInvariant (create symbol0 interval0)).
    induction evs as [|[rd ev] evs IH]; intros st H; cbn [fold_left].
    - exact H.
    - apply IH, retryInvariant_step, H. }
  destruct H as (Ha & Hm & Hu).
  split; [lia|]. split; [exact Hm|].
  destruct (lookup_lt_is_Some_2 wsUrls _ Hu) as [url Hurl].
  exists url. split; [exact Hurl|].
  apply nth_lookup_Some with (d := "undefined") in Hurl. exact Hurl.
Qed.

End RetryFacts.

(** *** Fields a handler leaves alone *)

Section KeepFacts.
Import WS WSInfo.
Implicit Types (rd : Readings) (st : State).

Lemma notifyConnection_field {A} (f : State -> A) connected st :
  (∀ n s, f (emit n s) = f s) ->
  f (notifyConnection connected st) = f st.
Proof. intros Hf. unfold notifyConnection. destruct (onConnectionChange st); auto. Qed.

(** The value of a field [f] after a handler is the one before: split on
    the tests, replace each intermediate state by a variable with the same
    value of [f]; [helpers] rewrites with what is known of the functions
    called. *)
Ltac same_field f helpers :=
  repeat first
    [ reflexivity
    | progress helpers
    | match goal with
      | |- f (let st := ?e in _) = f ?s0 =>
          let st' := fresh "st" in let H := fresh "H" in
          assert (H : f e = f s0) by same_field f helpers;
          generalize dependent e; intros st' H; cbv zeta;
          rewrite <- H; clear H
      | |- f (let x := _ in _) = _ => cbv zeta
      | |- f (match setTimer _ _ _ _ with _ => _ end) = _ =>
          cbv beta iota zeta delta [setTimer]
      | |- f (if ?b then _ else _) = _ => destruct b
      | |- f (match ?x with _ => _ end) = _ => destruct x
      | |- f (apply_update ?u ?s) = _ => change (f (apply_update u s)) with (f s)
      | |- f (snd (setTimer ?cb ?d ?rep ?s)) = _ =>
          change (f (snd (setTimer cb d rep s))) with (f s)
      | |- f (clearTimer ?h ?s) = _ => change (f (clearTimer h s)) with (f s)
      | |- f (emit ?n ?s) = _ => change (f (emit n s)) with (f s)
      | |- f (notifyConnection ?c ?s) = _ =>
          rewrite (notifyConnection_field f c s) by (intros; reflexivity)
      end ].

Lemma stopHeartbeat_lastConnectionTime st :
  lastConnectionTime (stopHeartbeat st) = lastConnectionTime st.
Proof. unfold stopHeartbeat. destruct (pingInterval st); reflexivity. Qed.

Lemma stopDataTimeoutCheck_lastConnectionTime st :
  lastConnectionTime (stopDataTimeoutCheck st) = lastConnectionTime st.
Proof. unfold stopDataTimeoutCheck. destruct (dataTimeoutCheck st); reflexivity. Qed.

Lemma closeSocket_lastConnectionTime sock code st :
  lastConnectionTime (closeSocket sock code st) = lastConnectionTime st.
Proof. unfold closeSocket. destruct (readyState _ sock) as [[]|]; reflexivity. Qed.

Lemma disconnect_lastConnectionTime st :
  lastConnectionTime (disconnect st) = lastConnectionTime st.
Proof.
  cbv beta iota delta [disconnect].
  same_field lastConnectionTime
    ltac:(rewrite ?stopHeartbeat_lastConnectionTime,
            ?stopDataTimeoutCheck_lastConnectionTime,
            ?closeSocket_lastConnectionTime).
Qed.

Lemma changeStream_lastConnectionTime symbol0 interval0 st :
  lastConnectionTime (changeStream symbol0 interval0 st) = lastConnectionTime st.
Proof.
  cbv beta iota delta [changeStream].
  same_field lastConnectionTime
    ltac:(rewrite ?disconnect_lastConnectionTime).
Qed.

Lemma disconnect_ws st : ws (disconnect st) = None.
Proof.
  unfold disconnect.
  generalize (stopDataTimeoutCheck
       (stopHeartbeat
          match connectionTimeout st with
          | Some h => (clearTimer h st) <| connectionTimeout := None |>
          | None => st
          end)).
  intros st1. cbv zeta.
  match goal with
  | |- ws (match ws ?s with _ => _ end) = _ => destruct (ws s) eqn:E
  end; [reflexivity | exact E].
Qed.

(** X18.  [changeStream] within three seconds of the last connection attempt
    leaves the client without a stream: it drops the socket, and the
    [connect] that its timer runs 500 ms later is refused by the rate limit
    as long as less than three seconds have passed since that attempt. *)
Theorem changeStream_connect_rate_limited rd symbol0 interval0 st :
  now rd - lastConnectionTime st < 3000 ->
  let st1 := changeStream symbol0 interval0 st in
  ws st1 = None
  ∧ isConnected st1 = false
  ∧ runTimer ChangeStream rd st1 = st1.
Proof.
  intros Hlt. cbv zeta.
  assert (Hws : ws (changeStream symbol0 interval0 st) = None).
  { unfold changeStream. cbv zeta. apply disconnect_ws. }
  split; [exact Hws|]. split.
  - unfold isConnected. rewrite Hws. reflexivity.
  - cbn [runTimer]. unfold connect.
    rewrite changeStream_lastConnectionTime.
    rewrite bool_decide_eq_true_2 by exact Hlt. reflexivity.
Qed.

(** *** Closing on silence *)

Lemma clearTimer_subseteq h st : timers (clearTimer h st) ⊆ timers st.
Proof.
  unfold clearTimer.
  change (filter (λ t, handle t ≠ h) (timers st) ⊆ timers st).
  intros t Ht. apply list_elem_of_filter in Ht. apply Ht.
Qed.

Lemma stopHeartbeat_subseteq st : timers (stopHeartbeat st) ⊆ timers st.
Proof.
  unfold stopHeartbeat. destruct (pingInterval st); [|reflexivity].
  apply clearTimer_subseteq.
Qed.

Lemma stopDataTimeoutCheck_subseteq st :
  timers (stopDataTimeoutCheck st) ⊆ timers st.
Proof.
  unfold stopDataTimeoutCheck. destruct (dataTimeoutCheck st); [|reflexivity].
  apply clearTimer_subseteq.
Qed.

Lemma stopHeartbeat_keeps {A} (f : State -> A) st :
  (∀ h s, f (clearTimer h s) = f s) ->
  (∀ v s, f (s <| pingInterval := v |>) = f s) ->
  f (stopHeartbeat st) = f st.
Proof.
  intros H1 H2. unfold stopHeartbeat. destruct (pingInterval st); [|reflexivity].
  rewrite H2. apply H1.
Qed.

Lemma stopDataTimeoutCheck_keeps {A} (f : State -> A) st :
  (∀ h s, f (clearTimer h s) = f s) ->
  (∀ v s, f (s <| dataTimeoutCheck := v |>) = f s) ->
  f (stopDataTimeoutCheck st) = f st.
Proof.
  intros H1 H2. unfold stopDataTimeoutCheck.
  destruct (dataTimeoutCheck st); [|reflexivity].
  rewrite H2. apply H1.
Qed.

(** A close with code 1000 stops the timers of the connection and tells
    the connection listener; [handleReconnect] is not called. *)
Lemma onclose_normal rd st :
  onclose rd 1000 st
  = notifyConnection false
      (stopDataTimeoutCheck
         (stopHeartbeat
            match connectionTimeout (st <| isConnecting := false |>) with
            | Some h =>
                (clearTimer h (st <| isConnecting := false |>))
                  <| connectionTimeout := None |>
            | None => st <| isConnecting := false |>
            end)).
Proof. reflexivity. Qed.

Lemma socketsCreated_app l1 l2 :
  socketsCreated (l1 ++ l2) = socketsCreated l1 ++ socketsCreated l2.
Proof. apply omap_app. Qed.

Lemma onclose_normal_quiet rd st :
  timers (onclose rd 1000 st) ⊆ timers st
  ∧ socketsCreated (out (onclose rd 1000 st)) = socketsCreated (out st)
  ∧ ws (onclose rd 1000 st) = ws st
  ∧ sockets (onclose rd 1000 st) = sockets st
  ∧ reconnectAttempts (onclose rd 1000 st) = reconnectAttempts st.
Proof.
  rewrite onclose_normal.
  set (st1 := match connectionTimeout _ with Some _ => _ | None => _ end).
  assert (H1 : timers st1 ⊆ timers st ∧ out st1 = out st ∧ ws st1 = ws st
               ∧ sockets st1 = sockets st
               ∧ reconnectAttempts st1 = reconnectAttempts st).
  { subst st1. destruct (connectionTimeout _) as [h|].
    - split; [|repeat split; reflexivity].
      change (timers (clearTimer h st) ⊆ timers st). apply clearTimer_subseteq.
    - split; [reflexivity | repeat split; reflexivity]. }
  clearbody st1. destruct H1 as (Ht & Ho & Hw & Hs & Hr).
  split; [|split; [|split; [|split]]].
  - rewrite (notifyConnection_field timers) by (intros; reflexivity).
    etransitivity; [apply stopDataTimeoutCheck_subseteq|].
    etransitivity; [apply stopHeartbeat_subseteq | exact Ht].
  - unfold notifyConnection.
    assert (Ho' : out (stopDataTimeoutCheck (stopHeartbeat st1)) = out st).
    { rewrite (stopDataTimeoutCheck_keeps out), (stopHeartbeat_keeps out)
        by (intros; reflexivity). exact Ho. }
    destruct (onConnectionChange _); [|rewrite Ho'; reflexivity].
    cbn [emit].
    change (socketsCreated (out (stopDataTimeoutCheck (stopHeartbeat st1))
                            ++ [ConnectionChange false])
            = socketsCreated (out st)).
    rewrite socketsCreated_app, Ho'. apply app_nil_r.
  - rewrite (notifyConnection_field ws), (stopDataTimeoutCheck_keeps ws),
      (stopHeartbeat_keeps ws) by (intros; reflexivity). exact Hw.
  - rewrite (notifyConnection_field sockets), (stopDataTimeoutCheck_keeps sockets),
      (stopHeartbeat_keeps sockets) by (intros; reflexivity). exact Hs.
  - rewrite (notifyConnection_field reconnectAttempts),
      (stopDataTimeoutCheck_keeps reconnectAttempts),
      (stopHeartbeat_keeps reconnectAttempts) by (intros; reflexivity). exact Hr.
Qed.

(** X17.  Closing on silence schedules no reconnect.  When the watchdog
    finds an open connection silent for more than a minute it reports a
    data timeout and closes the socket with code 1000; when the close
    event that follows carries that code, [onclose] does not call
    [handleReconnect]: no timer is added, no socket is created, the
    attempt counter stays, and the client is left disconnected. *)
Theorem dataTimeout_close_schedules_no_reconnect rd rd' st sock :
  ws st = Some sock ->
  readyState st sock = Some OPEN ->
  now rd - lastDataReceived st > 60000 ->
  let st1 := runTimer DataTimeoutCheck rd st in
  let st2 := step rd' (SocketClose sock 1000) st1 in
  out st1
  = out st
    ++ (if onErrorCallback st
        then [ErrorCallback "Data timeout - no price updates received"] else [])
    ++ [Close sock (Some 1000)]
  ∧ timers st2 ⊆ timers st
  ∧ socketsCreated (out st2) = socketsCreated (out st)
  ∧ reconnectAttempts st2 = reconnectAttempts st
  ∧ isConnected st2 = false.
Proof.
  intros Hws Hopen Hsilent. cbv zeta.
  set (st0 := handleConnectionError "Data timeout - no price updates received" st).
  assert (H0 : sockets st0 = sockets st ∧ ws st0 = ws st ∧ timers st0 = timers st
               ∧ reconnectAttempts st0 = reconnectAttempts st
               ∧ out st0 = out st ++
                   (if onErrorCallback st
                    then [ErrorCallback "Data timeout - no price updates received"]
                    else [])).
  { subst st0. unfold handleConnectionError.
    destruct (onErrorCallback st); repeat split; try reflexivity.
    symmetry. apply app_nil_r. }
  destruct H0 as (Hs0 & Hw0 & Ht0 & Hr0 & Ho0).
  assert (H1 : runTimer DataTimeoutCheck rd st
               = (emit (Close sock (Some 1000)) st0)
                   <| sockets := <[sock := CLOSING]> (sockets st0) |>).
  { cbn [runTimer]. rewrite Hws.
    rewrite !bool_decide_eq_true_2 by assumption.
    fold st0. unfold closeSocket. cbv zeta.
    change (readyState (emit (Close sock (Some 1000)) st0) sock)
      with (sockets st0 !! sock).
    assert (Hx : sockets st0 !! sock = Some OPEN) by (rewrite Hs0; exact Hopen).
    rewrite Hx. reflexivity. }
  rewrite H1. clear H1.
  set (st1 := (emit (Close sock (Some 1000)) st0)
                <| sockets := <[sock := CLOSING]> (sockets st0) |>).
  assert (Hlen : (sock < length (sockets st))%nat).
  { apply lookup_lt_Some in Hopen. exact Hopen. }
  assert (H1 : sockets st1 = <[sock := CLOSING]> (sockets st) ∧ ws st1 = Some sock
               ∧ timers st1 = timers st
               ∧ reconnectAttempts st1 = reconnectAttempts st
               ∧ out st1 = out st0 ++ [Close sock (Some 1000)]).
  { subst st1. split; [|split; [|split; [|split]]].
    - change (<[sock := CLOSING]> (sockets st0) = <[sock := CLOSING]> (sockets st)).
      rewrite Hs0. reflexivity.
    - change (ws st0 = Some sock). rewrite Hw0. exact Hws.
    - change (timers st0 = timers st). exact Ht0.
    - change (reconnectAttempts st0 = reconnectAttempts st). exact Hr0.
    - reflexivity. }
  clearbody st1. destruct H1 as (Hs1 & Hw1 & Ht1 & Hr1 & Ho1).
  split.
  { rewrite Ho1, Ho0, <- app_assoc. reflexivity. }
  assert (Hstep : step rd' (SocketClose sock 1000) st1
                  = onclose rd' 1000 (setReadyState sock CLOSED st1)).
  { cbn [step]. unfold readyState. rewrite Hs1.
    rewrite list_lookup_insert_eq by exact Hlen. reflexivity. }
  rewrite Hstep. clear Hstep.
  destruct (onclose_normal_quiet rd' (setReadyState sock CLOSED st1))
    as (Ht2 & Ho2 & Hw2 & Hs2 & Hr2).
  change (timers (setReadyState sock CLOSED st1)) with (timers st1) in Ht2.
  change (out (setReadyState sock CLOSED st1)) with (out st1) in Ho2.
  change (ws (setReadyState sock CLOSED st1)) with (ws st1) in Hw2.
  change (sockets (setReadyState sock CLOSED st1))
    with (<[sock := CLOSED]> (sockets st1)) in Hs2.
  change (reconnectAttempts (setReadyState sock CLOSED st1))
    with (reconnectAttempts st1) in Hr2.
  split; [rewrite <- Ht1; exact Ht2|].
  split.
  { rewrite Ho2, Ho1, Ho0, !socketsCreated_app.
    destruct (onErrorCallback st); cbn; rewrite ?app_nil_r; reflexivity. }
  split; [rewrite Hr2; exact Hr1|].
  unfold isConnected, readyState. rewrite Hw2, Hw1, Hs2, Hs1.
  rewrite list_lookup_insert_eq by (rewrite length_insert; exact Hlen).
  apply bool_decide_eq_false_2. discriminate.
Qed.

End KeepFacts.

(** *** Messages that do not parse *)

Section MessageFacts.
Import WS.
Implicit Types (rd : Readings) (st : State).

Lemma out_emit n st : out (emit n st) = out st ++ [n].
Proof. reflexivity. Qed.

(** X19.  A message that does not parse costs nothing but a report: the
    error listener is told, the connection and every timer stay as they
    are, and the message still counts as data received. *)
Theorem onmessage_parse_error_reported rd err st :
  let st' := onmessage rd (Rejected err) st in
  out st'
  = out st
    ++ (if isConnected st && onConnectionChange st
        then [ConnectionChange true] else [])
    ++ (if onErrorCallback st
        then [ErrorCallback ("Message parsing error: " ++ err)%string] else [])
  ∧ ws st' = ws st
  ∧ sockets st' = sockets st
  ∧ timers st' = timers st
  ∧ lastDataReceived st' = now rd.
Proof.
  cbv zeta. unfold onmessage. cbv zeta.
  change (isConnected (st <| lastDataReceived := now rd |>)) with (isConnected st).
  unfold notifyConnection, handleConnectionError.
  change (onConnectionChange (st <| lastDataReceived := now rd |>))
    with (onConnectionChange st).
  destruct (isConnected st), (onConnectionChange st); cbn [andb];
    match goal with
    | |- context [onErrorCallback ?s] =>
        change (onErrorCallback s) with (onErrorCallback st)
    end;
    destruct (onErrorCallback st);
    (split; [|repeat split; reflexivity]);
    rewrite ?out_emit;
    change (out (st <| lastDataReceived := now rd |>)) with (out st);
    cbn [app]; rewrite ?app_nil_r, <- ?app_assoc; reflexivity.
Qed.

End MessageFacts.

(** *** Scenarios of the streaming client, continued *)

(** X15 on a listening client that has seen two errors. *)
Lemma onerror_trips_breaker_witness :
  WS.isCircuitBreakerActive
    (WS.onerror (Scenario.at_ 20300 0) (WS.PlainEvent "error")
       (Scenario.listening <| WS.errorCount := 2%nat |>)) = true
  ∧ WS.errorCount
      (WS.onerror (Scenario.at_ 20300 0) (WS.PlainEvent "error")
         (Scenario.listening <| WS.errorCount := 2%nat |>)) = 3%nat
  ∧ WS.lastErrorTime
      (WS.onerror (Scenario.at_ 20300 0) (WS.PlainEvent "error")
         (Scenario.listening <| WS.errorCount := 2%nat |>)) = 20300.
Proof.
  exact (onerror_trips_breaker (Scenario.at_ 20300 0) (WS.PlainEvent "error")
           (Scenario.listening <| WS.errorCount := 2%nat |>)
           (le_n 2)).
Defined.

(** X16 on the tripped client: 15 s after the trip a connect goes
    through. *)
Lemma connect_after_cooldown_witness :
  WS.errorCount (WS.connect (Scenario.at_ 35300 0) Scenario.tripped) = 0%nat
  ∧ WS.isCircuitBreakerActive (WS.connect (Scenario.at_ 35300 0) Scenario.tripped)
    = false
  ∧ WS.socketsCreated (WS.out (WS.connect (Scenario.at_ 35300 0) Scenario.tripped))
    = WS.socketsCreated (WS.out Scenario.tripped) ++ [length (WS.sockets Scenario.tripped)].
Proof.
  apply (connect_after_cooldown (Scenario.at_ 35300 0) Scenario.tripped).
  - reflexivity.
  - vm_compute. discriminate.
  - vm_compute. discriminate.
  - reflexivity.
  - vm_compute. lia.
  - reflexivity.
Defined.

(** X18 on a client that connected 2.5 s before: the stream is changed at
    once, and the connect of 500 ms later is refused. *)
Lemma changeStream_connect_rate_limited_witness :
  WS.ws (WS.changeStream "ETHUSDT" "5m" Scenario.streaming) = None
  ∧ WS.isConnected (WS.changeStream "ETHUSDT" "5m" Scenario.streaming) = false
  ∧ WS.runTimer WS.ChangeStream (Scenario.at_ 12500 0)
      (WS.changeStream "ETHUSDT" "5m" Scenario.streaming)
    = WS.changeStream "ETHUSDT" "5m" Scenario.streaming.
Proof.
  apply (changeStream_connect_rate_limited (Scenario.at_ 12500 0) "ETHUSDT" "5m"
           Scenario.streaming).
  vm_compute. reflexivity.
Defined.

(** X17 on an open connection that has been silent for 90 s. *)
Lemma dataTimeout_close_schedules_no_reconnect_witness :
  WS.isConnected
    (WS.step (Scenario.at_ 100600 0) (WS.SocketClose 0 1000)
       (WS.runTimer WS.DataTimeoutCheck (Scenario.at_ 100500 0) Scenario.streaming))
  = false.
Proof.
  apply (dataTimeout_close_schedules_no_reconnect
           (Scenario.at_ 100500 0) (Scenario.at_ 100600 0) Scenario.streaming 0%nat).
  - reflexivity.
  - reflexivity.
  - vm_compute. reflexivity.
Defined.

(** *** A scenario of the earlier revision *)

(** X21 on a client of the earlier revision with a ticker listener. *)
Lemma legacy_onmessage_kline_witness :
  ∃ t,
    WS.tickerUpdates
      (Legacy.out
         (Legacy.onmessage (Scenario.at_ 11000 0) (Fulfilled Scenario.klineMessage)
            ((Legacy.create "BTCUSDT" "1m") <| Legacy.onTickerUpdate := true |>)))
    = WS.tickerUpdates
        (Legacy.out
           ((Legacy.create "BTCUSDT" "1m") <| Legacy.onTickerUpdate := true |>))
      ++ [t]
    ∧ Ticker.p t = Js.str "0.00"
    ∧ Ticker.P t = Js.str "0.00"
    ∧ Ticker.c t = Js.str "43260.00".
Proof.
  apply (legacy_onmessage_kline
           (Scenario.at_ 11000 0) Scenario.klineMessage (Js.str "kline")
           (Js.lookupField "k" [("e", Js.str "kline"); ("E", Js.number 1700000000000);
                                ("s", Js.str "BTCUSDT");
                                ("k", Js.object
                                   [("t", Js.number 1700000000000);
                                    ("o", Js.str "43100.00");
                                    ("c", Js.str "43260.00");
                                    ("h", Js.str "43300.00");
                                    ("l", Js.str "43000.00");
                                    ("v", Js.str "12.5");
                                    ("x", Js.boolean false)])])
           (Js.str "43260.00")
           ((Legacy.create "BTCUSDT" "1m") <| Legacy.onTickerUpdate := true |>));
    reflexivity.
Defined.

(** ** The data orchestrator, continued *)

(** *** Whole invocations *)

Section HookRunFacts.
Context `{Hook.Collaborators}.
Import Hook.

Lemma fetchPriceData_settled_subscription t0 r s :
  subscription (fetchPriceData_settled t0 r s) = subscription s.
Proof. destruct r; reflexivity. Qed.

Lemma fetchData_settled_subscription cl t0 now r s :
  subscription (fetchData_settled cl t0 now r s) = subscription s.
Proof.
  unfold fetchData_settled. destruct r; repeat case_match; reflexivity.
Qed.

(** The promise awaited by the invocation suspended last settles. *)
Lemma settle_last now ts t rp s rq :
  settle now (length ts) rp {| st := s; tasks := ts ++ [t]; requests := rq |}
  = match resume now t rp s with
    | Some (s', Some (t', r')) =>
        {| st := s'; tasks := ts ++ [t']; requests := rq ++ [r'] |}
    | Some (s', None) => {| st := s'; tasks := ts; requests := rq |}
    | None => {| st := s; tasks := ts ++ [t]; requests := rq |}
    end.
Proof.
  unfold settle. cbn [tasks st requests].
  rewrite list_lookup_middle by reflexivity.
  destruct (resume now t rp s) as [[s' [[t' r']|]]|]; [| |reflexivity].
  - f_equal. rewrite insert_app_r_alt by reflexivity.
    rewrite Nat.sub_diag. reflexivity.
  - f_equal. rewrite delete_middle. apply app_nil_r.
Qed.

Lemma intervalToUse_same cl : intervalToUse (Some (cTimeframe cl)) cl = cTimeframe cl.
Proof.
  unfold intervalToUse, Providers.orElse.
  destruct (Providers.truthy _); reflexivity.
Qed.

(** X23.  A whole [refreshData]: called with no refresh in flight it asks for
    the ticker, then for 100 candles, of the symbol and the timeframe
    current at the call; however the two fetches end, failures included,
    the invocation returns with [isRefreshingRef] and [isLoading] cleared
    and leaves the subscription as it was. *)
Theorem refreshData_completes (t1 t2 t3 : Z) (m : Machine)
    (r1 : Settled Rest.TickerData string)
    (r2 : Settled (list ProcessedCandle) string) :
  isRefreshingRef (st m) = false ->
  let i := length (tasks m) in
  let m1 := refreshData t1 m in
  let m3 := settle t3 i (KlinesReply r2) (settle t2 i (TickerReply r1) m1) in
  isRefreshingRef (st m1) = true
  ∧ requests m3
    = requests m ++
      [Fetch24hrTicker (currentSymbol (st m));
       FetchKlines (currentSymbol (st m)) (currentTimeframe (st m)) 100]
  ∧ tasks m3 = tasks m
  ∧ isRefreshingRef (st m3) = false
  ∧ isLoading (st m3) = false
  ∧ subscription (st m3) = subscription (st m).
Proof.
  destruct m as [s ts rq]. cbn [st tasks requests]. intros Hf. cbv zeta.
  unfold refreshData. cbn [st]. rewrite Hf. cbv zeta.
  unfold suspend. cbn [st tasks requests].
  split; [reflexivity|].
  rewrite settle_last. cbn [resume].
  rewrite settle_last. cbn [resume].
  cbn [st tasks requests].
  split; [rewrite <- app_assoc; reflexivity|].
  split; [reflexivity|].
  split; [reflexivity|].
  split; [reflexivity|].
  match goal with
  | |- subscription (apply_update _ (apply_update _ ?x)) = _ =>
      change (subscription x = subscription s)
  end.
  destruct (0 <? length _)%nat;
    [match goal with
     | |- subscription (apply_update _ (apply_update _ ?x)) = _ =>
         change (subscription x = subscription s)
     end|];
    rewrite fetchData_settled_subscription; unfold fetchData_begin;
    match goal with
    | |- subscription (apply_update _ ?x) = _ =>
        change (subscription x = subscription s)
    end;
    rewrite fetchPriceData_settled_subscription; reflexivity.
Qed.

(** X24.  A whole [changeSymbol]: after its 500 ms wait the invocation asks
    for the ticker and the candles of the symbol that was current when it
    was called, not of [newSymbol], although [currentSymbol] is
    [newSymbol] from the call on; it returns with [isChangingSymbolRef]
    and [isLoading] cleared however the fetches end. *)
Theorem changeSymbol_fetches_previous_symbol (t2 t3 t4 : Z) (newSymbol : string)
    (m : Machine) (r1 : Settled Rest.TickerData string)
    (r2 : Settled (list ProcessedCandle) string) :
  newSymbol ≠ currentSymbol (st m) ->
  isChangingSymbolRef (st m) = false ->
  let i := length (tasks m) in
  let m1 := changeSymbol newSymbol m in
  let m4 :=
    settle t4 i (KlinesReply r2)
      (settle t3 i (TickerReply r1) (settle t2 i Elapsed m1)) in
  currentSymbol (st m1) = newSymbol
  ∧ requests m4
    = requests m ++
      [Sleep 500;
       Fetch24hrTicker (currentSymbol (st m));
       FetchKlines (currentSymbol (st m)) (currentTimeframe (st m)) 100]
  ∧ tasks m4 = tasks m
  ∧ subscription (st m4) = (newSymbol, currentTimeframe (st m))
  ∧ isChangingSymbolRef (st m4) = false
  ∧ isLoading (st m4) = false.
Proof.
  destruct m as [s ts rq]. cbn [st tasks requests]. intros Hne Hf. cbv zeta.
  unfold changeSymbol. cbn [st].
  rewrite (proj2 (String.eqb_neq _ _) Hne), Hf. cbv zeta.
  unfold suspend. cbn [st tasks requests].
  split; [reflexivity|].
  rewrite settle_last. cbn [resume].
  rewrite settle_last. cbn [resume].
  rewrite settle_last. cbn [resume].
  cbn [st tasks requests].
  split.
  { rewrite <- !app_assoc. cbn [app]. rewrite intervalToUse_same. reflexivity. }
  split; [reflexivity|].
  split; [|split; reflexivity].
  match goal with
  | |- subscription (apply_update _ (apply_update _ ?x)) = _ =>
      change (subscription x = (newSymbol, currentTimeframe s))
  end.
  rewrite fetchData_settled_subscription. unfold fetchData_begin.
  match goal with
  | |- subscription (apply_update _ ?x) = _ =>
      change (subscription x = (newSymbol, currentTimeframe s))
  end.
  rewrite fetchPriceData_settled_subscription. reflexivity.
Qed.

(** X25.  In every state the hook can reach, each in-flight flag is set
    exactly while one invocation of its callback is suspended: no flag is
    left set with nothing that would clear it, and no two symbol changes
    or timeframe changes are in flight together. *)
Theorem flags_track_invocations (m : Machine) :
  reachable m ->
  (isRefreshingRef (st m) = true ↔ inFlight isRefresh m = 1%nat)
  ∧ (isChangingSymbolRef (st m) = true ↔ inFlight isSymbolChange m = 1%nat)
  ∧ (isChangingTimeframeRef (st m) = true ↔ inFlight isTimeframeChange m = 1%nat)
  ∧ (inFlight isSymbolChange m <= 1)%nat
  ∧ (inFlight isTimeframeChange m <= 1)%nat.
Proof.
  intros Hm. destruct (reachable_flagsMatch m Hm) as (HR & HS & HT).
  rewrite HR, HS, HT.
  destruct (isRefreshingRef (st m)), (isChangingSymbolRef (st m)),
    (isChangingTimeframeRef (st m)); repeat split; intros; (lia || congruence).
Qed.

(** *** The live price in the latest candle *)

(** X26.  Merging the live price touches the latest candle only, and of it
    only [close], [high] and [low]: the number of candles, every earlier
    candle, and the time, open and volume of the latest one stay. *)
Theorem withLivePrice_touches_latest_only
    (price : option float) (candles : list ProcessedCandle) :
  length (withLivePrice price candles) = length candles
  ∧ (∀ i, (S i < length candles)%nat ->
          withLivePrice price candles !! i = candles !! i)
  ∧ (time <$> last (withLivePrice price candles)) = (time <$> last candles)
  ∧ (open <$> last (withLivePrice price candles)) = (open <$> last candles)
  ∧ (volume <$> last (withLivePrice price candles)) = (volume <$> last candles).
Proof.
  unfold withLivePrice.
  destruct price as [p|]; [|repeat split; reflexivity].
  destruct (last candles) as [c|] eqn:Hlast;
    [|rewrite Hlast; repeat split; reflexivity].
  destruct (_ && _); [|rewrite Hlast; repeat split; reflexivity].
  split; [apply length_insert|].
  split.
  { intros i Hi. apply list_lookup_insert_ne. lia. }
  assert (Hlen : (length candles - 1 < length candles)%nat)
    by (destruct candles; [discriminate Hlast | cbn; lia]).
  rewrite !last_lookup, length_insert.
  rewrite last_lookup in Hlast.
  replace (Init.Nat.pred (length candles)) with (length candles - 1)%nat in *
    by lia.
  rewrite list_lookup_insert_eq by exact Hlen.
  repeat split; reflexivity.
Qed.

End HookRunFacts.

(** *** Scenarios of the hook *)

(** X22 on the loaded hook: a ticker with a change of [108.5] / [0.25]. *)
Lemma ticker_nonzero_change_replaces_witness :
  Hook.priceChange
    (Hook.stableHandleTickerUpdate 9000 true
       {| Ticker.e := Js.str "24hrTicker"; Ticker.E := Js.number 1700000000000;
          Ticker.s := Js.str "BTCUSDT"; Ticker.c := Js.str "43260.00";
          Ticker.o := Js.str "43100.00"; Ticker.h := Js.str "43300.00";
          Ticker.l := Js.str "43000.00"; Ticker.P := Js.str "0.25";
          Ticker.p := Js.str "108.5" |}
       (Hook.st Sample.loaded)) = 108.5%float
  ∧ Hook.priceChangePercent
      (Hook.stableHandleTickerUpdate 9000 true
         {| Ticker.e := Js.str "24hrTicker"; Ticker.E := Js.number 1700000000000;
            Ticker.s := Js.str "BTCUSDT"; Ticker.c := Js.str "43260.00";
            Ticker.o := Js.str "43100.00"; Ticker.h := Js.str "43300.00";
            Ticker.l := Js.str "43000.00"; Ticker.P := Js.str "0.25";
            Ticker.p := Js.str "108.5" |}
         (Hook.st Sample.loaded)) = 0.25%float.
Proof.
  exact (ticker_nonzero_change_replaces 9000 true
           {| Ticker.e := Js.str "24hrTicker"; Ticker.E := Js.number 1700000000000;
              Ticker.s := Js.str "BTCUSDT"; Ticker.c := Js.str "43260.00";
              Ticker.o := Js.str "43100.00"; Ticker.h := Js.str "43300.00";
              Ticker.l := Js.str "43000.00"; Ticker.P := Js.str "0.25";
              Ticker.p := Js.str "108.5" |}
           (Hook.st Sample.loaded) eq_refl).
Defined.

(** X23 on the loaded hook, the candle fetch failing. *)
Lemma refreshData_completes_witness :
  Hook.requests
    (Hook.settle 3000 0 (Hook.KlinesReply (Rejected "HTTP 451"))
       (Hook.settle 2500 0 (Hook.TickerReply (Fulfilled Sample.restTicker))
          (Hook.refreshData 2000 Sample.loaded)))
  = Hook.requests Sample.loaded ++
    [Hook.Fetch24hrTicker "BTCUSDT"; Hook.FetchKlines "BTCUSDT" "1d" 100]
  ∧ Hook.isRefreshingRef
      (Hook.st
         (Hook.settle 3000 0 (Hook.KlinesReply (Rejected "HTTP 451"))
            (Hook.settle 2500 0 (Hook.TickerReply (Fulfilled Sample.restTicker))
               (Hook.refreshData 2000 Sample.loaded)))) = false.
Proof.
  pose proof (refreshData_completes 2000 2500 3000 Sample.loaded
                (Fulfilled Sample.restTicker) (Rejected "HTTP 451") eq_refl)
    as (_ & Hrq & _ & Hfl & _).
  split; [exact Hrq | exact Hfl].
Defined.

(** X24 on the loaded hook: the change to ETHUSDT fetches BTCUSDT. *)
Lemma changeSymbol_fetches_previous_symbol_witness :
  Hook.currentSymbol (Hook.st (Hook.changeSymbol "ETHUSDT" Sample.loaded))
  = "ETHUSDT"
  ∧ Hook.requests
      (Hook.settle 4000 0 (Hook.KlinesReply (Fulfilled [Sample.candle0]))
         (Hook.settle 3000 0 (Hook.TickerReply (Fulfilled Sample.restTicker))
            (Hook.settle 2500 0 Hook.Elapsed
               (Hook.changeSymbol "ETHUSDT" Sample.loaded))))
    = Hook.requests Sample.loaded ++
      [Hook.Sleep 500; Hook.Fetch24hrTicker "BTCUSDT";
       Hook.FetchKlines "BTCUSDT" "1d" 100].
Proof.
  pose proof (changeSymbol_fetches_previous_symbol 2500 3000 4000 "ETHUSDT"
                Sample.loaded (Fulfilled Sample.restTicker)
                (Fulfilled [Sample.candle0])
                ltac:(discriminate) eq_refl)
    as (Hsym & Hrq & _).
  split; [exact Hsym | exact Hrq].
Defined.

(** X25 with a refresh in flight. *)
Lemma flags_track_invocations_witness :
  Hook.isRefreshingRef (Hook.st Sample.refreshing) = true
  ↔ Hook.inFlight Hook.isRefresh Sample.refreshing = 1%nat.
Proof.
  exact (proj1 (flags_track_invocations Sample.refreshing refreshing_reachable)).
Defined.

(** ** Symbol search *)

Section SymbolFacts.
Import Symbols.
Variable toUpperCase : string -> string.

Lemma elem_of_filter_bool {A} (f : A -> bool) (l : list A) x :
  x ∈ List.filter f l ↔ x ∈ l ∧ f x = true.
Proof. rewrite !list_elem_of_In. apply filter_In. Qed.

Lemma slice0_take {A} (l : list A) limit : ∃ k, slice0 l limit = take k l.
Proof. eexists. reflexivity. Qed.

Lemma slice0_all {A} (l : list A) n :
  Z.of_nat (length l) <= n -> slice0 l (Some n) = l.
Proof.
  intros H. unfold slice0. cbn [default from_option id].
  destruct (Z.ltb_spec n 0); [lia|].
  apply take_ge. lia.
Qed.

Lemma slice0_length {A} (l : list A) n :
  0 <= n -> Z.of_nat (length (slice0 l (Some n))) <= n.
Proof.
  intros H. unfold slice0. cbn [default from_option id].
  destruct (Z.ltb_spec n 0); [lia|].
  rewrite length_take. lia.
Qed.

(** The symbols a query matches. *)
Lemma disjoint_filters_length {A} (f h : A -> bool) (l : list A) :
  (∀ s, s ∈ l -> f s = true -> h s = false) ->
  (length (List.filter f l) + length (List.filter h l) <= length l)%nat.
Proof.
  induction l as [|x l IH]; intros H; [reflexivity|].
  cbn [List.filter].
  assert (IH' := IH (λ s Hs, H s (list_elem_of_further _ _ _ Hs))).
  destruct (f x) eqn:Ef.
  - rewrite (H x (list_elem_of_here _ _) Ef). cbn [length]. lia.
  - destruct (h x); cbn [length]; lia.
Qed.

(** The search as one list of matches, cut by the limit. *)
Lemma searchSymbols_matches symbols query :
  let wanted s :=
    if String.eqb query "" then isUSDT s
    else isExactMatch (toUpperCase query) s
         || isPartialMatch toUpperCase (toUpperCase query) s in
  ∃ usdt other,
    (∀ limit, searchSymbols toUpperCase symbols query limit
              = slice0 (usdt ++ other) limit)
    ∧ (∀ s, s ∈ usdt ++ other ↔ s ∈ symbols ∧ wanted s = true)
    ∧ Forall (λ s, quoteAsset s = "USDT") usdt
    ∧ Forall (λ s, quoteAsset s ≠ "USDT") other
    ∧ (length (usdt ++ other) <= length symbols)%nat.
Proof.
  cbv zeta. unfold searchSymbols.
  destruct (String.eqb query "").
  - exists (List.filter isUSDT symbols), [].
    rewrite app_nil_r.
    split; [reflexivity|].
    split; [|split; [|split]].
    + intros s. apply elem_of_filter_bool.
    + apply Forall_forall. intros s Hs%elem_of_filter_bool.
      apply String.eqb_eq, Hs.
    + apply Forall_nil_2.
    + apply filter_length_le.
  - set (q := toUpperCase query).
    set (exact := List.filter (isExactMatch q) symbols).
    set (partial := List.filter _ symbols).
    exists (List.filter isUSDT (exact ++ partial)),
           (List.filter (λ s, negb (isUSDT s)) (exact ++ partial)).
    split; [reflexivity|].
    split; [|split; [|split]].
    + intros s.
      rewrite elem_of_app, !elem_of_filter_bool, elem_of_app.
      subst exact partial. rewrite !elem_of_filter_bool.
      destruct (isUSDT s), (isExactMatch q s) eqn:Ee,
        (isPartialMatch toUpperCase q s); cbn;
        try (rewrite bool_decide_eq_false_2
               by (rewrite elem_of_filter_bool; rewrite Ee; intuition discriminate));
        cbn; intuition (try discriminate).
    + apply Forall_forall. intros s Hs%elem_of_filter_bool.
      apply String.eqb_eq, Hs.
    + apply Forall_forall. intros s [_ Hs]%elem_of_filter_bool Hq.
      apply String.eqb_eq in Hq. unfold isUSDT in Hs. rewrite Hq in Hs.
      discriminate.
    + rewrite length_app, filter_length, length_app.
      apply disjoint_filters_length.
      intros s Hs He.
      rewrite bool_decide_eq_true_2; [reflexivity|].
      apply elem_of_filter_bool. split; assumption.
Qed.

(** X27.  Every result of a search is one of the given symbols and matches the
    query: a USDT pair for the empty query, an exact or partial match of the
    upper-cased query otherwise. *)
Theorem searchSymbols_sound symbols query limit :
  Forall (λ s, s ∈ symbols
               ∧ (if String.eqb query "" then isUSDT s
                  else isExactMatch (toUpperCase query) s
                       || isPartialMatch toUpperCase (toUpperCase query) s)
                 = true)
    (searchSymbols toUpperCase symbols query limit).
Proof.
  destruct (searchSymbols_matches symbols query)
    as (usdt & other & -> & Hin & _).
  apply Forall_forall. intros s Hs.
  apply Hin.
  destruct (slice0_take (usdt ++ other) limit) as [k Hk].
  rewrite Hk in Hs. eapply subseteq_take, Hs.
Qed.


(** X28.  USDT pairs come first: a result is a run of USDT pairs followed by
    pairs of other quote assets, whatever the limit. *)
Theorem searchSymbols_usdt_first symbols query limit :
  ∃ usdt other,
    searchSymbols toUpperCase symbols query limit = usdt ++ other
    ∧ Forall (λ s, quoteAsset s = "USDT") usdt
    ∧ Forall (λ s, quoteAsset s ≠ "USDT") other.
Proof.
  destruct (searchSymbols_matches symbols query)
    as (usdt & other & -> & _ & Hu & Ho & _).
  destruct (slice0_take (usdt ++ other) limit) as [k ->].
  exists (take k usdt), (take (k - length usdt) other).
  split; [apply take_app|].
  split; apply Forall_take; assumption.
Qed.

(** X29.  With a limit of at least the number of symbols, a symbol is found
    exactly when it is listed and matches the query. *)
Theorem searchSymbols_complete symbols query n s :
  Z.of_nat (length symbols) <= n ->
  s ∈ searchSymbols toUpperCase symbols query (Some n)
  ↔ s ∈ symbols
    ∧ (if String.eqb query "" then isUSDT s
       else isExactMatch (toUpperCase query) s
            || isPartialMatch toUpperCase (toUpperCase query) s) = true.
Proof.
  intros Hn.
  destruct (searchSymbols_matches symbols query)
    as (usdt & other & -> & Hin & _ & _ & Hlen).
  rewrite slice0_all by lia. apply Hin.
Qed.

(** X30.  How the limit is applied: a limit that is not negative bounds
    the number of results; one that is not a number gives no result; and a
    negative limit [-k] drops the last [k] of the matches instead of
    bounding them. *)
Theorem searchSymbols_limit symbols query :
  (∀ n, 0 <= n ->
        Z.of_nat (length (searchSymbols toUpperCase symbols query (Some n))) <= n)
  ∧ searchSymbols toUpperCase symbols query None = []
  ∧ ∀ k, 0 < k ->
      let all :=
        searchSymbols toUpperCase symbols query
          (Some (Z.of_nat (length symbols))) in
      searchSymbols toUpperCase symbols query (Some (- k))
      = take (length all - Z.to_nat k) all.
Proof.
  destruct (searchSymbols_matches symbols query)
    as (usdt & other & Hs & _ & _ & _ & Hlen).
  split; [|split].
  - intros n Hn. rewrite Hs. apply slice0_length, Hn.
  - rewrite Hs. unfold slice0. cbn [default from_option id Z.ltb Z.compare].
    rewrite Z.min_l by lia. reflexivity.
  - intros k Hk. cbv zeta. rewrite !Hs.
    rewrite (slice0_all _ (Z.of_nat (length symbols))) by lia.
    unfold slice0. cbn [default from_option id].
    destruct (Z.ltb_spec (- k) 0); [|lia].
    f_equal. lia.
Qed.

End SymbolFacts.

(** X29 on the fallback list: the query [bnb] finds BNBUSDT. *)
Lemma searchSymbols_complete_witness :
  {| Symbols.symbol := "BNBUSDT"; Symbols.baseAsset := "BNB";
     Symbols.quoteAsset := "USDT"; Symbols.status := "TRADING";
     Symbols.displayName := Some "BNB/USDT" |}
    ∈ Symbols.searchSymbols Symbols.toUpperCase Symbols.fallbackSymbols "bnb"
        (Some 50).
Proof.
  apply (searchSymbols_complete Symbols.toUpperCase Symbols.fallbackSymbols
           "bnb" 50).
  - vm_compute. discriminate.
  - split; [|reflexivity].
    apply list_elem_of_further, list_elem_of_further, list_elem_of_here.
Defined.
